(** * pyss3.server: a shallow embedding of the SS3 live-test HTTP server

    The development follows [src/pyss3/server.py].  Python text ([str]) is a
    list of Unicode code points, Python [bytes] is a list of 8-bit
    characters, dictionaries are finite maps, and every function that can
    raise, block or loop forever returns an [outcome] together with the
    world it leaves behind. *)

From Stdlib Require Import ZArith NArith Ascii String List Lia Bool.
From stdpp Require Import base tactics option list numbers countable gmap pretty.

Open Scope Z_scope.
Open Scope list_scope.

(** ** Python text and bytes *)

Abbreviation str := (list N).
Abbreviation bytes := (list ascii).

(** A string literal of the source, as the [str] it denotes. *)
Definition lit (s : string) : str := map N_of_ascii (list_ascii_of_string s).

(** A bytes literal of the source ([b"..."], or [ascii_literal.encode()]). *)
Definition blit (s : string) : bytes := list_ascii_of_string s.

(** ["%d" % n] *)
Definition fmt_d (n : Z) : str := lit (pretty n).

Module Str.

(** [s.startswith(p)] *)
Fixpoint startswith (p s : str) : bool :=
  match p, s with
  | [], _ => true
  | _ :: _, [] => false
  | a :: p', b :: s' => (a =? b)%N && startswith p' s'
  end.

(** [s.endswith(p)] *)
Definition endswith (p s : str) : bool :=
  startswith (rev p) (rev s).

(** [s.find(sub)]: the index of the first occurrence, [-1] when there is
    none. *)
Fixpoint find_from (sub s : str) (i : Z) : Z :=
  if startswith sub s then i
  else match s with
       | [] => -1
       | _ :: s' => find_from sub s' (i + 1)
       end.

Definition find (sub s : str) : Z := find_from sub s 0.

(** [sub in s] *)
Definition contains (sub s : str) : bool := 0 <=? find sub s.

(** [s.rfind(c)] for a one-character [c]: the index of the last
    occurrence, [-1] when there is none. *)
Fixpoint rfind_from (c : N) (s : str) (i : Z) : Z :=
  match s with
  | [] => -1
  | x :: s' =>
      let r := rfind_from c s' (i + 1) in
      if 0 <=? r then r else if (x =? c)%N then i else -1
  end.

Definition rfind (c : N) (s : str) : Z := rfind_from c s 0.

(** [s[:i]] and [s[i:]] for [i >= 0]. *)
Definition upto (i : Z) (s : str) : str := take (Z.to_nat i) s.
Definition from (i : Z) (s : str) : str := drop (Z.to_nat i) s.

(** [s.lstrip(c)] and [s.rstrip(c)] for a one-character [c]. *)
Fixpoint lstrip (c : N) (s : str) : str :=
  match s with
  | x :: s' => if (x =? c)%N then lstrip c s' else s
  | [] => []
  end.

Definition rstrip (c : N) (s : str) : str := rev (lstrip c (rev s)).

(** [s.replace(old, new)] for a non-empty [old]: occurrences are replaced
    from the left and do not overlap; [skip] counts the characters of a
    matched occurrence that are still to be passed over. *)
Fixpoint replace_go (old new : str) (skip : nat) (s : str) : str :=
  match s with
  | [] => []
  | x :: s' =>
      match skip with
      | S k => replace_go old new k s'
      | O => if startswith old s
             then new ++ replace_go old new (pred (length old)) s'
             else x :: replace_go old new O s'
      end
  end.

Definition replace (old new s : str) : str := replace_go old new O s.

(** [s.split(sep)] for a non-empty [sep], as the first piece and the
    pieces after it. *)
Fixpoint split_go (sep : str) (skip : nat) (s : str) : str * list str :=
  match s with
  | [] => ([], [])
  | x :: s' =>
      match skip with
      | S k => split_go sep k s'
      | O => if startswith sep s
             then let '(p, ps) := split_go sep (pred (length sep)) s' in
                  ([], p :: ps)
             else let '(p, ps) := split_go sep O s' in
                  (x :: p, ps)
      end
  end.

Definition split (sep s : str) : list str :=
  let '(p, ps) := split_go sep O s in p :: ps.

End Str.

(** ** posixpath *)

Module PosixPath.

Definition sep : N := 47.     (* '/' *)
Definition extsep : N := 46.  (* '.' *)

(** [posixpath.split(p)] *)
Definition split (p : str) : str * str :=
  let i := Str.rfind sep p + 1 in
  let head := Str.upto i p in
  let tail := Str.from i p in
  let head :=
    if negb (bool_decide (head = [])) &&
       negb (bool_decide (head = repeat sep (length head)))
    then Str.rstrip sep head else head in
  (head, tail).

(** [posixpath.dirname(p)] *)
Definition dirname (p : str) : str :=
  let i := Str.rfind sep p + 1 in
  let head := Str.upto i p in
  if negb (bool_decide (head = [])) &&
     negb (bool_decide (head = repeat sep (length head)))
  then Str.rstrip sep head else head.

(** The loop of [genericpath._splitext] that skips the leading dots of
    the file name: [n] positions from [filenameIndex] up to [dotIndex]. *)
Fixpoint splitext_scan (p : str) (dotIndex : Z) (n : nat) (filenameIndex : Z)
  : str * str :=
  match n with
  | O => (p, [])
  | S n' =>
      if bool_decide (Str.upto 1 (Str.from filenameIndex p) = [extsep])
      then splitext_scan p dotIndex n' (filenameIndex + 1)
      else (Str.upto dotIndex p, Str.from dotIndex p)
  end.

(** [posixpath.splitext(p)] *)
Definition splitext (p : str) : str * str :=
  let sepIndex := Str.rfind sep p in
  let dotIndex := Str.rfind extsep p in
  if sepIndex <? dotIndex
  then let filenameIndex := sepIndex + 1 in
       splitext_scan p dotIndex (Z.to_nat (dotIndex - filenameIndex))
                     filenameIndex
  else (p, []).

(** [posixpath.join(a, b)] *)
Definition join (a b : str) : str :=
  if Str.startswith [sep] b then b
  else if bool_decide (a = []) || Str.endswith [sep] a then a ++ b
  else a ++ sep :: b.

End PosixPath.

(** ** Module-level definitions of server.py *)

Section StaticResources.

(** The value of [__file__] when the module is loaded. *)
Variable module_file : str.

Definition BASE_PATH : str :=
  PosixPath.join (PosixPath.dirname module_file)
                 (lit "resources/visual_classifier").

Definition parse_and_sanitize (rsc_path : str) : str * str :=
  let '(dir, file) := PosixPath.split rsc_path in
  let file := if bool_decide (file = []) then lit "index.html" else file in
  let ext := Str.from 1 (snd (PosixPath.splitext file)) in
  let rsc_path :=
    Str.from 1
      (PosixPath.join
         (Str.replace (lit "//") (lit "/") (Str.replace (lit ".") [] dir))
         file) in
  (PosixPath.join BASE_PATH rsc_path, ext).

End StaticResources.

(** A path is rooted under [base] when it is [base] or starts with [base]
    and a separator. *)
Definition rooted_under (base p : str) : bool :=
  bool_decide (p = base) || Str.startswith (base ++ [PosixPath.sep]) p.

(** A path stays below [base] when it is [base], a separator and a
    relative path none of whose steps is [..]. *)
Definition lexically_under (base p : str) : bool :=
  Str.startswith (base ++ [PosixPath.sep]) p &&
  negb (bool_decide
          (lit ".." ∈ Str.split [PosixPath.sep] (drop (length base) p))).

(** ** Encodings *)

(** [bytes.decode()] (UTF-8, strict), on the numeric values of the bytes.
    [None] stands for [UnicodeDecodeError]. *)
Definition utf8_cont (b : N) : bool := ((128 <=? b) && (b <=? 191))%N.

Fixpoint utf8_decode (bs : list N) : option str :=
  match bs with
  | [] => Some []
  | b0 :: t0 =>
      if (b0 <? 128)%N then cons b0 <$> utf8_decode t0
      else if ((194 <=? b0) && (b0 <=? 223))%N then
        match t0 with
        | b1 :: t1 =>
            if utf8_cont b1
            then cons ((b0 - 192) * 64 + (b1 - 128))%N <$> utf8_decode t1
            else None
        | _ => None
        end
      else if ((224 <=? b0) && (b0 <=? 239))%N then
        match t0 with
        | b1 :: b2 :: t2 =>
            let lo := if (b0 =? 224)%N then 160%N else 128%N in
            let hi := if (b0 =? 237)%N then 159%N else 191%N in
            if ((lo <=? b1) && (b1 <=? hi))%N && utf8_cont b2
            then cons ((b0 - 224) * 4096 + (b1 - 128) * 64 + (b2 - 128))%N
                   <$> utf8_decode t2
            else None
        | _ => None
        end
      else if ((240 <=? b0) && (b0 <=? 244))%N then
        match t0 with
        | b1 :: b2 :: b3 :: t3 =>
            let lo := if (b0 =? 240)%N then 144%N else 128%N in
            let hi := if (b0 =? 244)%N then 143%N else 191%N in
            if ((lo <=? b1) && (b1 <=? hi))%N && utf8_cont b2 && utf8_cont b3
            then cons ((b0 - 240) * 262144 + (b1 - 128) * 4096
                       + (b2 - 128) * 64 + (b3 - 128))%N
                   <$> utf8_decode t3
            else None
        | _ => None
        end
      else None
  end.

Definition decode (data : bytes) : option str :=
  utf8_decode (map N_of_ascii data).

(** [str.encode("utf-8")]; [None] stands for [UnicodeEncodeError] (lone
    surrogates). *)
Definition utf8_encode_char (c : N) : option (list N) :=
  if (c <? 128)%N then Some [c]
  else if (c <? 2048)%N then Some [192 + c / 64; 128 + c mod 64]%N
  else if (c <? 65536)%N then
    if ((55296 <=? c) && (c <=? 57343))%N then None
    else Some [224 + c / 4096; 128 + c / 64 mod 64; 128 + c mod 64]%N
  else if (c <? 1114112)%N then
    Some [240 + c / 262144; 128 + c / 4096 mod 64;
          128 + c / 64 mod 64; 128 + c mod 64]%N
  else None.

Fixpoint encode (s : str) : option bytes :=
  match s with
  | [] => Some []
  | c :: s' =>
      match utf8_encode_char c, encode s' with
      | Some bs, Some r => Some (map ascii_of_N bs ++ r)
      | _, _ => None
      end
  end.

(** The paths for which [open], [listdir] and the like get as far as the
    file system: text that can be encoded and holds no NUL character.  For
    any other path they raise [ValueError]. *)
Definition os_path (p : str) : bool :=
  bool_decide (0%N ∉ p) && bool_decide (is_Some (encode p)).

(** ** Exceptions and outcomes *)

Inductive exn : Type :=
  | IndexError
  | ValueError
  | KeyError
  | TypeError
  | AttributeError
  | UnicodeDecodeError
  | UnicodeEncodeError
  | OSError                      (* FileNotFoundError, IsADirectoryError, ... *)
  | KeyboardInterrupt
  | OtherException (msg : str).  (* any other subclass of [Exception] *)

(** [isinstance(e, Exception)]: [KeyboardInterrupt] derives from
    [BaseException] only. *)
Definition is_Exception (e : exn) : bool :=
  match e with
  | KeyboardInterrupt => false
  | _ => true
  end.

(** [str(e)], as far as the server prints it.  For the built-in classes
    the text stands for the message, which the exceptions here do not
    carry. *)
Definition exn_str (e : exn) : str :=
  match e with
  | IndexError => lit "list index out of range"
  | ValueError => lit "ValueError"
  | KeyError => lit "KeyError"
  | TypeError => lit "TypeError"
  | AttributeError => lit "AttributeError"
  | UnicodeDecodeError => lit "UnicodeDecodeError"
  | UnicodeEncodeError => lit "UnicodeEncodeError"
  | OSError => lit "OSError"
  | KeyboardInterrupt => []
  | OtherException msg => msg
  end.

(** What running a piece of the program comes to: it returns a value, it
    raises, or it never returns (a blocked [recv], an endless loop). *)
Inductive outcome (A : Type) : Type :=
  | Ret (a : A)
  | Raise (e : exn)
  | Diverge.
Arguments Ret {A} a.
Arguments Raise {A} e.
Arguments Diverge {A}.

(** ** Module constants *)

Definition CRLF : str := [13; 10]%N.

(** [HTTP_RESPONSE % (ctype, length)] *)
Definition HTTP_RESPONSE (ctype : str) (length : Z) : str :=
  lit "HTTP/1.1 200 OK" ++ CRLF ++
  lit "Connection: close" ++ CRLF ++
  lit "Access-Control-Allow-Origin: *" ++ CRLF ++
  lit "Server: SS3" ++ CRLF ++
  lit "Content-type: " ++ ctype ++ CRLF ++
  lit "Content-length: " ++ fmt_d length ++ CRLF ++ CRLF.

Definition HTTP_404 : bytes :=
  blit "HTTP/1.1 404 Not Found" ++ [ascii_of_N 13; ascii_of_N 10] ++
  blit "Connection: close" ++ [ascii_of_N 13; ascii_of_N 10] ++
  blit "Server: SS3" ++ [ascii_of_N 13; ascii_of_N 10] ++
  blit "Content-length: 0" ++ [ascii_of_N 13; ascii_of_N 10] ++
  [ascii_of_N 13; ascii_of_N 10].

Definition CONTET_TYPE : list (str * str) :=
  [ (lit "html", lit "text/html");
    (lit "css", lit "text/css");
    (lit "js", lit "application/javascript");
    (lit "png", lit "image/png");
    (lit "json", lit "application/json");
    (lit "ico", lit "image/vnd.microsoft.icon");
    (lit "_other_", lit "application/octet-stream") ].

Fixpoint assoc (k : str) (l : list (str * str)) : option str :=
  match l with
  | [] => None
  | (k', v) :: l' => if bool_decide (k = k') then Some v else assoc k l'
  end.

Definition content_type (ext : str) : str :=
  match assoc ext CONTET_TYPE with
  | Some t => t
  | None => default [] (assoc (lit "_other_") CONTET_TYPE)
  end.

(** ** Request parsing *)

(** [l[i]] for [i >= 0]; [IndexError] out of range. *)
Definition index {A} (l : list A) (i : nat) : outcome A :=
  match l !! i with
  | Some x => Ret x
  | None => Raise IndexError
  end.

Definition get_http_path (http_request : str) : outcome str :=
  match index (Str.split [10%N] http_request) 0 with
  | Ret line => index (Str.split [32%N] line) 1
  | Raise e => Raise e
  | Diverge => Diverge
  end.

Definition get_http_body (http_request : str) : outcome str :=
  index (Str.split (CRLF ++ CRLF) http_request) 1.

(** [\s] of a [str] pattern: the characters for which [str.isspace()]
    holds. *)
Definition is_space (c : N) : bool :=
  (((9 <=? c) && (c <=? 13)) || ((28 <=? c) && (c <=? 32)) ||
   (c =? 133) || (c =? 160) || (c =? 5760) ||
   ((8192 <=? c) && (c <=? 8202)) || (c =? 8232) || (c =? 8233) ||
   (c =? 8239) || (c =? 8287) || (c =? 12288))%N.

(** [\d] and the digits [int()] reads.  Only the ASCII digits are
    modelled; Python also takes the decimal digits of other scripts. *)
Definition is_digit (c : N) : bool := ((48 <=? c) && (c <=? 57))%N.

(** [sys.int_info.default_max_str_digits]: the longest numeral that
    [int()] converts; for a longer one it raises [ValueError]. *)
Definition default_max_str_digits : nat := 4300.

Definition lower (c : N) : N :=
  if ((65 <=? c) && (c <=? 90))%N then (c + 32)%N else c.

(** Matching a lower-case literal at the head of [s] under
    [re.IGNORECASE]; the rest of [s] on success. *)
Fixpoint imatch (p s : str) : option str :=
  match p, s with
  | [], _ => Some s
  | _ :: _, [] => None
  | a :: p', b :: s' => if (a =? lower b)%N then imatch p' s' else None
  end.

Fixpoint skip_spaces (s : str) : str :=
  match s with
  | c :: s' => if is_space c then skip_spaces s' else s
  | [] => []
  end.

Fixpoint take_digits (s : str) : str :=
  match s with
  | c :: s' => if is_digit c then c :: take_digits s' else []
  | [] => []
  end.

(** The pattern [Content-length\s*:\s*(\d+)] anchored at the head of [s]:
    group 1 of the match. *)
Definition match_contlength (s : str) : option str :=
  match imatch (lit "content-length") s with
  | Some r =>
      match skip_spaces r with
      | 58%N :: r' =>
          match take_digits (skip_spaces r') with
          | [] => None
          | ds => Some ds
          end
      | _ => None
      end
  | None => None
  end.

(** [re.search]: the leftmost position where the pattern matches. *)
Fixpoint search_contlength (s : str) : option str :=
  match match_contlength s with
  | Some ds => Some ds
  | None =>
      match s with
      | [] => None
      | _ :: s' => search_contlength s'
      end
  end.

(** The digits of a decimal numeral, with the single underscores that
    [int()] allows between digits. *)
Fixpoint parse_digits (acc : Z) (after_digit : bool) (s : str) : option Z :=
  match s with
  | [] => if after_digit then Some acc else None
  | c :: s' =>
      if is_digit c then parse_digits (acc * 10 + (Z.of_N c - 48)) true s'
      else if (c =? 95)%N && after_digit then parse_digits acc false s'
      else None
  end.

(** The value of a digit string, most significant digit first. *)
Definition digits_value (acc : Z) (ds : str) : Z :=
  fold_left (fun a c => a * 10 + (Z.of_N c - 48)) ds acc.

(** [int(s)] for a [str] argument. *)
Definition py_int (s : str) : outcome Z :=
  let s := rev (skip_spaces (rev (skip_spaces s))) in
  let '(neg, ds) :=
    match s with
    | 45%N :: r => (true, r)
    | 43%N :: r => (false, r)
    | _ => (false, s)
    end in
  match parse_digits 0 false ds with
  | Some v => Ret (if neg : bool then - v else v)
  | None => Raise ValueError
  end.

Definition get_http_contlength (http_request : str) : Z :=
  match search_contlength http_request with
  | Some ds => default 0 (parse_digits 0 false ds)
  | None => 0
  end.

(** ** Lines of a text file *)

(** The line boundaries of [str.splitlines], which the readers of
    [codecs.open] use. *)
Definition is_linebreak (c : N) : bool :=
  (((10 <=? c) && (c <=? 13)) || ((28 <=? c) && (c <=? 30)) ||
   (c =? 133) || (c =? 8232) || (c =? 8233))%N.

(** [text.splitlines(keepends=True)]; [cur] is the line being read, its
    characters in reverse. *)
Fixpoint splitlines_go (cur : str) (s : str) : list str :=
  match s with
  | [] => match cur with [] => [] | _ => [rev cur] end
  | c :: s' =>
      if (c =? 13)%N then
        match s' with
        | 10%N :: s'' => rev (10 :: 13 :: cur)%N :: splitlines_go [] s''
        | _ => rev (c :: cur) :: splitlines_go [] s'
        end
      else if is_linebreak c then rev (c :: cur) :: splitlines_go [] s'
      else splitlines_go (c :: cur) s'
  end.

Definition splitlines (s : str) : list str := splitlines_go [] s.

(** [sorted] on a list of [str]: insertion by the code-point order. *)
Fixpoint str_leb (a b : str) : bool :=
  match a, b with
  | [], _ => true
  | _ :: _, [] => false
  | x :: a', y :: b' =>
      if (x <? y)%N then true
      else if (y <? x)%N then false
      else str_leb a' b'
  end.

Fixpoint insert_sorted (x : str) (l : list str) : list str :=
  match l with
  | [] => [x]
  | y :: l' => if str_leb x y then x :: l else y :: insert_sorted x l'
  end.

Definition sorted (l : list str) : list str := foldr insert_sorted [] l.

(** ** The server *)

Inductive level : Type := Show | Info | Error | Warn.

(** An entry of the file system: a regular file with its bytes, or a
    directory with the names [listdir] returns, in that order. *)
Inductive FsNode : Type :=
  | FsFile (content : bytes)
  | FsDir (names : list str).

(** A connected socket: the chunks that the coming calls of [recv] return,
    whether the peer has closed its side once they are used up, what has
    been sent (oldest first) and whether [close] was called. *)
Record Socket : Type := mkSocket {
  inbox : list bytes;
  peer_closed : bool;
  outbox : list bytes;
  closed : bool
}.

(** One category of [Server.__docs__]. *)
Record DocEntry : Type := mkDocEntry {
  path : list str;
  file : list str;
  clf_result : list Z
}.

Section Server.

(** Python floats stay abstract: the text [json.dumps] writes for one,
    and its truth value. *)
Context {pyfloat : Type}.
Variable float_repr : pyfloat -> str.
Variable float_truthy : pyfloat -> bool.

(** [urllib.parse.unquote] *)
Variable url_decode : str -> str.

(** The value of [__file__]. *)
Variable module_file : str.

(** *** JSON *)

Inductive jkey : Type :=
  | KStr (s : str)
  | KInt (z : Z)
  | KFloat (f : pyfloat)
  | KBool (b : bool)
  | KNone.

Local Unset Elimination Schemes.
Inductive json : Type :=
  | JNull
  | JBool (b : bool)
  | JInt (z : Z)
  | JFloat (f : pyfloat)
  | JStr (s : str)
  | JList (items : list json)
  | JDict (items : list (jkey * json)).
Local Set Elimination Schemes.

Definition hex_digit (n : N) : N :=
  if (n <? 10)%N then (48 + n)%N else (87 + n)%N.

(** ['\\u{0:04x}'.format(n)] for [n < 0x10000] *)
Definition u_escape (n : N) : str :=
  [92; 117; hex_digit (n / 4096 mod 16); hex_digit (n / 256 mod 16);
   hex_digit (n / 16 mod 16); hex_digit (n mod 16)]%N.

(** The replacement of one character in [py_encode_basestring_ascii]. *)
Definition escape_char (c : N) : str :=
  if (c =? 92)%N then [92; 92]%N
  else if (c =? 34)%N then [92; 34]%N
  else if ((32 <=? c) && (c <=? 126))%N then [c]
  else if (c =? 8)%N then [92; 98]%N
  else if (c =? 12)%N then [92; 102]%N
  else if (c =? 10)%N then [92; 110]%N
  else if (c =? 13)%N then [92; 114]%N
  else if (c =? 9)%N then [92; 116]%N
  else if (c <? 65536)%N then u_escape c
  else let n := (c - 65536)%N in
       u_escape (N.lor 55296 (N.land (N.shiftr n 10) 1023)) ++
       u_escape (N.lor 56320 (N.land n 1023)).

Definition dumps_str (s : str) : str :=
  34%N :: concat (map escape_char s) ++ [34%N].

Definition bool_repr (b : bool) : str :=
  if b then lit "true" else lit "false".

Definition dumps_key (k : jkey) : str :=
  match k with
  | KStr s => dumps_str s
  | KInt z => dumps_str (fmt_d z)
  | KFloat f => dumps_str (float_repr f)
  | KBool b => dumps_str (bool_repr b)
  | KNone => dumps_str (lit "null")
  end.

(** [sep.join(l)] *)
Fixpoint join_with (sep : str) (l : list str) : str :=
  match l with
  | [] => []
  | [x] => x
  | x :: l' => x ++ sep ++ join_with sep l'
  end.

(** [json.dumps(v)] with its defaults ([ensure_ascii=True], separators
    [", "] and [": "]). *)
Fixpoint json_dumps (v : json) : str :=
  match v with
  | JNull => lit "null"
  | JBool b => bool_repr b
  | JInt z => fmt_d z
  | JFloat f => float_repr f
  | JStr s => dumps_str s
  | JList items =>
      lit "[" ++ join_with (lit ", ") (map json_dumps items) ++ lit "]"
  | JDict items =>
      lit "{" ++
      join_with (lit ", ")
        (map (fun kv => dumps_key (fst kv) ++ lit ": " ++ json_dumps (snd kv))
             items) ++
      lit "}"
  end.

(** *** The classifier, as far as the server calls it *)

Record Classifier : Type := mkClassifier {
  classify : str -> outcome (list (Z * pyfloat));
  classify_json : str -> outcome json;     (* [classify(doc, json=True)] *)
  get_name : str;
  get_hyperparameters : json;
  get_categories : list str
}.

(** *** The state of the process and of what it talks to *)

Record World : Type := mkWorld {
  w_clf : option Classifier;               (* [Server.__clf__] *)
  w_docs : gmap str DocEntry;              (* [Server.__docs__] *)
  w_x_test : option (list str);            (* [Server.__x_test__] *)
  w_server_socket : option nat;            (* [Server.__server_socket__] *)
  w_port : Z;                              (* [Server.__port__] *)
  w_socks : gmap nat Socket;               (* open sockets, by descriptor *)
  w_log : list (level * str);              (* what [Print] has written *)
  w_fs : str -> option FsNode;             (* the file system *)
  w_backlog : list (nat * Socket * str);   (* connections [accept] returns *)
  w_bind : Z -> outcome (nat * Z);         (* socket and port [bind] gives *)
  w_browser : list str                     (* URLs given to [webbrowser.open] *)
}.

Definition M (A : Type) : Type := World -> outcome A * World.

Definition ret {A} (a : A) : M A := fun w => (Ret a, w).

Definition bind {A B} (m : M A) (k : A -> M B) : M B :=
  fun w =>
    match m w with
    | (Ret a, w') => k a w'
    | (Raise e, w') => (Raise e, w')
    | (Diverge, w') => (Diverge, w')
    end.

Definition lift {A} (o : outcome A) : M A := fun w => (o, w).

Definition raise {A} (e : exn) : M A := lift (Raise e).

(** [try: m  except Exception as e: handler(e)] *)
Definition try_except_Exception {A} (m : M A) (handler : exn -> M A) : M A :=
  fun w =>
    match m w with
    | (Raise e, w') => if is_Exception e then handler e w' else (Raise e, w')
    | r => r
    end.

Notation "x <- m ;; k" := (bind m (fun x => k))
  (at level 100, m at next level, right associativity).
Notation "m ;; k" := (bind m (fun _ => k))
  (at level 100, right associativity).

Definition get_world : M World := fun w => (Ret w, w).

(** [Print.show], [Print.info], [Print.error], [Print.warn] *)
Definition print (l : level) (msg : str) : M unit :=
  fun w =>
    (Ret tt,
     mkWorld (w_clf w) (w_docs w) (w_x_test w) (w_server_socket w) (w_port w)
             (w_socks w) (w_log w ++ [(l, msg)]) (w_fs w) (w_backlog w)
             (w_bind w) (w_browser w)).

Definition set_socks (socks : gmap nat Socket) (w : World) : World :=
  mkWorld (w_clf w) (w_docs w) (w_x_test w) (w_server_socket w) (w_port w)
          socks (w_log w) (w_fs w) (w_backlog w) (w_bind w) (w_browser w).

(** [sock.recv(RECV_BUFFER)]: the next chunk; at the end of the stream
    [b""] when the peer has closed, and otherwise the call blocks. *)
Definition recv (sock : nat) : M bytes :=
  fun w =>
    match w_socks w !! sock with
    | None => (Raise OSError, w)
    | Some s =>
        match inbox s with
        | c :: rest =>
            (Ret c,
             set_socks (<[sock := mkSocket rest (peer_closed s) (outbox s)
                                           (closed s)]> (w_socks w)) w)
        | [] => if peer_closed s then (Ret [], w) else (Diverge, w)
        end
    end.

(** [sock.send(data)], on a socket on which [close] was not called. *)
Definition send (sock : nat) (data : bytes) : M unit :=
  fun w =>
    match w_socks w !! sock with
    | None => (Raise OSError, w)
    | Some s =>
        (Ret tt,
         set_socks (<[sock := mkSocket (inbox s) (peer_closed s)
                                       (outbox s ++ [data]) (closed s)]>
                      (w_socks w)) w)
    end.

Definition decode_m (data : bytes) : M str :=
  match decode data with
  | Some t => ret t
  | None => raise UnicodeDecodeError
  end.

Definition encode_m (s : str) : M bytes :=
  match encode s with
  | Some b => ret b
  | None => raise UnicodeEncodeError
  end.

Definition len {A} (l : list A) : Z := Z.of_nat (length l).

(** [Server.__clf__], for a method call on it. *)
Definition the_clf : M Classifier :=
  fun w =>
    match w_clf w with
    | Some clf => (Ret clf, w)
    | None => (Raise AttributeError, w)
    end.

(** *** Files *)

Definition path_exists (p : str) : M bool :=
  fun w => (Ret (bool_decide (is_Some (w_fs w p))), w).

Definition path_isfile (p : str) : M bool :=
  fun w => (Ret (match w_fs w p with Some (FsFile _) => true | _ => false end), w).

(** [listdir(p)], for a path that [os_path] takes. *)
Definition listdir (p : str) : M (list str) :=
  fun w =>
    match w_fs w p with
    | Some (FsDir names) => (Ret names, w)
    | _ => (Raise OSError, w)
    end.

(** [open(p, 'rb').read()] *)
Definition read_binary (p : str) : M bytes :=
  fun w =>
    match w_fs w p with
    | Some (FsFile c) => (Ret c, w)
    | _ => (Raise OSError, w)
    end.

(** A file opened with [open(p, 'r', encoding=ENCODING)], for a path that
    [os_path] takes: the lines that are still to be read, and how many
    times [readline] was called. *)
Record TextFile : Type := mkTextFile {
  rest_lines : list str;
  readline_calls : nat
}.

Definition open_text (p : str) : M TextFile :=
  fun w =>
    match w_fs w p with
    | Some (FsFile c) =>
        match decode c with
        | Some t => (Ret (mkTextFile (splitlines t) 0), w)
        | None => (Raise UnicodeDecodeError, w)
        end
    | _ => (Raise OSError, w)
    end.

(** [f.readline()]: the next line, [""] at the end of the file. *)
Definition readline (f : TextFile) : str * TextFile :=
  match rest_lines f with
  | l :: ls => (l, mkTextFile ls (S (readline_calls f)))
  | [] => ([], mkTextFile [] (S (readline_calls f)))
  end.

(** [f.read()] and [f.readlines()] *)
Definition read_all (f : TextFile) : str := concat (rest_lines f).
Definition readlines (f : TextFile) : list str := rest_lines f.

(** *** Responses and request bodies *)

(** [Server.__send_as_json__(sock, data)] *)
Definition send_as_json (sock : nat) (data : json) : M unit :=
  let data := json_dumps data in
  let http_header := HTTP_RESPONSE (content_type (lit "json")) (len data) in
  hb <- encode_m http_header ;;
  send sock hb ;;
  db <- encode_m data ;;
  send sock db.

(** The loop of [__recvall_body__].  [fuel] bounds the calls of [recv]
    that can still return a chunk: when it is used up and the body is
    still short, [recv] blocks, or returns [b""] for ever, and the loop
    never ends. *)
Fixpoint recvall_loop (fuel : nat) (sock : nat) (body : str) (length : Z)
  : M str :=
  if len body <? length then
    match fuel with
    | O => lift Diverge
    | S fuel' =>
        chunk <- recv sock ;;
        text <- decode_m chunk ;;
        recvall_loop fuel' sock (body ++ text) length
    end
  else ret body.

(** The chunks that are still to come on [sock]; on a descriptor that is
    not a socket the first [recv] raises. *)
Definition pending (sock : nat) (w : World) : nat :=
  match w_socks w !! sock with
  | Some s => List.length (inbox s)
  | None => 1
  end.

(** [Server.__recvall_body__(sock, data, length)] *)
Definition recvall_body (sock : nat) (data : str) (length : Z) : M str :=
  body <- lift (get_http_body data) ;;
  w <- get_world ;;
  body <- recvall_loop (pending sock w) sock body length ;;
  ret (url_decode body).

(** *** The four operations *)

(** [Server.__do_ack__(sock)] *)
Definition do_ack (sock : nat) : M unit :=
  let http_header := HTTP_RESPONSE (content_type []) 0 in
  hb <- encode_m http_header ;;
  send sock hb ;;
  print Info (lit "sending ACK back to client...").

(** [Server.__do_classify__(sock, doc)] *)
Definition do_classify (sock : nat) (doc : str) : M unit :=
  try_except_Exception
    (print Show ([9%N] ++ take 50 doc ++ lit "[...]") ;;
     clf <- the_clf ;;
     r <- lift (classify_json clf doc) ;;
     send_as_json sock r ;;
     print Info (lit "sending classification result..."))
    (fun e => print Error (exn_str e)).

Definition entry_json (e : DocEntry) : json :=
  JDict [ (KStr (lit "path"), JList (map JStr (path e)));
          (KStr (lit "file"), JList (map JStr (file e)));
          (KStr (lit "clf_result"), JList (map JInt (clf_result e))) ].

(** [Server.__docs__] as [json.dumps] sees it; the keys come in the
    order in which the map lists them. *)
Definition docs_json (docs : gmap str DocEntry) : json :=
  JDict (map (fun kv => (KStr (fst kv), entry_json (snd kv)))
             (map_to_list docs)).

(** [Server.__do_get_info__(sock)] *)
Definition do_get_info (sock : nat) : M unit :=
  clf <- the_clf ;;
  w <- get_world ;;
  send_as_json sock
    (JDict [ (KStr (lit "model_name"), JStr (get_name clf));
             (KStr (lit "hps"), get_hyperparameters clf);
             (KStr (lit "categories"),
              JList (map JStr (get_categories clf ++ [lit "[unknown]"])));
             (KStr (lit "docs"), docs_json (w_docs w)) ]) ;;
  print Info (lit "sending classifier info...").

(** The [while line < line_n] loop of [__do_get_doc__], which runs
    [n = max(line_n, 0)] times. *)
Fixpoint readline_loop (n : nat) (doc : str) (fdoc : TextFile)
  : str * TextFile :=
  match n with
  | O => (doc, fdoc)
  | S n' => let '(doc, fdoc) := readline fdoc in readline_loop n' doc fdoc
  end.

(** The body of the [with] statement of the [:line:] branch. *)
Definition read_line_n (fdoc : TextFile) (line_n : Z) : str * TextFile :=
  let '(doc, fdoc) := readline fdoc in
  readline_loop (Z.to_nat line_n) doc fdoc.

(** [seq[i]] with Python's negative indices. *)
Definition py_index {A} (l : list A) (i : Z) : outcome A :=
  if 0 <=? i then index l (Z.to_nat i)
  else if 0 <=? len l + i then index l (Z.to_nat (len l + i))
  else Raise IndexError.

(** [Server.__do_get_doc__(sock, file)] *)
Definition do_get_doc (sock : nat) (file : str) : M unit :=
  doc <-
    (if Str.contains (lit ":line:") file then
       match Str.split (lit ":line:") file with
       | [file; line_n] =>
           line_n <- lift (py_int line_n) ;;
           fdoc <- open_text file ;;
           ret (fst (read_line_n fdoc line_n))
       | _ => raise ValueError
       end
     else if Str.contains (lit ":x_test:") file then
       w <- get_world ;;
       match w_x_test w with
       | Some (d :: ds) =>
           n <- lift (index (Str.split (lit ":x_test:") file) 1) ;;
           idoc <- lift (py_int n) ;;
           lift (py_index (d :: ds) idoc)
       | _ => ret []
       end
     else
       fdoc <- open_text file ;;
       ret (read_all fdoc)) ;;
  send_as_json sock (JDict [ (KStr (lit "content"), JStr doc) ]) ;;
  print Info (lit "sending document content...").

(** [Server.__handle_request__(sock)] *)
Definition handle_request (sock : nat) : M unit :=
  data <- recv sock ;;
  if bool_decide (data = []) then ret tt
  else
    data <- decode_m data ;;
    rsc_path <- lift (get_http_path data) ;;
    if Str.startswith (lit "POST") data then
      print Show ([9%N] ++ lit "POST " ++ rsc_path) ;;
      let method := Str.from 1 rsc_path in
      let cont_length := get_http_contlength data in
      body <- recvall_body sock data cont_length ;;
      if bool_decide (method = lit "ack") then do_ack sock
      else if bool_decide (method = lit "classify") then do_classify sock body
      else if bool_decide (method = lit "get_info") then do_get_info sock
      else if bool_decide (method = lit "get_doc") then do_get_doc sock body
      else ret tt
    else
      print Show ([9%N] ++ lit "GET " ++ rsc_path ++ lit " ") ;;
      let '(local_path, ext) := parse_and_sanitize module_file rsc_path in
      found <- path_exists local_path ;;
      if found : bool then
        http_body <- read_binary local_path ;;
        let http_header := HTTP_RESPONSE (content_type ext) (len http_body) in
        hb <- encode_m http_header ;;
        send sock hb ;;
        send sock http_body ;;
        print Info (lit "200 OK")
      else
        send sock HTTP_404 ;;
        print Info (lit "404 Not Found").

(** *** The test set *)

Definition set_docs (docs : gmap str DocEntry) (w : World) : World :=
  mkWorld (w_clf w) docs (w_x_test w) (w_server_socket w) (w_port w)
          (w_socks w) (w_log w) (w_fs w) (w_backlog w) (w_bind w)
          (w_browser w).

Definition set_x_test (x : option (list str)) (w : World) : World :=
  mkWorld (w_clf w) (w_docs w) x (w_server_socket w) (w_port w)
          (w_socks w) (w_log w) (w_fs w) (w_backlog w) (w_bind w)
          (w_browser w).

Definition set_clf (c : option Classifier) (w : World) : World :=
  mkWorld c (w_docs w) (w_x_test w) (w_server_socket w) (w_port w)
          (w_socks w) (w_log w) (w_fs w) (w_backlog w) (w_bind w)
          (w_browser w).

(** [Server.__clear_testset__()] *)
Definition clear_testset : M unit :=
  fun w => (Ret tt, set_x_test None (set_docs ∅ w)).

(** [Server.get_port()] *)
Definition get_port : M Z := fun w => (Ret (w_port w), w).

(** [Server.set_model(clf)] *)
Definition set_model (clf : Classifier) : M unit :=
  (fun w => (Ret tt, set_clf (Some clf) w)) ;;
  clear_testset.

Definition empty_entry : DocEntry := mkDocEntry [] [] [].

(** [Server.__docs__[cat][key] = value], for each of the three keys. *)
Definition assign_path (cat : str) (v : list str) : M unit :=
  fun w =>
    let e := default empty_entry (w_docs w !! cat) in
    (Ret tt,
     set_docs (<[cat := mkDocEntry v (file e) (clf_result e)]> (w_docs w)) w).

Definition assign_file (cat : str) (v : list str) : M unit :=
  fun w =>
    let e := default empty_entry (w_docs w !! cat) in
    (Ret tt,
     set_docs (<[cat := mkDocEntry (path e) v (clf_result e)]> (w_docs w)) w).

Definition assign_clf_result (cat : str) (v : list Z) : M unit :=
  fun w =>
    let e := default empty_entry (w_docs w !! cat) in
    (Ret tt,
     set_docs (<[cat := mkDocEntry (path e) (file e) v]> (w_docs w)) w).

(** [Server.__docs__[cat][key].append(x)].  The category has its three
    lists whenever the server gets here; without them the default
    dictionary has no [append]. *)
Definition append_path (cat : str) (x : str) : M unit :=
  fun w =>
    match w_docs w !! cat with
    | Some e =>
        (Ret tt,
         set_docs (<[cat := mkDocEntry (path e ++ [x]) (file e)
                                       (clf_result e)]> (w_docs w)) w)
    | None => (Raise AttributeError, w)
    end.

Definition append_file (cat : str) (x : str) : M unit :=
  fun w =>
    match w_docs w !! cat with
    | Some e =>
        (Ret tt,
         set_docs (<[cat := mkDocEntry (path e) (file e ++ [x])
                                       (clf_result e)]> (w_docs w)) w)
    | None => (Raise AttributeError, w)
    end.

Definition append_clf_result (cat : str) (x : Z) : M unit :=
  fun w =>
    match w_docs w !! cat with
    | Some e =>
        (Ret tt,
         set_docs (<[cat := mkDocEntry (path e) (file e)
                                       (clf_result e ++ [x])]> (w_docs w)) w)
    | None => (Raise AttributeError, w)
    end.

(** [r[0][0] if r[0][1] else unkwon_cat_i] *)
Definition top_category (r : list (Z * pyfloat)) (unkwon_cat_i : Z)
  : outcome Z :=
  match r with
  | [] => Raise IndexError
  | (c, v) :: _ => Ret (if float_truthy v then c else unkwon_cat_i)
  end.

(** [for cat in set(y_test)]: the three empty lists of every label. *)
Definition init_categories (y_test : list str) : M unit :=
  fun w =>
    (Ret tt,
     set_docs (foldr (fun cat docs => <[cat := empty_entry]> docs)
                     (w_docs w) y_test) w).

(** [for idoc, doc in enumerate(x_test)], from index [idoc] on. *)
Fixpoint set_testset_loop (clf : Classifier) (unkwon_cat_i : Z)
    (y_test : list str) (idoc : nat) (x_test : list str) : M unit :=
  match x_test with
  | [] => ret tt
  | doc :: rest =>
      cat <- lift (index y_test idoc) ;;
      let doc_name := lit "doc_" ++ fmt_d (Z.of_nat idoc) in
      append_file cat doc_name ;;
      append_path cat (lit ":x_test:" ++ fmt_d (Z.of_nat idoc)) ;;
      r <- lift (classify clf doc) ;;
      c <- lift (top_category r unkwon_cat_i) ;;
      append_clf_result cat c ;;
      set_testset_loop clf unkwon_cat_i y_test (S idoc) rest
  end.

Definition categories_found : M bool :=
  w <- get_world ;;
  print Info (fmt_d (Z.of_nat (size (w_docs w))) ++ lit " categories found") ;;
  ret (bool_decide (0 < size (w_docs w))%nat).

(** [Server.set_testset(x_test, y_test)] *)
Definition set_testset (x_test y_test : list str) : M bool :=
  clear_testset ;;
  (fun w => (Ret tt, set_x_test (Some x_test) w)) ;;
  clf <- the_clf ;;
  let unkwon_cat_i := len (get_categories clf) in
  init_categories y_test ;;
  set_testset_loop clf unkwon_cat_i y_test 0 x_test ;;
  categories_found.

(** [[... for r in map(classify, lines)]] *)
Fixpoint classify_lines (clf : Classifier) (unkwon_cat_i : Z)
    (lines : list str) : outcome (list Z) :=
  match lines with
  | [] => Ret []
  | l :: rest =>
      match classify clf l with
      | Ret r =>
          match top_category r unkwon_cat_i with
          | Ret c =>
              match classify_lines clf unkwon_cat_i rest with
              | Ret cs => Ret (c :: cs)
              | Raise e => Raise e
              | Diverge => Diverge
              end
          | Raise e => Raise e
          | Diverge => Diverge
          end
      | Raise e => Raise e
      | Diverge => Diverge
      end
  end.

(** [range(n)] *)
Definition range (n : nat) : list nat := seq 0 n.

(** The loop over [listdir(test_path)] when labels are file names. *)
Fixpoint from_files_by_file (clf : Classifier) (unkwon_cat_i : Z)
    (test_path : str) (files : list str) : M unit :=
  match files with
  | [] => ret tt
  | file :: rest =>
      let file_path := PosixPath.join test_path file in
      isf <- path_isfile file_path ;;
      (if isf : bool then
         let cat := fst (PosixPath.splitext file) in
         fcat <- open_text file_path ;;
         rs <- lift (classify_lines clf unkwon_cat_i (readlines fcat)) ;;
         assign_clf_result cat rs ;;
         w <- get_world ;;
         let n_docs :=
           List.length (clf_result (default empty_entry (w_docs w !! cat))) in
         assign_file cat
           (map (fun line => lit "doc_" ++ fmt_d (Z.of_nat line))
                (range n_docs)) ;;
         assign_path cat
           (map (fun line => file_path ++ lit ":line:" ++ fmt_d (Z.of_nat line))
                (range n_docs))
       else ret tt) ;;
      from_files_by_file clf unkwon_cat_i test_path rest
  end.

(** The loop over [sorted(listdir(cat_path))] of one category folder. *)
Fixpoint from_folder (clf : Classifier) (unkwon_cat_i : Z)
    (cat cat_path : str) (files : list str) : M unit :=
  match files with
  | [] => ret tt
  | file :: rest =>
      let file_path := PosixPath.join cat_path file in
      isf <- path_isfile file_path ;;
      (if isf : bool then
         append_path cat file_path ;;
         append_file cat file ;;
         fdoc <- open_text file_path ;;
         r <- lift (classify clf (read_all fdoc)) ;;
         c <- lift (top_category r unkwon_cat_i) ;;
         append_clf_result cat c
       else ret tt) ;;
      from_folder clf unkwon_cat_i cat cat_path rest
  end.

(** The loop over [listdir(test_path)] when labels are folder names. *)
Fixpoint from_files_by_folder (clf : Classifier) (unkwon_cat_i : Z)
    (test_path : str) (cats : list str) : M unit :=
  match cats with
  | [] => ret tt
  | cat :: rest =>
      let cat_path := PosixPath.join test_path cat in
      isf <- path_isfile cat_path ;;
      (if negb isf then
         assign_path cat [] ;;
         assign_file cat [] ;;
         assign_clf_result cat [] ;;
         files <- listdir cat_path ;;
         from_folder clf unkwon_cat_i cat cat_path (sorted files)
       else ret tt) ;;
      from_files_by_folder clf unkwon_cat_i test_path rest
  end.

(** [Server.set_testset_from_files(test_path, folder_label)] *)
Definition set_testset_from_files (test_path : str) (folder_label : bool)
  : M bool :=
  print Info (lit "reading files...") ;;
  clear_testset ;;
  clf <- the_clf ;;
  let unkwon_cat_i := len (get_categories clf) in
  names <- listdir test_path ;;
  (if negb folder_label
   then from_files_by_file clf unkwon_cat_i test_path names
   else from_files_by_folder clf unkwon_cat_i test_path names) ;;
  categories_found.

(** *** Listening and serving *)

(** [Server.start_listening(port)] *)
Definition start_listening (port : Z) : M Z :=
  sp <- (fun w => (w_bind w port, w)) ;;
  let '(server_socket, bound) := sp in
  (fun w =>
     (Ret tt,
      mkWorld (w_clf w) (w_docs w) (w_x_test w) (Some server_socket) bound
              (<[server_socket := mkSocket [] false [] false]> (w_socks w))
              (w_log w) (w_fs w) (w_backlog w) (w_bind w) (w_browser w))) ;;
  print Info (lit "SS3 server started (listening on port " ++ fmt_d bound
              ++ lit ")") ;;
  print Warn (lit "Copy/paste this URL into your browser http://localhost:"
              ++ fmt_d bound) ;;
  print Warn (lit "Press Ctrl+C to stop the server" ++ [10%N]) ;;
  ret bound.

(** [server_socket.accept()]: the next pending connection; the call
    blocks when there is none. *)
Definition accept : M (nat * str) :=
  fun w =>
    match w_backlog w with
    | (sockfd, s, addr) :: rest =>
        (Ret (sockfd, addr),
         mkWorld (w_clf w) (w_docs w) (w_x_test w) (w_server_socket w)
                 (w_port w) (<[sockfd := s]> (w_socks w)) (w_log w) (w_fs w)
                 rest (w_bind w) (w_browser w))
    | [] => (Diverge, w)
    end.

(** [sock.close()] *)
Definition close (sock : nat) : M unit :=
  fun w =>
    match w_socks w !! sock with
    | Some s =>
        (Ret tt,
         set_socks (<[sock := mkSocket (inbox s) (peer_closed s) (outbox s)
                                       true]> (w_socks w)) w)
    | None => (Ret tt, w)
    end.

(** [clients.remove(sock)] *)
Fixpoint list_remove (x : nat) (l : list nat) : outcome (list nat) :=
  match l with
  | [] => Raise ValueError
  | y :: l' =>
      if bool_decide (x = y) then Ret l'
      else match list_remove x l' with
           | Ret r => Ret (y :: r)
           | Raise e => Raise e
           | Diverge => Diverge
           end
  end.

(** [del sock_to_addr[sock.fileno()]] *)
Definition dict_del (k : nat) (d : gmap nat str) : outcome (gmap nat str) :=
  match d !! k with
  | Some _ => Ret (delete k d)
  | None => Raise KeyError
  end.

(** What [select(clients, [], [])] comes to: the sockets that are ready to
    be read, or the interrupt of the user that arrives while it waits. *)
Inductive select_result : Type :=
  | Ready (read_socks : list nat)
  | Interrupt.

(** [for sock in read_socks], with the locals [clients] and
    [sock_to_addr] of [serve]. *)
Fixpoint for_read_socks (server_socket : nat) (read_socks : list nat)
    (clients : list nat) (sock_to_addr : gmap nat str)
  : M (list nat * gmap nat str) :=
  match read_socks with
  | [] => ret (clients, sock_to_addr)
  | sock :: rest =>
      if bool_decide (sock = server_socket) then
        sa <- accept ;;
        let '(sockfd, addr) := sa in
        print Show (lit "[ " ++ addr ++ lit " ]") ;;
        for_read_socks server_socket rest (clients ++ [sockfd])
                       (<[sockfd := addr]> sock_to_addr)
      else
        handle_request sock ;;
        clients <- lift (list_remove sock clients) ;;
        sock_to_addr <- lift (dict_del sock sock_to_addr) ;;
        close sock ;;
        for_read_socks server_socket rest clients sock_to_addr
  end.

(** [while True] of [serve], for the results of [select] that the
    environment delivers; when they are used up the loop waits in
    [select], with the locals it returns. *)
Fixpoint serve_loop (server_socket : nat) (events : list select_result)
    (clients : list nat) (sock_to_addr : gmap nat str)
  : M (list nat * gmap nat str) :=
  match events with
  | [] => ret (clients, sock_to_addr)
  | Interrupt :: _ => raise KeyboardInterrupt
  | Ready read_socks :: later =>
      cs <- for_read_socks server_socket read_socks clients sock_to_addr ;;
      serve_loop server_socket later (fst cs) (snd cs)
  end.

(** The part of [serve] before the loop: [None] when [serve] has
    returned from it, the listening socket otherwise. *)
Definition serve_setup (clf : option Classifier)
    (x_test y_test : option (list str)) (port : Z) (browser : bool)
  : M (option nat) :=
  (fun w =>
     (Ret tt,
      set_clf (match clf with Some c => Some c | None => w_clf w end) w)) ;;
  w <- get_world ;;
  match w_clf w with
  | None =>
      print Error (lit "a model must be given before serving") ;;
      ret None
  | Some _ =>
      (match w_server_socket w with
       | None => start_listening port ;; ret tt
       | Some _ => ret tt
       end) ;;
      go_on <-
        (match x_test with
         | Some (d :: ds) =>
             match y_test with
             | Some (l :: ls) =>
                 if bool_decide (List.length (l :: ls) = List.length (d :: ds))
                 then set_testset (d :: ds) (l :: ls) ;; ret true
                 else
                   print Error
                     (lit "y_test must have the same length as x_test") ;;
                   ret false
             | _ =>
                 print Error
                   (lit "y_test must have the same length as x_test") ;;
                 ret false
             end
         | _ => ret true
         end) ;;
      if go_on : bool then
        w <- get_world ;;
        match w_server_socket w with
        | None => raise AttributeError
        | Some server_socket =>
            (if browser then
               fun w =>
                 (Ret tt,
                  mkWorld (w_clf w) (w_docs w) (w_x_test w)
                          (w_server_socket w) (w_port w) (w_socks w)
                          (w_log w) (w_fs w) (w_backlog w) (w_bind w)
                          (w_browser w
                           ++ [lit "http://localhost:" ++ fmt_d (w_port w)]))
             else ret tt) ;;
            print Info (lit "waiting for requests") ;;
            print Show [] ;;
            ret (Some server_socket)
        end
      else ret None
  end.

(** [Server.serve(clf, x_test, y_test, port, browser)].  The loop ends
    only by an exception; when the environment has nothing more to
    deliver, [serve] stays in [select] and does not return. *)
Definition serve (clf : option Classifier) (x_test y_test : option (list str))
    (port : Z) (browser : bool) (events : list select_result) : M unit :=
  started <- serve_setup clf x_test y_test port browser ;;
  match started with
  | None => ret tt
  | Some server_socket =>
      fun w =>
        match serve_loop server_socket events [server_socket] ∅ w with
        | (Ret _, w') => (Diverge, w')
        | (Raise KeyboardInterrupt, w') =>
            (print Info (lit "closing server...") ;;
             close server_socket ;;
             fun w =>
               (Ret tt,
                mkWorld (w_clf w) (w_docs w) (w_x_test w) None (w_port w)
                        (w_socks w) (w_log w) (w_fs w) (w_backlog w)
                        (w_bind w) (w_browser w))) w'
        | (Raise e, w') => (Raise e, w')
        | (Diverge, w') => (Diverge, w')
        end
  end.

(** *** What a category of the index says about its documents *)

(** The classification of [doc] that the index stores. *)
Definition stored_result (clf : Classifier) (doc : str) (c : Z) : Prop :=
  exists r, classify clf doc = Ret r /\
            top_category r (len (get_categories clf)) = Ret c.

(** A category built by [set_testset]: position by position, the locator,
    the name and the result are those of one document of [x_test] whose
    label is the category. *)
Definition entry_from_memory (clf : Classifier) (x_test y_test : list str)
    (cat : str) (e : DocEntry) : Prop :=
  Forall3
    (fun p f c =>
       exists (idoc : nat) (doc : str),
         p = lit ":x_test:" ++ fmt_d (Z.of_nat idoc) /\
         f = lit "doc_" ++ fmt_d (Z.of_nat idoc) /\
         x_test !! idoc = Some doc /\
         y_test !! idoc = Some cat /\
         stored_result clf doc c)
    (path e) (file e) (clf_result e).

(** A category built from a folder: the locator is the path of the file
    named in [file], and the result is that of the file's text. *)
Definition entry_from_folder (clf : Classifier) (fs : str -> option FsNode)
    (test_path cat : str) (e : DocEntry) : Prop :=
  Forall3
    (fun p f c =>
       p = PosixPath.join (PosixPath.join test_path cat) f /\
       exists content text,
         fs p = Some (FsFile content) /\
         decode content = Some text /\
         stored_result clf (concat (splitlines text)) c)
    (path e) (file e) (clf_result e).

(** A category built from the lines of a file: position [i] holds the
    result of line [i], the name [doc_i] and the locator
    [<file>:line:i]. *)
Definition entry_from_file (clf : Classifier) (fs : str -> option FsNode)
    (test_path cat : str) (e : DocEntry) : Prop :=
  exists fname content text,
    cat = fst (PosixPath.splitext fname) /\
    fs (PosixPath.join test_path fname) = Some (FsFile content) /\
    decode content = Some text /\
    Forall2 (stored_result clf) (splitlines text) (clf_result e) /\
    file e = map (fun line => lit "doc_" ++ fmt_d (Z.of_nat line))
                 (range (length (clf_result e))) /\
    path e = map (fun line => PosixPath.join test_path fname ++ lit ":line:"
                              ++ fmt_d (Z.of_nat line))
                 (range (length (clf_result e))).

(** The three lists of an entry have one length. *)
Definition entry_aligned (e : DocEntry) : Prop :=
  length (path e) = length (file e) /\
  length (file e) = length (clf_result e).

End Server.

Arguments json : clear implicits.
Arguments jkey : clear implicits.
Arguments Classifier : clear implicits.
Arguments World : clear implicits.
Arguments M : clear implicits.

(** What is written on the sockets, and which of them are closed, is the
    same in [w'] as in [w]. *)
Definition same_output {pyfloat} (w w' : World pyfloat) : Prop :=
  forall fd, outbox <$> (w_socks w' !! fd) = outbox <$> (w_socks w !! fd) /\
             closed <$> (w_socks w' !! fd) = closed <$> (w_socks w !! fd).

(** No socket is closed, or opened again, from [w] to [w']. *)
Definition same_closed {pyfloat} (w w' : World pyfloat) : Prop :=
  forall fd, closed <$> (w_socks w' !! fd) = closed <$> (w_socks w !! fd).

(** A computation that closes no socket, however it ends. *)
Definition keeps_closed {pyfloat A} (m : M pyfloat A) : Prop :=
  forall w o w', m w = (o, w') -> same_closed w w'.

(** The state that [Server] keeps is the same in [w'] as in [w]. *)
Definition same_server {pyfloat} (w w' : World pyfloat) : Prop :=
  w_clf w' = w_clf w /\ w_docs w' = w_docs w /\ w_x_test w' = w_x_test w /\
  w_server_socket w' = w_server_socket w /\ w_port w' = w_port w.

(** The text of ASCII bytes, and the bytes that are ASCII. *)
Definition text_of (data : bytes) : str := map N_of_ascii data.
Definition bytes_ascii (data : bytes) : bool :=
  forallb (fun a => (N_of_ascii a <? 128)%N) data.

(** [s] holds ASCII characters only. *)
Definition is_ascii (s : str) : bool := forallb (fun c => (c <? 128)%N) s.

(** ** A small installation, for running the definitions *)

Module Demo.

(** Floats that are [0.0] or [1.0]. *)
Definition repr (f : bool) : str := if f then lit "1.0" else lit "0.0".
Definition truthy (f : bool) : bool := f.

(** Percent-decoding of the escapes below [%80]. *)
Definition hex_value (c : N) : option N :=
  if ((48 <=? c) && (c <=? 57))%N then Some (c - 48)%N
  else if ((65 <=? c) && (c <=? 70))%N then Some (c - 55)%N
  else if ((97 <=? c) && (c <=? 102))%N then Some (c - 87)%N
  else None.

Fixpoint unquote (s : str) : str :=
  match s with
  | 37%N :: ((h :: l :: s'') as s') =>
      match hex_value h, hex_value l with
      | Some a, Some b =>
          if (a <? 8)%N then (a * 16 + b)%N :: unquote s''
          else 37%N :: unquote s'
      | _, _ => 37%N :: unquote s'
      end
  | c :: s' => c :: unquote s'
  | [] => []
  end.

Definition module_file : str := lit "/srv/pyss3/server.py".

(** A classifier with two categories that fails on the empty document. *)
Definition clf : Classifier bool :=
  mkClassifier
    (fun doc => match doc with
                | [] => Raise (OtherException (lit "empty document"))
                | c :: _ => Ret [(Z.of_N c mod 2, true); (1 - Z.of_N c mod 2, false)]
                end)
    (fun doc => match doc with
                | [] => Raise (OtherException (lit "empty document"))
                | c :: _ => Ret (JList [JList [JInt (Z.of_N c mod 2); JFloat true]])
                end)
    (lit "demo")
    (JDict [(KStr (lit "s"), JFloat false)])
    [lit "even"; lit "odd"].

Definition request (text : str) : bytes := map ascii_of_N text.

Definition fs (p : str) : option FsNode :=
  if bool_decide (p = lit "/data/test.txt")
  then Some (FsFile (blit "zero" ++ [ascii_of_N 10] ++ blit "one"
                     ++ [ascii_of_N 10] ++ blit "two" ++ [ascii_of_N 10]))
  else if bool_decide (p = lit "/data")
  then Some (FsDir [lit "test.txt"])
  else if bool_decide (p = lit "/corpus")
  then Some (FsDir [lit "b"; lit "a"; lit "notes.txt"])
  else if bool_decide (p = lit "/corpus/a")
  then Some (FsDir [lit "2.txt"; lit "1.txt"])
  else if bool_decide (p = lit "/corpus/b")
  then Some (FsDir [lit "x.txt"])
  else if bool_decide (p = lit "/corpus/a/1.txt")
  then Some (FsFile (blit "first"))
  else if bool_decide (p = lit "/corpus/a/2.txt")
  then Some (FsFile (blit "second"))
  else if bool_decide (p = lit "/corpus/b/x.txt")
  then Some (FsFile (blit "xyz"))
  else if bool_decide (p = lit "/corpus/notes.txt")
  then Some (FsFile (blit "n"))
  else None.

(** A process with the classifier attached, listening on descriptor 3,
    with one connection (descriptor 5) on which [chunks] arrive. *)
Definition world (chunks : list bytes) (peer_closed : bool) : World bool :=
  mkWorld (Some clf) ∅ None (Some 3%nat) 8080
          (<[5%nat := mkSocket chunks peer_closed [] false]>
             (<[3%nat := mkSocket [] false [] false]> ∅))
          [] fs [] (fun _ => Raise OSError) [].

(** The same process before the connection is accepted. *)
Definition world_listening (chunks : list bytes) : World bool :=
  mkWorld (Some clf) ∅ None (Some 3%nat) 8080
          (<[3%nat := mkSocket [] false [] false]> ∅)
          [] fs [(5%nat, mkSocket chunks false [] false, lit "10.0.0.7")]
          (fun _ => Raise OSError) [].

(** A request with a request line that has no path. *)
Definition garbage : bytes := request (lit "GARBAGE").


(** The header block of a POST request that declares [n] bytes. *)
Definition classify_head (n : Z) : str :=
  lit "POST /classify HTTP/1.1" ++ CRLF ++ lit "Content-length: " ++ fmt_d n.

End Demo.

(** ** The installed page, and other processes *)

Module Site.

(** The files of the page beside [Demo.module_file]. *)
Definition fs (p : str) : option FsNode :=
  if bool_decide (p = lit "/srv/pyss3/resources/visual_classifier/index.html")
  then Some (FsFile (blit "<html></html>"))
  else if bool_decide (p = lit "/srv/pyss3/resources/visual_classifier/js")
  then Some (FsDir [lit "app.js"])
  else if bool_decide
            (p = lit "/srv/pyss3/resources/visual_classifier/js/app.js")
  then Some (FsFile (blit "go();"))
  else None.

(** A listening process with one connection (descriptor 5) on which
    [chunks] arrive. *)
Definition world (chunks : list bytes) : World bool :=
  mkWorld (Some Demo.clf) ∅ None (Some 3%nat) 8080
          (<[5%nat := mkSocket chunks false [] false]>
             (<[3%nat := mkSocket [] false [] false]> ∅))
          [] fs [] (fun _ => Raise OSError) [].

(** A GET request for [rsc_path]. *)
Definition get (rsc_path : str) : bytes :=
  Demo.request (lit "GET " ++ rsc_path ++ lit " HTTP/1.1" ++ CRLF ++ CRLF).

(** A classifier that the user interrupts. *)
Definition interrupted : Classifier bool :=
  mkClassifier (fun _ => Raise KeyboardInterrupt)
               (fun _ => Raise KeyboardInterrupt)
               (lit "slow") (JDict []) [].

(** A process with [clf] attached and the documents [x_test] in memory,
    with one connection (descriptor 5). *)
Definition world_with (clf : option (Classifier bool))
    (x_test : option (list str)) : World bool :=
  mkWorld clf ∅ x_test (Some 3%nat) 8080
          (<[5%nat := mkSocket [] false [] false]>
             (<[3%nat := mkSocket [] false [] false]> ∅))
          [] Demo.fs [] (fun _ => Raise OSError) [].

(** A process that does not listen yet; the system gives descriptor 4,
    and port 49152 when no port is asked for. *)
Definition fresh (clf : option (Classifier bool)) : World bool :=
  mkWorld clf ∅ None None 0 ∅ [] Demo.fs []
          (fun port => Ret (4%nat, if port =? 0 then 49152 else port)) [].

End Site.

(** * Properties *)

(** ** Running the library functions *)

Example sanitize_removes_dots :
  parse_and_sanitize (lit "/srv/pyss3/server.py")
                     (lit "/css/../a.b/style.min.css")
  = (lit "/srv/pyss3/resources/visual_classifier/css/ab/style.min.css",
     lit "css").
Proof. vm_compute. reflexivity. Qed.

Example sanitize_index :
  parse_and_sanitize (lit "/srv/pyss3/server.py") (lit "/")
  = (lit "/srv/pyss3/resources/visual_classifier/index.html", lit "html").
Proof. vm_compute. reflexivity. Qed.

Example sanitize_parent_as_file :
  parse_and_sanitize (lit "/srv/pyss3/server.py") (lit "/..")
  = (lit "/srv/pyss3/resources/visual_classifier/..", lit "").
Proof. vm_compute. reflexivity. Qed.

Example splitext_leading_dots :
  PosixPath.splitext (lit "...bashrc.tar.gz") = (lit "...bashrc.tar", lit ".gz").
Proof. vm_compute. reflexivity. Qed.

Example splitext_hidden_file :
  PosixPath.splitext (lit "a/.bashrc") = (lit "a/.bashrc", lit "").
Proof. vm_compute. reflexivity. Qed.

Example contlength_any_case :
  get_http_contlength
    (lit "POST /x HTTP/1.1" ++ CRLF ++ lit "content-LENGTH : 42" ++ CRLF ++ CRLF)
  = 42.
Proof. vm_compute. reflexivity. Qed.

Example contlength_default :
  get_http_contlength
    (lit "POST /x HTTP/1.1" ++ CRLF ++ lit "Content-Length: x" ++ CRLF ++ CRLF)
  = 0.
Proof. vm_compute. reflexivity. Qed.

Example int_with_sign_and_underscore : py_int (lit " -12_3 ") = Ret (-123).
Proof. vm_compute. reflexivity. Qed.

Example int_rejects_double_underscore : py_int (lit "1__3") = Raise ValueError.
Proof. vm_compute. reflexivity. Qed.

Example splitlines_keeps_ends :
  splitlines (lit "ab" ++ CRLF ++ lit "c" ++ [10%N] ++ [10%N] ++ lit "d")
  = [lit "ab" ++ CRLF; lit "c" ++ [10%N]; [10%N]; lit "d"].
Proof. vm_compute. reflexivity. Qed.

Example sorted_by_code_point :
  sorted [lit "b"; lit "a"; lit "ab"; lit "B"]
  = [lit "B"; lit "a"; lit "ab"; lit "b"].
Proof. vm_compute. reflexivity. Qed.

Example path_of_request_line :
  get_http_path (lit "GET /a/b HTTP/1.1" ++ CRLF ++ CRLF) = Ret (lit "/a/b").
Proof. vm_compute. reflexivity. Qed.

Example path_of_garbage : get_http_path (lit "GARBAGE") = Raise IndexError.
Proof. vm_compute. reflexivity. Qed.

Example body_stops_at_blank_line :
  get_http_body (lit "POST /a HTTP/1.1" ++ CRLF ++ CRLF ++ lit "a" ++ CRLF
                 ++ CRLF ++ lit "b")
  = Ret (lit "a").
Proof. vm_compute. reflexivity. Qed.

(** ** Text helpers *)

Lemma startswith_length p s :
  Str.startswith p s = true -> (length p <= length s)%nat.
Proof.
  revert s; induction p as [|a p IH]; intros [|b s]; simpl; try lia; try done.
  intros [_ H]%andb_true_iff. apply IH in H. lia.
Qed.

Lemma join_length_ge a b : (length b <= length (PosixPath.join a b))%nat.
Proof.
  unfold PosixPath.join.
  repeat case_match; rewrite ?length_app; simpl; lia.
Qed.

(** ** C1: the static-resource resolver *)

(** C1 (the resolver leaves the base directory): for a request path that
    starts with four slashes, or that interleaves [..] with doubled slashes,
    [parse_and_sanitize] returns an absolute path of the request's choosing,
    which is not rooted under [BASE_PATH], wherever the module is
    installed. *)
Theorem C1_parse_and_sanitize_escapes (module_file : str) :
  parse_and_sanitize module_file (lit "////etc/passwd")
    = (lit "/etc/passwd", []) /\
  parse_and_sanitize module_file (lit "/..//..//etc/passwd")
    = (lit "//etc/passwd", []) /\
  rooted_under (BASE_PATH module_file) (lit "/etc/passwd") = false /\
  rooted_under (BASE_PATH module_file) (lit "//etc/passwd") = false.
Proof.
  assert (Hlen : (27 <= length (BASE_PATH module_file))%nat).
  { unfold BASE_PATH.
    etransitivity; [|apply join_length_ge]. vm_compute. lia. }
  assert (Hne : forall p, (length p <= 12)%nat ->
                 rooted_under (BASE_PATH module_file) p = false).
  { intros p Hp. unfold rooted_under. apply orb_false_iff. split.
    - apply bool_decide_eq_false. intros ->. lia.
    - destruct (Str.startswith _ p) eqn:E; [|done].
      apply startswith_length in E. rewrite length_app in E. simpl in E. lia. }
  split; [reflexivity|]. split; [reflexivity|].
  split; apply Hne; vm_compute; lia.
Qed.

(** ** Decimal numerals *)

Lemma string_app_cons c a b : String c a +:+ b = String c (a +:+ b).
Proof. reflexivity. Qed.

Lemma string_app_assoc a b c : a +:+ (b +:+ c) = (a +:+ b) +:+ c.
Proof.
  induction a as [|x a IH]; [reflexivity|].
  rewrite !string_app_cons. by rewrite IH.
Qed.

Lemma lit_app a b : lit (a +:+ b) = lit a ++ lit b.
Proof.
  induction a as [|c a IH]; [reflexivity|].
  rewrite string_app_cons. unfold lit in *. simpl. by rewrite IH.
Qed.

Lemma lit_String c s : lit (String c s) = N_of_ascii c :: lit s.
Proof. reflexivity. Qed.

Lemma pretty_N_char_digit x :
  (x < 10)%N -> is_digit (N_of_ascii (pretty_N_char x)) = true.
Proof.
  intros Hx. unfold pretty_N_char.
  repeat (case_match; try reflexivity).
Qed.

Lemma pretty_N_char_value x :
  (x < 10)%N -> Z.of_N (N_of_ascii (pretty_N_char x)) - 48 = Z.of_N x.
Proof.
  intros Hx.
  assert (x = 0 \/ x = 1 \/ x = 2 \/ x = 3 \/ x = 4 \/ x = 5 \/ x = 6 \/
          x = 7 \/ x = 8 \/ x = 9)%N as H by lia.
  repeat (destruct H as [->|H]; [reflexivity|]). by subst.
Qed.

Lemma pretty_N_go_app x s : pretty_N_go x s = pretty_N_go x "" +:+ s.
Proof.
  revert s. induction (N.lt_wf_0 x) as [x _ IH]; intros s.
  destruct (decide (x = 0)%N) as [->|Hx]; [by rewrite !pretty_N_go_0|].
  rewrite (pretty_N_go_step x s), (pretty_N_go_step x "") by lia.
  assert (x `div` 10 < x)%N as Hlt by (apply N.div_lt; lia).
  rewrite (IH _ Hlt (String _ s)), (IH _ Hlt (String _ "")).
  rewrite <- string_app_assoc. reflexivity.
Qed.

Lemma pretty_N_go_snoc x :
  (0 < x)%N ->
  lit (pretty_N_go x "")
  = lit (pretty_N_go (x `div` 10) "") ++ [N_of_ascii (pretty_N_char (x `mod` 10))].
Proof.
  intros Hx. rewrite pretty_N_go_step by done.
  rewrite pretty_N_go_app, lit_app. reflexivity.
Qed.

Lemma pretty_N_go_digits x : forallb is_digit (lit (pretty_N_go x "")) = true.
Proof.
  induction (N.lt_wf_0 x) as [x _ IH].
  destruct (decide (x = 0)%N) as [->|Hx]; [reflexivity|].
  rewrite pretty_N_go_snoc by lia. rewrite forallb_app, IH; simpl.
  - rewrite pretty_N_char_digit; [done|]. apply N.mod_lt. lia.
  - apply N.div_lt; lia.
Qed.

Lemma pretty_N_go_nonempty x : (0 < x)%N -> lit (pretty_N_go x "") <> [].
Proof.
  intros Hx. rewrite pretty_N_go_snoc by done.
  intros H. by apply app_eq_nil in H as [_ ?].
Qed.

Lemma pretty_N_go_value x :
  digits_value 0 (lit (pretty_N_go x "")) = Z.of_N x.
Proof.
  induction (N.lt_wf_0 x) as [x _ IH].
  destruct (decide (x = 0)%N) as [->|Hx]; [reflexivity|].
  rewrite pretty_N_go_snoc by lia. unfold digits_value in *.
  rewrite fold_left_app. simpl. rewrite IH by (apply N.div_lt; lia).
  rewrite pretty_N_char_value by (apply N.mod_lt; lia).
  rewrite (N.div_mod x 10) at 3 by lia. lia.
Qed.

Lemma parse_digits_all_digits ds acc b :
  forallb is_digit ds = true ->
  parse_digits acc b ds
  = if bool_decide (ds = []) then (if b then Some acc else None)
    else Some (digits_value acc ds).
Proof.
  revert acc b. induction ds as [|c ds IH]; intros acc b Hd; simpl in *.
  - reflexivity.
  - apply andb_true_iff in Hd as [Hc Hd]. rewrite Hc.
    rewrite IH by done.
    case_bool_decide; subst; reflexivity.
Qed.

(** The text of [fmt_d n] for a natural number [n]: digits only, not
    empty, and worth [n]. *)
Lemma fmt_d_nat n :
  forallb is_digit (fmt_d (Z.of_nat n)) = true /\
  fmt_d (Z.of_nat n) <> [] /\
  digits_value 0 (fmt_d (Z.of_nat n)) = Z.of_nat n.
Proof.
  unfold fmt_d, pretty, pretty_Z.
  destruct (Z.of_nat n) as [|q|q] eqn:E; [repeat split; done| |lia].
  unfold pretty, pretty_positive, pretty, pretty_N.
  rewrite decide_False by done.
  split; [apply pretty_N_go_digits|].
  split; [apply pretty_N_go_nonempty; lia|].
  rewrite pretty_N_go_value. lia.
Qed.

Lemma digit_not_space c : is_digit c = true -> is_space c = false.
Proof.
  unfold is_digit, is_space. intros H.
  apply andb_true_iff in H as [H1%N.leb_le H2%N.leb_le].
  repeat (apply orb_false_iff; split);
    try (apply andb_false_iff);
    rewrite ?N.leb_gt, ?N.eqb_neq; lia.
Qed.

Lemma skip_spaces_digits ds :
  forallb is_digit ds = true -> skip_spaces ds = ds.
Proof.
  destruct ds as [|c ds]; simpl; [done|].
  intros [Hc _]%andb_true_iff. by rewrite digit_not_space.
Qed.

Lemma py_int_digits ds :
  forallb is_digit ds = true -> ds <> [] ->
  py_int ds = Ret (digits_value 0 ds).
Proof.
  intros Hd Hne. unfold py_int.
  rewrite (skip_spaces_digits ds Hd).
  assert (forallb is_digit (rev ds) = true) as Hr.
  { rewrite forallb_forall in *. intros x Hx. apply Hd. by apply in_rev. }
  rewrite (skip_spaces_digits _ Hr), rev_involutive.
  assert (match ds with
          | 45%N :: r => (true, r)
          | 43%N :: r => (false, r)
          | _ => (false, ds)
          end = (false, ds)) as ->.
  { destruct ds as [|c ds']; [done|]. simpl in Hd.
    apply andb_true_iff in Hd as [Hc _]. unfold is_digit in Hc.
    apply andb_true_iff in Hc as [H1%N.leb_le H2%N.leb_le].
    destruct c as [|p]; [lia|].
    do 6 (destruct p as [p|p|]; try reflexivity; try lia). }
  rewrite parse_digits_all_digits by done.
  by rewrite bool_decide_eq_false_2.
Qed.

(** [int("%d" % n) == n] for a natural number [n]. *)
Lemma py_int_fmt_d n : py_int (fmt_d (Z.of_nat n)) = Ret (Z.of_nat n).
Proof.
  destruct (fmt_d_nat n) as (Hd & Hne & Hv).
  rewrite py_int_digits by done. by rewrite Hv.
Qed.

(** ** Searching and splitting *)

Lemma startswith_app p t : Str.startswith p (p ++ t) = true.
Proof. induction p as [|a p IH]; simpl; [done|]. by rewrite N.eqb_refl. Qed.

Lemma startswith_app_l p s t :
  (length p <= length s)%nat -> Str.startswith p (s ++ t) = Str.startswith p s.
Proof.
  revert s. induction p as [|a p IH]; intros [|b s] Hlen; simpl in *;
    try done; try lia.
  rewrite IH by lia. done.
Qed.

Lemma find_from_range sub s i :
  Str.find_from sub s i = -1 \/ i <= Str.find_from sub s i.
Proof.
  revert i. induction s as [|c s IH]; intros i; simpl.
  - destruct (Str.startswith sub []); lia.
  - destruct (Str.startswith sub (c :: s)); [lia|].
    destruct (IH (i + 1)); lia.
Qed.

Lemma split_go_skip sep x t :
  Str.split_go sep (length x) (x ++ t) = Str.split_go sep 0 t.
Proof.
  induction x as [|c x IH]; simpl; [|exact IH].
  destruct t; reflexivity.
Qed.

(** When the first occurrence of [sep] in [pre ++ sep] is the one at its
    end, [split] cuts [pre ++ sep ++ rest] there, whatever [rest] is. *)
Lemma split_go_first sep pre rest i :
  sep <> [] ->
  0 <= i ->
  Str.find_from sep (pre ++ sep) i = i + len pre ->
  Str.find_from sep (pre ++ sep ++ rest) i = i + len pre /\
  Str.split_go sep 0 (pre ++ sep ++ rest)
  = (pre, fst (Str.split_go sep 0 rest) :: snd (Str.split_go sep 0 rest)).
Proof.
  intros Hsep. revert i. induction pre as [|h pre IH]; intros i Hi Hfind.
  - destruct sep as [|c sep']; [done|]. clear Hfind.
    change ([] ++ (c :: sep') ++ rest) with ((c :: sep') ++ rest).
    split.
    + change ((c :: sep') ++ rest) with (c :: (sep' ++ rest)).
      cbn [Str.find_from].
      change (c :: sep' ++ rest) with ((c :: sep') ++ rest).
      rewrite startswith_app. unfold len. simpl. lia.
    + change ((c :: sep') ++ rest) with (c :: (sep' ++ rest)).
      cbn [Str.split_go].
      change (c :: sep' ++ rest) with ((c :: sep') ++ rest).
      rewrite startswith_app. cbn [length pred].
      rewrite split_go_skip. by destruct (Str.split_go (c :: sep') 0 rest).
  - change ((h :: pre) ++ sep) with (h :: (pre ++ sep)) in Hfind.
    cbn [Str.find_from] in Hfind.
    assert (Str.startswith sep (h :: pre ++ sep) = false) as Hno.
    { destruct (Str.startswith sep (h :: pre ++ sep)); [|done].
      unfold len in Hfind. simpl in Hfind. lia. }
    rewrite Hno in Hfind.
    assert (Str.startswith sep (h :: pre ++ sep ++ rest) = false) as Hno'.
    { rewrite <- Hno.
      change (h :: pre ++ sep ++ rest) with ((h :: pre) ++ sep ++ rest).
      rewrite app_assoc. apply startswith_app_l.
      simpl. rewrite length_app. lia. }
    destruct (IH (i + 1)) as [IH1 IH2]; [lia| |].
    { rewrite Hfind. unfold len. simpl. lia. }
    change ((h :: pre) ++ sep ++ rest) with (h :: (pre ++ sep ++ rest)).
    split.
    + cbn [Str.find_from]. rewrite Hno', IH1. unfold len. simpl. lia.
    + cbn [Str.split_go]. rewrite Hno', IH2. reflexivity.
Qed.

Lemma split_go_none sep s i :
  0 <= i -> Str.find_from sep s i = -1 -> Str.split_go sep 0 s = (s, []).
Proof.
  revert i. induction s as [|c s IH]; intros i Hi Hfind; [done|].
  cbn [Str.find_from] in Hfind. cbn [Str.split_go].
  destruct (Str.startswith sep (c :: s)); [lia|].
  rewrite (IH (i + 1)) by (lia || done). reflexivity.
Qed.

Lemma split_first sep pre rest :
  sep <> [] ->
  Str.find sep (pre ++ sep) = len pre ->
  Str.contains sep rest = false ->
  Str.contains sep (pre ++ sep ++ rest) = true /\
  Str.split sep (pre ++ sep ++ rest) = [pre; rest].
Proof.
  intros Hsep Hfind Hrest. unfold Str.find in Hfind.
  destruct (split_go_first sep pre rest 0 Hsep) as [Hf Hs]; [lia|by rewrite Hfind|].
  unfold Str.contains, Str.find in *. split.
  - rewrite Hf. apply Z.leb_le. unfold len. lia.
  - unfold Str.split. rewrite Hs.
    apply Z.leb_gt in Hrest.
    rewrite (split_go_none sep rest 0); [done|lia|].
    destruct (find_from_range sep rest 0); lia.
Qed.

(** An occurrence in [a] is an occurrence in [a ++ b]. *)
Lemma find_from_app_found sep a b i :
  0 <= i -> 0 <= Str.find_from sep a i -> 0 <= Str.find_from sep (a ++ b) i.
Proof.
  revert i. induction a as [|x a IH]; intros i Hi.
  - simpl. destruct sep as [|c sep]; simpl; [|lia].
    intros _. destruct b; simpl; lia.
  - cbn [Str.find_from app].
    destruct (Str.startswith sep (x :: a)) eqn:E.
    + change (x :: a ++ b) with ((x :: a) ++ b).
      rewrite startswith_app_l, E; [lia|]. by apply startswith_length.
    + intros H. destruct (Str.startswith sep (x :: a ++ b)); [lia|].
      apply IH; lia.
Qed.

(** A digit string holds no occurrence of a separator that starts with a
    character which is not a digit. *)
Lemma digits_no_occurrence c sep ds :
  is_digit c = false ->
  forallb is_digit ds = true ->
  Str.contains (c :: sep) ds = false.
Proof.
  intros Hc Hd. unfold Str.contains, Str.find. apply Z.leb_gt.
  cut (forall i, Str.find_from (c :: sep) ds i = -1); [intros ->; lia|].
  induction ds as [|d ds IH]; intros i; [reflexivity|].
  simpl in Hd. apply andb_true_iff in Hd as [Hd1 Hd2].
  cbn [Str.find_from Str.startswith].
  destruct (c =? d)%N eqn:E; [apply N.eqb_eq in E; congruence|].
  simpl. by apply IH.
Qed.

(** ** ASCII text and its encoding *)

Lemma is_ascii_app a b : is_ascii (a ++ b) = is_ascii a && is_ascii b.
Proof. apply forallb_app. Qed.

Lemma is_ascii_cons c s : is_ascii (c :: s) = (c <? 128)%N && is_ascii s.
Proof. reflexivity. Qed.

Lemma is_ascii_digits ds : forallb is_digit ds = true -> is_ascii ds = true.
Proof.
  unfold is_ascii. rewrite !forallb_forall. intros H c Hc.
  specialize (H c Hc). unfold is_digit in H.
  apply andb_true_iff in H as [_ H%N.leb_le]. apply N.ltb_lt. lia.
Qed.

Lemma fmt_d_ascii z : is_ascii (fmt_d z) = true.
Proof.
  assert (forall q : positive, is_ascii (fmt_d (Z.pos q)) = true) as Hq.
  { intros q. replace (Z.pos q) with (Z.of_nat (Pos.to_nat q)) by lia.
    apply is_ascii_digits. apply (proj1 (fmt_d_nat _)). }
  destruct z as [|q|q]; [reflexivity|apply Hq|].
  unfold fmt_d, pretty, pretty_Z. rewrite lit_app, is_ascii_app.
  change (lit (pretty q)) with (fmt_d (Z.pos q)). by rewrite Hq.
Qed.

Lemma is_ascii_concat l :
  Forall (fun s => is_ascii s = true) l -> is_ascii (concat l) = true.
Proof.
  induction 1 as [|s l Hs _ IH]; simpl; [done|].
  by rewrite is_ascii_app, Hs, IH.
Qed.

(** An ASCII text is encoded character by character, so its encoding has
    as many bytes as the text has characters. *)
Lemma encode_ascii s :
  is_ascii s = true -> encode s = Some (map ascii_of_N s).
Proof.
  induction s as [|c s IH]; simpl; [done|].
  intros [Hc Hs]%andb_true_iff. rewrite IH by done.
  unfold utf8_encode_char. rewrite Hc. reflexivity.
Qed.

Lemma HTTP_RESPONSE_ascii ctype n :
  is_ascii ctype = true -> is_ascii (HTTP_RESPONSE ctype n) = true.
Proof.
  intros Hc. unfold HTTP_RESPONSE.
  rewrite !is_ascii_app, Hc, fmt_d_ascii. reflexivity.
Qed.

Section JsonText.

Context {pyfloat : Type}.
Variable float_repr : pyfloat -> str.
Hypothesis float_repr_ascii : forall f, is_ascii (float_repr f) = true.

Lemma hex_digit_ascii n : (n < 16)%N -> (hex_digit n <? 128)%N = true.
Proof.
  intros Hn. unfold hex_digit. apply N.ltb_lt. case_match; lia.
Qed.

Lemma u_escape_ascii n : is_ascii (u_escape n) = true.
Proof.
  unfold u_escape. rewrite !is_ascii_cons.
  rewrite !hex_digit_ascii by (apply N.mod_lt; lia). reflexivity.
Qed.

Lemma escape_char_ascii c : is_ascii (escape_char c) = true.
Proof.
  unfold escape_char.
  repeat (case_match; try reflexivity);
    rewrite ?is_ascii_app, ?u_escape_ascii; try reflexivity.
  simpl. rewrite andb_true_r. apply N.ltb_lt.
  match goal with
  | H : (_ && (c <=? 126)%N) = true |- _ =>
      apply andb_true_iff in H as [_ H%N.leb_le]
  end. lia.
Qed.

Lemma dumps_str_ascii s : is_ascii (dumps_str s) = true.
Proof.
  unfold dumps_str. rewrite is_ascii_cons, is_ascii_app. simpl.
  rewrite is_ascii_concat; [reflexivity|].
  induction s as [|c s IH]; constructor; [apply escape_char_ascii|apply IH].
Qed.

Lemma dumps_key_ascii k : is_ascii (dumps_key float_repr k) = true.
Proof. destruct k; apply dumps_str_ascii. Qed.

Lemma join_with_ascii sep l :
  is_ascii sep = true ->
  Forall (fun s => is_ascii s = true) l ->
  is_ascii (join_with sep l) = true.
Proof.
  intros Hsep. induction 1 as [|s l Hs Hl IH]; [done|].
  destruct l as [|s' l]; [exact Hs|].
  change (join_with sep (s :: s' :: l))
    with (s ++ sep ++ join_with sep (s' :: l)).
  by rewrite !is_ascii_app, Hs, Hsep, IH.
Qed.

(** With [ensure_ascii], the text [json.dumps] writes is ASCII. *)
Lemma json_dumps_ascii : forall v, is_ascii (json_dumps float_repr v) = true.
Proof.
  fix IH 1. intros [|b|z|f|s|items|items].
  - reflexivity.
  - by destruct b.
  - apply fmt_d_ascii.
  - apply float_repr_ascii.
  - apply dumps_str_ascii.
  - change (is_ascii (lit "[" ++ join_with (lit ", ")
                        (map (json_dumps float_repr) items) ++ lit "]") = true).
    rewrite !is_ascii_app. rewrite join_with_ascii; [reflexivity..|].
    induction items as [|x xs IHxs]; constructor; [apply IH|apply IHxs].
  - change (is_ascii (lit "{" ++ join_with (lit ", ")
              (map (fun kv => dumps_key float_repr (fst kv) ++ lit ": "
                              ++ json_dumps float_repr (snd kv)) items)
              ++ lit "}") = true).
    rewrite !is_ascii_app. rewrite join_with_ascii; [reflexivity..|].
    induction items as [|[k x] xs IHxs]; constructor; [|apply IHxs].
    cbn [fst snd]. rewrite !is_ascii_app, dumps_key_ascii, IH. reflexivity.
Qed.

End JsonText.

(** ** Sockets and the monad *)

Section Handlers.

Context {pyfloat : Type}.
Variable float_repr : pyfloat -> str.
Variable float_truthy : pyfloat -> bool.
Variable url_decode : str -> str.
Variable module_file : str.

Implicit Types (w : World pyfloat) (s : Socket) (sock : nat).

Lemma bind_Ret {A B} (m : M pyfloat A) (k : A -> M pyfloat B) w a w' :
  m w = (Ret a, w') -> bind m k w = k a w'.
Proof. unfold bind. by intros ->. Qed.

Lemma bind_assoc {A B C} (m : M pyfloat A) (k1 : A -> M pyfloat B)
    (k2 : B -> M pyfloat C) w :
  bind (bind m k1) k2 w = bind m (fun a => bind (k1 a) k2) w.
Proof. unfold bind. by destruct (m w) as [[a|e|] w1]. Qed.

(** One step of a computation whose first part returns by computation. *)
Ltac mstep :=
  rewrite ?bind_assoc;
  erewrite bind_Ret by reflexivity;
  cbn [w_clf w_docs w_x_test w_server_socket w_port w_socks w_log w_fs
       w_backlog w_bind w_browser set_clf set_docs set_x_test set_socks].

Lemma bind_Raise {A B} (m : M pyfloat A) (k : A -> M pyfloat B) w e w' :
  m w = (Raise e, w') -> bind m k w = (Raise e, w').
Proof. unfold bind. by intros ->. Qed.

Lemma bind_Diverge {A B} (m : M pyfloat A) (k : A -> M pyfloat B) w w' :
  m w = (Diverge, w') -> bind m k w = (Diverge, w').
Proof. unfold bind. by intros ->. Qed.

(** A bind returns only if both of its parts do. *)
Lemma bind_Ret_inv {A B} (m : M pyfloat A) (k : A -> M pyfloat B) w b w' :
  bind m k w = (Ret b, w') ->
  exists a w1, m w = (Ret a, w1) /\ k a w1 = (Ret b, w').
Proof.
  unfold bind. destruct (m w) as [[a|e|] w1]; intros H; try done. eauto.
Qed.

Lemma send_ok sock data w s :
  w_socks w !! sock = Some s ->
  send sock data w
  = (Ret tt,
     set_socks (<[sock := mkSocket (inbox s) (peer_closed s)
                                   (outbox s ++ [data]) (closed s)]>
                  (w_socks w)) w).
Proof. unfold send. by intros ->. Qed.

Lemma same_output_refl w : same_output w w.
Proof. by intros fd. Qed.

Lemma same_output_trans w1 w2 w3 :
  same_output w1 w2 -> same_output w2 w3 -> same_output w1 w3.
Proof.
  intros H1 H2 fd. destruct (H1 fd) as [E1 E2], (H2 fd) as [E3 E4].
  split; congruence.
Qed.

Lemma recv_effect sock w o w' :
  recv sock w = (o, w') ->
  same_output w w' /\ same_server w w' /\ w_log w' = w_log w.
Proof.
  unfold recv. destruct (w_socks w !! sock) as [s|] eqn:Hs.
  - destruct (inbox s) as [|c rest] eqn:Hin.
    + destruct (peer_closed s); intros [= <- <-];
        (split; [apply same_output_refl|done]).
    + intros [= <- <-]. split; [|done].
      intros fd. simpl. destruct (decide (fd = sock)) as [->|Hne].
      * by rewrite lookup_insert_eq, Hs.
      * by rewrite lookup_insert_ne.
  - intros [= <- <-]. split; [apply same_output_refl|done].
Qed.

Lemma print_effect l msg w :
  print l msg w
  = (Ret tt,
     mkWorld (w_clf w) (w_docs w) (w_x_test w) (w_server_socket w) (w_port w)
             (w_socks w) (w_log w ++ [(l, msg)]) (w_fs w) (w_backlog w)
             (w_bind w) (w_browser w)).
Proof. reflexivity. Qed.

(** ** C8: the JSON response *)

(** C8 ([__send_as_json__]): for every JSON value, what is sent on the
    socket is the header with status 200, [Connection: close], the CORS
    wildcard origin, the JSON content type and a [Content-length] equal to
    the number of bytes of the body, followed by the body, which is the
    UTF-8 encoding of the JSON text. *)
Theorem C8_send_as_json_content_length
    (float_repr_ascii : forall f, is_ascii (float_repr f) = true)
    sock (data : json pyfloat) w s :
  w_socks w !! sock = Some s ->
  exists header body : bytes,
    send_as_json float_repr sock data w
    = (Ret tt,
       set_socks (<[sock := mkSocket (inbox s) (peer_closed s)
                                     (outbox s ++ [header; body]) (closed s)]>
                    (w_socks w)) w) /\
    encode (json_dumps float_repr data) = Some body /\
    header = map ascii_of_N
               (lit "HTTP/1.1 200 OK" ++ CRLF ++
                lit "Connection: close" ++ CRLF ++
                lit "Access-Control-Allow-Origin: *" ++ CRLF ++
                lit "Server: SS3" ++ CRLF ++
                lit "Content-type: application/json" ++ CRLF ++
                lit "Content-length: " ++ fmt_d (Z.of_nat (length body))
                ++ CRLF ++ CRLF).
Proof.
  intros Hs.
  pose proof (json_dumps_ascii float_repr float_repr_ascii data) as Hascii.
  set (text := json_dumps float_repr data) in *.
  exists (map ascii_of_N (HTTP_RESPONSE (lit "application/json") (len text))),
         (map ascii_of_N text).
  split; [|split].
  - unfold send_as_json. fold text.
    change (content_type (lit "json")) with (lit "application/json").
    unfold encode_m.
    rewrite (encode_ascii (HTTP_RESPONSE _ _))
      by (by apply HTTP_RESPONSE_ascii).
    rewrite (encode_ascii text) by done.
    unfold bind, ret. rewrite (send_ok _ _ _ _ Hs).
    erewrite send_ok by (simpl; apply lookup_insert_eq).
    simpl. f_equal. unfold set_socks; simpl. f_equal.
    rewrite insert_insert_eq. f_equal. f_equal. by rewrite <- app_assoc.
  - by apply encode_ascii.
  - unfold HTTP_RESPONSE, len. by rewrite length_map.
Qed.

(** ** C10: an empty first read *)

(** C10: when the first [recv] of [__handle_request__] returns [b""], the
    handler returns at once: nothing is raised, nothing is written on any
    socket, nothing is logged, and the state of the server is as it
    was. *)
Theorem C10_empty_read_returns sock w w' :
  recv sock w = (Ret [], w') ->
  handle_request float_repr url_decode module_file sock w = (Ret tt, w') /\
  same_output w w' /\ same_server w w' /\ w_log w' = w_log w.
Proof.
  intros Hrecv. split; [|by apply (recv_effect sock w (Ret []))].
  unfold handle_request. by rewrite (bind_Ret _ _ _ _ _ Hrecv).
Qed.

(** ** C4: a failing classifier *)

(** C4 ([__do_classify__]): what the operation does with an exception of
    [classify] depends on its class.  An instance of [Exception] is
    caught: the handler logs the document's head and then one error, which
    for an exception that carries a message is that message, writes
    nothing on any socket, and returns normally.  An exception outside
    [Exception], such as an interrupt, is not caught: it leaves the
    handler, with nothing written and no error logged. *)
Theorem C4_classify_exception_is_swallowed sock doc w clf e :
  w_clf w = Some clf ->
  classify_json clf doc = Raise e ->
  (is_Exception e = true ->
   exists w' msg,
     do_classify float_repr sock doc w = (Ret tt, w') /\
     w_log w' = w_log w ++ [(Show, [9%N] ++ take 50 doc ++ lit "[...]");
                            (Error, msg)] /\
     (forall m, e = OtherException m -> msg = m) /\
     w_socks w' = w_socks w /\
     same_server w w') /\
  (is_Exception e = false ->
   exists w',
     do_classify float_repr sock doc w = (Raise e, w') /\
     w_log w' = w_log w ++ [(Show, [9%N] ++ take 50 doc ++ lit "[...]")] /\
     w_socks w' = w_socks w /\
     same_server w w').
Proof.
  intros Hclf Hraise. split; intros Hexc.
  - unfold do_classify, try_except_Exception, bind, the_clf, lift.
    rewrite print_effect. cbn [w_clf]. rewrite Hclf, Hraise, Hexc.
    rewrite print_effect. eexists _, (exn_str e). split; [reflexivity|].
    cbn [w_log w_socks]. rewrite <- app_assoc.
    split; [done|]. split; [by intros m ->|]. done.
  - unfold do_classify, try_except_Exception, bind, the_clf, lift.
    rewrite print_effect. cbn [w_clf]. rewrite Hclf, Hraise, Hexc.
    eexists; split; [reflexivity|]. by cbn.
Qed.

(** ** C9: routing of POST requests *)

Lemma decode_m_effect data w o w' :
  decode_m data w = (o, w') -> w' = w.
Proof.
  unfold decode_m. destruct (decode data); by intros [= _ <-].
Qed.

Lemma recvall_loop_effect fuel sock body length w o w' :
  recvall_loop fuel sock body length w = (o, w') ->
  same_output w w' /\ same_server w w' /\ w_log w' = w_log w.
Proof.
  revert body w. induction fuel as [|fuel IH]; intros body w; simpl;
    destruct (len body <? length);
    try (intros [= <- <-]; (split; [apply same_output_refl|done])).
  unfold bind at 1.
  destruct (recv sock w) as [[chunk|e|] w1] eqn:Hrecv;
    apply recv_effect in Hrecv as (Ho & Hs & Hl);
    [|intros [= <- <-]; done..].
  unfold bind at 1.
  destruct (decode_m chunk w1) as [[text|e|] w1'] eqn:Hdec;
    apply decode_m_effect in Hdec as ->;
    [|intros [= <- <-]; done..].
  intros Hrest. apply IH in Hrest as (Ho' & Hs' & Hl').
  split; [by eapply same_output_trans|].
  unfold same_server in *. split; [intuition congruence|congruence].
Qed.

Lemma recvall_body_effect sock data length w o w' :
  recvall_body url_decode sock data length w = (o, w') ->
  same_output w w' /\ same_server w w' /\ w_log w' = w_log w.
Proof.
  unfold recvall_body, bind, lift, get_world, ret.
  destruct (get_http_body data) as [body|e|];
    [|intros [= <- <-]; (split; [apply same_output_refl|done])..].
  destruct (recvall_loop _ sock body length w) as [[b|e|] w1] eqn:Hloop;
    apply recvall_loop_effect in Hloop; by intros [= <- <-].
Qed.


(** ** C5: a body that arrives in several reads *)

Lemma utf8_decode_ascii l :
  forallb (fun c => (c <? 128)%N) l = true -> utf8_decode l = Some l.
Proof.
  induction l as [|c l IH]; simpl; [done|].
  intros [Hc Hl]%andb_true_iff. by rewrite Hc, IH.
Qed.

Lemma decode_ascii data :
  bytes_ascii data = true -> decode data = Some (text_of data).
Proof.
  intros H. unfold decode. apply utf8_decode_ascii.
  unfold bytes_ascii in H. induction data as [|a data IH]; simpl in *; [done|].
  apply andb_true_iff in H as [-> H]. by apply IH.
Qed.

Lemma text_of_app a b : text_of (a ++ b) = text_of a ++ text_of b.
Proof. apply map_app. Qed.

Lemma len_app {A} (a b : list A) : len (a ++ b) = len a + len b.
Proof. unfold len. rewrite length_app. lia. Qed.

Lemma recv_chunk sock w s c rest :
  w_socks w !! sock = Some s ->
  inbox s = c :: rest ->
  recv sock w
  = (Ret c,
     set_socks (<[sock := mkSocket rest (peer_closed s) (outbox s) (closed s)]>
                  (w_socks w)) w).
Proof. unfold recv. by intros -> ->. Qed.

(** The loop reads chunk after chunk until the body has the declared
    length. *)
Lemma recvall_loop_chunks sock cs : forall body0 w s,
  w_socks w !! sock = Some s ->
  inbox s = cs ->
  Forall (fun c => bytes_ascii c = true) cs ->
  fst (recvall_loop (length cs) sock body0
         (len (body0 ++ text_of (concat cs))) w)
  = Ret (body0 ++ text_of (concat cs)).
Proof.
  induction cs as [|c cs IH]; intros body0 w s Hs Hin Hascii.
  - simpl. rewrite app_nil_r, Z.ltb_irrefl. reflexivity.
  - inversion Hascii as [|? ? Hc Hcs]; subst.
    cbn [recvall_loop length concat].
    destruct (len body0 <? len (body0 ++ text_of (c ++ concat cs))) eqn:E.
    + rewrite (bind_Ret _ _ _ _ _ (recv_chunk _ _ _ _ _ Hs Hin)).
      unfold decode_m. rewrite (decode_ascii c Hc).
      unfold bind at 1, ret at 1.
      rewrite text_of_app, app_assoc.
      eapply IH; [apply lookup_insert_eq|reflexivity|done].
    + apply Z.ltb_ge in E. rewrite len_app in E.
      assert (text_of (c ++ concat cs) = []) as ->.
      { destruct (text_of (c ++ concat cs)); [done|].
        unfold len in E. simpl in E. lia. }
      by rewrite app_nil_r.
Qed.

(** C5 ([__recvall_body__], for percent-encoded bodies): a body of ASCII bytes that holds no
    blank line, sent after a header block whose first blank line is its
    end, and delivered in [N = 1 + length cs] reads whose lengths add up
    to the declared length, is reassembled into the same text as when it
    is delivered in a single read: the percent-decoded concatenation. *)
Theorem C5_recvall_body_reassembles sock (head : str) (c1 : bytes)
    (cs : list bytes) (length : Z) (wN : World pyfloat) (sN : Socket) w1 s1 :
  let sep := CRLF ++ CRLF in
  let body := text_of (concat (c1 :: cs)) in
  Forall (fun c => bytes_ascii c = true) (c1 :: cs) ->
  Str.find sep (head ++ sep) = len head ->
  Str.contains sep body = false ->
  length = len (concat (c1 :: cs)) ->
  w_socks wN !! sock = Some sN -> inbox sN = cs ->
  w_socks w1 !! sock = Some s1 -> inbox s1 = [] ->
  fst (recvall_body url_decode sock (head ++ sep ++ text_of c1) length wN)
    = Ret (url_decode body) /\
  fst (recvall_body url_decode sock (head ++ sep ++ body) length w1)
    = Ret (url_decode body).
Proof.
  intros sep body Hascii Hhead Hbody -> HsN HinN Hs1 Hin1.
  inversion Hascii as [|? ? Hc1 Hcs]; subst.
  assert (len (concat (c1 :: inbox sN)) = len body) as ->.
  { unfold body, text_of, len. by rewrite length_map. }
  assert (body = text_of c1 ++ text_of (concat (inbox sN))) as Hsplit.
  { unfold body. simpl. apply text_of_app. }
  assert (Str.contains sep (text_of c1) = false) as Hc1'.
  { unfold Str.contains, Str.find in *. apply Z.leb_gt.
    apply Z.leb_gt in Hbody. rewrite Hsplit in Hbody.
    pose proof (find_from_app_found sep (text_of c1)
                  (text_of (concat (inbox sN))) 0). lia. }
  assert (sep <> []) as Hsep by done.
  split.
  - unfold recvall_body.
    destruct (split_first sep head (text_of c1) Hsep Hhead Hc1') as [_ Hsp].
    unfold get_http_body. fold sep. rewrite Hsp.
    unfold bind at 1, lift at 1, index at 1. cbn [lookup list_lookup].
    unfold bind at 1, get_world at 1. unfold pending. rewrite HsN.
    pose proof (recvall_loop_chunks sock (inbox sN) (text_of c1) wN sN
                  HsN eq_refl Hcs) as Hloop.
    rewrite <- Hsplit in Hloop. unfold bind.
    destruct (recvall_loop _ sock (text_of c1) (len body) wN) as [o w'].
    simpl in Hloop. subst o. reflexivity.
  - unfold recvall_body.
    destruct (split_first sep head body Hsep Hhead Hbody) as [_ Hsp].
    unfold get_http_body. fold sep. rewrite Hsp.
    unfold bind at 1, lift at 1, index at 1. cbn [lookup list_lookup].
    unfold bind at 1, get_world at 1. unfold pending. rewrite Hs1, Hin1.
    cbn [List.length recvall_loop]. rewrite Z.ltb_irrefl. reflexivity.
Qed.

(** ** C6: line locators *)



(** ** C3: an exception in the handler *)

Lemma same_closed_refl w : same_closed w w.
Proof. by intros fd. Qed.

Lemma same_closed_trans w1 w2 w3 :
  same_closed w1 w2 -> same_closed w2 w3 -> same_closed w1 w3.
Proof. intros H1 H2 fd. by rewrite H2, H1. Qed.

Lemma keeps_bind {A B} (m : M pyfloat A) (k : A -> M pyfloat B) :
  keeps_closed m -> (forall a, keeps_closed (k a)) -> keeps_closed (bind m k).
Proof.
  intros Hm Hk w o w'. unfold bind.
  destruct (m w) as [[a|e|] w1] eqn:E; specialize (Hm _ _ _ E).
  - intros Hka. eapply same_closed_trans; [exact Hm|]. by eapply Hk.
  - by intros [= <- <-].
  - by intros [= <- <-].
Qed.

Lemma keeps_pure {A} (m : M pyfloat A) :
  (forall w, snd (m w) = w) -> keeps_closed m.
Proof.
  intros Hm w o w' E. specialize (Hm w). rewrite E in Hm. simpl in Hm.
  subst. apply same_closed_refl.
Qed.

Lemma keeps_ret {A} (a : A) : keeps_closed (ret (pyfloat := pyfloat) a).
Proof. by apply keeps_pure. Qed.

Lemma keeps_lift {A} (o : outcome A) : keeps_closed (lift (pyfloat := pyfloat) o).
Proof. by apply keeps_pure. Qed.

Lemma keeps_raise {A} e : keeps_closed (raise (pyfloat := pyfloat) (A := A) e).
Proof. by apply keeps_pure. Qed.

Lemma keeps_get_world : keeps_closed (get_world (pyfloat := pyfloat)).
Proof. by apply keeps_pure. Qed.

Lemma keeps_the_clf : keeps_closed (the_clf (pyfloat := pyfloat)).
Proof. apply keeps_pure. intros w. unfold the_clf. by destruct (w_clf w). Qed.

Lemma keeps_decode_m data : keeps_closed (decode_m (pyfloat := pyfloat) data).
Proof. apply keeps_pure. intros w. unfold decode_m. by destruct (decode data). Qed.

Lemma keeps_encode_m t : keeps_closed (encode_m (pyfloat := pyfloat) t).
Proof. apply keeps_pure. intros w. unfold encode_m. by destruct (encode t). Qed.

Lemma keeps_path_exists p : keeps_closed (path_exists (pyfloat := pyfloat) p).
Proof. by apply keeps_pure. Qed.

Lemma keeps_read_binary p : keeps_closed (read_binary (pyfloat := pyfloat) p).
Proof.
  apply keeps_pure. intros w. unfold read_binary.
  by destruct (w_fs w p) as [[]|].
Qed.

Lemma keeps_open_text p : keeps_closed (open_text (pyfloat := pyfloat) p).
Proof.
  apply keeps_pure. intros w. unfold open_text.
  destruct (w_fs w p) as [[c|]|]; try done. by destruct (decode c).
Qed.

Lemma keeps_print l msg : keeps_closed (print (pyfloat := pyfloat) l msg).
Proof. intros w o w' [= <- <-]. by intros fd. Qed.

Lemma keeps_recv sock : keeps_closed (recv (pyfloat := pyfloat) sock).
Proof.
  intros w o w' E. apply recv_effect in E as (Ho & _). intros fd. apply Ho.
Qed.

Lemma keeps_send sock data : keeps_closed (send (pyfloat := pyfloat) sock data).
Proof.
  intros w o w'. unfold send.
  destruct (w_socks w !! sock) as [s|] eqn:Hs; intros [= <- <-];
    [|apply same_closed_refl].
  intros fd. simpl. destruct (decide (fd = sock)) as [->|Hne].
  - by rewrite lookup_insert_eq, Hs.
  - by rewrite lookup_insert_ne.
Qed.

Lemma keeps_try {A} (m : M pyfloat A) handler :
  keeps_closed m -> (forall e, keeps_closed (handler e)) ->
  keeps_closed (try_except_Exception m handler).
Proof.
  intros Hm Hh w o w'. unfold try_except_Exception.
  destruct (m w) as [[a|e|] w1] eqn:E; specialize (Hm _ _ _ E);
    try (by intros [= <- <-]).
  destruct (is_Exception e); [|by intros [= <- <-]].
  intros He. eapply same_closed_trans; [exact Hm|]. by eapply Hh.
Qed.

Lemma keeps_recvall_body sock data length :
  keeps_closed (recvall_body (pyfloat := pyfloat) url_decode sock data length).
Proof.
  intros w o w' E. apply recvall_body_effect in E as (Ho & _).
  intros fd. apply Ho.
Qed.

Ltac keeps_step :=
  lazymatch goal with
  | |- forall _, _ => intro
  | |- keeps_closed (bind _ _) => apply keeps_bind
  | |- keeps_closed (ret _) => apply keeps_ret
  | |- keeps_closed (lift _) => apply keeps_lift
  | |- keeps_closed (raise _) => apply keeps_raise
  | |- keeps_closed get_world => apply keeps_get_world
  | |- keeps_closed the_clf => apply keeps_the_clf
  | |- keeps_closed (decode_m _) => apply keeps_decode_m
  | |- keeps_closed (encode_m _) => apply keeps_encode_m
  | |- keeps_closed (path_exists _) => apply keeps_path_exists
  | |- keeps_closed (read_binary _) => apply keeps_read_binary
  | |- keeps_closed (open_text _) => apply keeps_open_text
  | |- keeps_closed (print _ _) => apply keeps_print
  | |- keeps_closed (recv _) => apply keeps_recv
  | |- keeps_closed (send _ _) => apply keeps_send
  | |- keeps_closed (recvall_body _ _ _ _) => apply keeps_recvall_body
  | |- keeps_closed (try_except_Exception _ _) => apply keeps_try
  | |- keeps_closed (if ?b then _ else _) => destruct b
  | |- keeps_closed (match ?x with _ => _ end) => destruct x
  end.

Lemma keeps_send_as_json sock data :
  keeps_closed (send_as_json float_repr sock data).
Proof. unfold send_as_json. cbv zeta. repeat keeps_step. Qed.

Lemma keeps_do_get_doc sock file :
  keeps_closed (do_get_doc float_repr sock file).
Proof.
  unfold do_get_doc.
  repeat lazymatch goal with
         | |- keeps_closed (send_as_json _ _ _) => apply keeps_send_as_json
         | |- _ => keeps_step
         end.
Qed.

(** The handler closes no socket, whether it returns or raises. *)
Lemma keeps_handle_request sock :
  keeps_closed (handle_request float_repr url_decode module_file sock).
Proof.
  unfold handle_request, do_ack, do_classify, do_get_info. cbv zeta.
  repeat lazymatch goal with
         | |- keeps_closed (send_as_json _ _ _) => apply keeps_send_as_json
         | |- keeps_closed (do_get_doc _ _ _) => apply keeps_do_get_doc
         | |- _ => keeps_step
         end.
Qed.

Lemma serve_loop_app server_socket earlier later :
  forall clients sock_to_addr w clients' sock_to_addr' w',
  serve_loop float_repr url_decode module_file server_socket earlier
             clients sock_to_addr w
    = (Ret (clients', sock_to_addr'), w') ->
  serve_loop float_repr url_decode module_file server_socket
             (earlier ++ later) clients sock_to_addr w
  = serve_loop float_repr url_decode module_file server_socket later
               clients' sock_to_addr' w'.
Proof.
  induction earlier as [|[rs|] earlier IH];
    intros clients sock_to_addr w clients' sock_to_addr' w' Hrun.
  - by injection Hrun as -> -> ->.
  - simpl in *. apply bind_Ret_inv in Hrun as ([c a] & w1 & Hrs & Hrest).
    rewrite (bind_Ret _ _ _ _ _ Hrs). by apply IH.
  - done.
Qed.

(** C3 (what an exception in the handler does): the dispatcher has no handler for the exceptions of a
    request.  When [__handle_request__] raises, the loop over the ready
    sockets ends there: the socket is neither removed nor closed, and
    [serve] ends with that exception, at whatever point of its run.  For
    [KeyboardInterrupt] raised in the handler it ends as for an interrupt:
    it logs that it closes, closes the listening socket and returns, and
    the connection's socket is left as it was.  A socket is removed and
    closed, and the loop goes on, when the handler returns; and an
    interrupt that arrives in [select] closes the listening socket and
    makes [serve] return. *)
Theorem C3_handler_exception_ends_serve
    clf x_test y_test port browser w0 server_socket w1
    earlier clients sock_to_addr w sock rest later :
  serve_setup float_truthy clf x_test y_test port browser w0
    = (Ret (Some server_socket), w1) ->
  serve_loop float_repr url_decode module_file server_socket earlier
             [server_socket] ∅ w1
    = (Ret (clients, sock_to_addr), w) ->
  sock <> server_socket ->
  (forall e w',
     handle_request float_repr url_decode module_file sock w = (Raise e, w') ->
     for_read_socks float_repr url_decode module_file server_socket
                    (sock :: rest) clients sock_to_addr w = (Raise e, w') /\
     closed <$> (w_socks w' !! sock) = closed <$> (w_socks w !! sock) /\
     (e <> KeyboardInterrupt ->
      serve float_repr float_truthy url_decode module_file clf x_test y_test
            port browser (earlier ++ Ready (sock :: rest) :: later) w0
      = (Raise e, w')) /\
     (e = KeyboardInterrupt ->
      exists wf,
        serve float_repr float_truthy url_decode module_file clf x_test
              y_test port browser (earlier ++ Ready (sock :: rest) :: later)
              w0
        = (Ret tt, wf) /\
        w_server_socket wf = None /\
        w_log wf = w_log w' ++ [(Info, lit "closing server...")] /\
        closed <$> (w_socks wf !! sock) = closed <$> (w_socks w !! sock) /\
        (is_Some (w_socks w' !! server_socket) ->
         closed <$> (w_socks wf !! server_socket) = Some true))) /\
  (forall w' clients' addr,
     handle_request float_repr url_decode module_file sock w = (Ret tt, w') ->
     list_remove sock clients = Ret clients' ->
     sock_to_addr !! sock = Some addr ->
     for_read_socks float_repr url_decode module_file server_socket
                    (sock :: rest) clients sock_to_addr w
     = for_read_socks float_repr url_decode module_file server_socket
                      rest clients' (delete sock sock_to_addr)
                      (snd (close sock w'))) /\
  (exists wf,
     serve float_repr float_truthy url_decode module_file clf x_test y_test
           port browser (earlier ++ Interrupt :: later) w0 = (Ret tt, wf) /\
     w_server_socket wf = None /\
     (is_Some (w_socks w !! server_socket) ->
      closed <$> (w_socks wf !! server_socket) = Some true)).
Proof.
  intros Hsetup Hloop Hne. split; [|split].
  - intros e w' Hraise.
    assert (for_read_socks float_repr url_decode module_file server_socket
              (sock :: rest) clients sock_to_addr w = (Raise e, w')) as Hfor.
    { cbn [for_read_socks]. rewrite bool_decide_eq_false_2 by done.
      by rewrite (bind_Raise _ _ _ _ _ Hraise). }
    assert (closed <$> (w_socks w' !! sock) = closed <$> (w_socks w !! sock))
      as Hkeeps by (by apply (keeps_handle_request sock w (Raise e) w')).
    split; [exact Hfor|]. split; [exact Hkeeps|]. split.
    + intros Hki. unfold serve. rewrite (bind_Ret _ _ _ _ _ Hsetup).
      rewrite (serve_loop_app _ _ _ _ _ _ _ _ _ Hloop).
      cbn [serve_loop]. rewrite (bind_Raise _ _ _ _ _ Hfor).
      by destruct e.
    + intros ->. unfold serve. rewrite (bind_Ret _ _ _ _ _ Hsetup).
      rewrite (serve_loop_app _ _ _ _ _ _ _ _ _ Hloop).
      cbn [serve_loop]. rewrite (bind_Raise _ _ _ _ _ Hfor).
      unfold bind. rewrite print_effect.
      unfold close. cbn [w_socks].
      destruct (w_socks w' !! server_socket) as [s|] eqn:Hs.
      * eexists. split; [reflexivity|]. split; [reflexivity|].
        split; [reflexivity|]. cbn [w_socks set_socks].
        rewrite lookup_insert_ne by done. split; [exact Hkeeps|].
        intros _. by rewrite lookup_insert_eq.
      * eexists. split; [reflexivity|]. split; [reflexivity|].
        split; [reflexivity|]. cbn [w_socks]. split; [exact Hkeeps|].
        by intros [? [=]].
  - intros w' clients' addr Hret Hrem Haddr.
    cbn [for_read_socks]. rewrite bool_decide_eq_false_2 by done.
    rewrite (bind_Ret _ _ _ _ _ Hret). rewrite Hrem.
    unfold bind at 1, lift at 1. unfold dict_del. rewrite Haddr.
    unfold bind at 1, lift at 1. unfold bind at 1.
    by destruct (close sock w') as [[[]|?|] ?] eqn:E;
      unfold close in E; destruct (w_socks w' !! sock); inversion E.
  - unfold serve. rewrite (bind_Ret _ _ _ _ _ Hsetup).
    rewrite (serve_loop_app _ _ _ _ _ _ _ _ _ Hloop).
    cbn [serve_loop]. unfold raise, lift, bind. rewrite print_effect.
    unfold close. cbn [w_socks].
    destruct (w_socks w !! server_socket) as [s|] eqn:Hs.
    + eexists. split; [reflexivity|]. split; [reflexivity|].
      intros _. cbn. by rewrite lookup_insert_eq.
    + eexists. split; [reflexivity|]. split; [reflexivity|].
      by intros [? [=]].
Qed.

(** ** C2: labels that do not match the documents *)

(** C2 (where the lengths are checked): the length check is made by [serve], for a list of
    documents that is not empty.  With labels that are missing, empty or
    of another length, [serve] logs the error and returns before it
    serves, and the test corpus index and the document array are as they
    were. *)
Theorem C2_serve_rejects_mismatched_labels
    clf d ds y_test port browser events w :
  is_Some clf \/ is_Some (w_clf w) ->
  (w_server_socket w = None -> exists r, w_bind w port = Ret r) ->
  match y_test with
  | Some labels => length labels <> length (d :: ds)
  | None => True
  end ->
  exists w',
    serve float_repr float_truthy url_decode module_file clf
          (Some (d :: ds)) y_test port browser events w = (Ret tt, w') /\
    w_docs w' = w_docs w /\
    w_x_test w' = w_x_test w /\
    exists earlier,
      w_log w' = earlier ++
        [(Error, lit "y_test must have the same length as x_test")].
Proof.
  intros Hclf Hbind Hlen.
  assert (exists c, match clf with Some c => Some c | None => w_clf w end
                    = Some c) as [c Hc].
  { destruct clf as [c|]; [by eexists|].
    destruct Hclf as [[? [=]]|[c ->]]. by eexists. }
  unfold serve, serve_setup. do 2 mstep. rewrite Hc.
  destruct (w_server_socket w) as [ss|] eqn:Hss.
  - mstep.
    destruct y_test as [[|l ls]|];
      rewrite ?bool_decide_eq_false_2 by done;
      do 3 mstep; (eexists; split; [reflexivity|]);
      cbn [w_docs w_x_test w_log]; repeat split; by eexists.
  - destruct (Hbind eq_refl) as [[fd bound] Hb].
    unfold start_listening. rewrite ?bind_assoc.
    erewrite bind_Ret by (cbn [w_bind set_clf]; rewrite Hb; reflexivity).
    cbv beta iota. do 6 mstep.
    destruct y_test as [[|l ls]|];
      rewrite ?bool_decide_eq_false_2 by done;
      do 3 mstep; (eexists; split; [reflexivity|]);
      cbn [w_docs w_x_test w_log]; repeat split; by eexists.
Qed.

(** ** C7: the three lists of a category *)

Lemma lift_Ret_inv {A} (o : outcome A) w a w' :
  lift o w = (Ret a, w') -> o = Ret a /\ w' = w.
Proof. unfold lift. by intros [= -> ->]. Qed.

Lemma the_clf_inv w clf w' :
  the_clf w = (Ret clf, w') -> w_clf w = Some clf /\ w' = w.
Proof. unfold the_clf. destruct (w_clf w); by intros [= -> ->]. Qed.

Lemma append_file_inv cat x w w' :
  append_file cat x w = (Ret tt, w') ->
  exists e, w_docs w !! cat = Some e /\
    w' = set_docs (<[cat := mkDocEntry (path e) (file e ++ [x])
                                       (clf_result e)]> (w_docs w)) w.
Proof.
  unfold append_file. destruct (w_docs w !! cat) as [e|]; [|done].
  intros [= <-]. by exists e.
Qed.

Lemma append_path_inv cat x w w' :
  append_path cat x w = (Ret tt, w') ->
  exists e, w_docs w !! cat = Some e /\
    w' = set_docs (<[cat := mkDocEntry (path e ++ [x]) (file e)
                                       (clf_result e)]> (w_docs w)) w.
Proof.
  unfold append_path. destruct (w_docs w !! cat) as [e|]; [|done].
  intros [= <-]. by exists e.
Qed.

Lemma append_clf_result_inv cat x w w' :
  append_clf_result cat x w = (Ret tt, w') ->
  exists e, w_docs w !! cat = Some e /\
    w' = set_docs (<[cat := mkDocEntry (path e) (file e)
                                       (clf_result e ++ [x])]> (w_docs w)) w.
Proof.
  unfold append_clf_result. destruct (w_docs w !! cat) as [e|]; [|done].
  intros [= <-]. by exists e.
Qed.

Lemma init_docs_lookup (ys : list str) (m : gmap str DocEntry)
    (c : str) (e : DocEntry) :
  foldr (fun cat docs => <[cat := empty_entry]> docs) m ys !! c = Some e ->
  e = empty_entry \/ m !! c = Some e.
Proof.
  induction ys as [|y ys IH]; simpl; [by right|].
  destruct (decide (y = c)) as [->|Hne].
  - rewrite lookup_insert_eq. intros [= <-]. by left.
  - rewrite lookup_insert_ne by done. exact IH.
Qed.

Lemma entry_from_memory_aligned clf x_test y_test cat e :
  entry_from_memory float_truthy clf x_test y_test cat e -> entry_aligned e.
Proof.
  unfold entry_from_memory, entry_aligned.
  generalize (path e) (file e) (clf_result e).
  induction 1 as [|???????? [IH1 IH2]]; simpl; [done|]. by rewrite IH1, IH2.
Qed.

Lemma entry_from_folder_aligned clf fs test_path cat e :
  entry_from_folder float_truthy clf fs test_path cat e -> entry_aligned e.
Proof.
  unfold entry_from_folder, entry_aligned.
  generalize (path e) (file e) (clf_result e).
  induction 1 as [|???????? [IH1 IH2]]; simpl; [done|]. by rewrite IH1, IH2.
Qed.

Lemma entry_from_file_aligned clf fs test_path cat e :
  entry_from_file float_truthy clf fs test_path cat e -> entry_aligned e.
Proof.
  intros (fname & content & text & _ & _ & _ & _ & Hf & Hp).
  unfold entry_aligned. rewrite Hf, Hp. unfold range.
  by rewrite !length_map, !length_seq.
Qed.

(** The loop of [set_testset] keeps every category in step with the
    documents it has gone through. *)
Lemma set_testset_loop_entries clf x_test y_test rest : forall idoc w w',
  (forall j doc, rest !! j = Some doc -> x_test !! (idoc + j)%nat = Some doc) ->
  (forall cat e, w_docs w !! cat = Some e ->
                 entry_from_memory float_truthy clf x_test y_test cat e) ->
  set_testset_loop float_truthy clf (len (get_categories clf)) y_test
                   idoc rest w = (Ret tt, w') ->
  forall cat e, w_docs w' !! cat = Some e ->
                entry_from_memory float_truthy clf x_test y_test cat e.
Proof.
  induction rest as [|doc rest IH]; intros idoc w w' Hx Hinv Hrun.
  - by injection Hrun as <-.
  - cbn [set_testset_loop] in Hrun.
    apply bind_Ret_inv in Hrun as (cat0 & w1 & H1 & Hrun).
    apply lift_Ret_inv in H1 as [Hcat ->].
    apply bind_Ret_inv in Hrun as ([] & w2 & H2 & Hrun).
    apply append_file_inv in H2 as (e0 & He0 & ->).
    apply bind_Ret_inv in Hrun as ([] & w3 & H3 & Hrun).
    apply append_path_inv in H3 as (e1 & He1 & ->).
    apply bind_Ret_inv in Hrun as (r & w4 & H4 & Hrun).
    apply lift_Ret_inv in H4 as [Hr ->].
    apply bind_Ret_inv in Hrun as (c & w5 & H5 & Hrun).
    apply lift_Ret_inv in H5 as [Hc ->].
    apply bind_Ret_inv in Hrun as ([] & w6 & H6 & Hrun).
    apply append_clf_result_inv in H6 as (e2 & He2 & ->).
    cbn [w_docs set_docs] in *.
    rewrite lookup_insert_eq in He1. injection He1 as <-.
    rewrite lookup_insert_eq in He2. injection He2 as <-.
    cbn [path file clf_result] in *.
    rewrite !insert_insert_eq in Hrun.
    unfold index in Hcat.
    destruct (y_test !! idoc) as [cat1|] eqn:Hy; [|done].
    injection Hcat as ->.
    eapply (IH (S idoc)); [| |exact Hrun].
    + intros j d Hj. replace (S idoc + j)%nat with (idoc + S j)%nat by lia.
      by apply Hx.
    + intros cat e. cbn [w_docs set_docs].
      destruct (decide (cat0 = cat)) as [->|Hne].
      * rewrite lookup_insert_eq. intros [= <-].
        unfold entry_from_memory. cbn [path file clf_result].
        apply Forall3_app; [by apply Hinv|].
        constructor; [|constructor].
        exists idoc, doc. repeat split; try done.
        -- specialize (Hx 0%nat doc eq_refl). by rewrite Nat.add_0_r in Hx.
        -- by exists r.
      * rewrite lookup_insert_ne by done. apply Hinv.
Qed.

Lemma set_testset_entries x_test y_test w b w' clf :
  w_clf w = Some clf ->
  set_testset float_truthy x_test y_test w = (Ret b, w') ->
  forall cat e, w_docs w' !! cat = Some e ->
                entry_from_memory float_truthy clf x_test y_test cat e.
Proof.
  intros Hclf Hrun. unfold set_testset in Hrun.
  apply bind_Ret_inv in Hrun as ([] & w1 & H1 & Hrun).
  injection H1 as <-.
  apply bind_Ret_inv in Hrun as ([] & w2 & H2 & Hrun).
  injection H2 as <-.
  apply bind_Ret_inv in Hrun as (clf' & w3 & H3 & Hrun).
  apply the_clf_inv in H3 as [Hclf' ->].
  cbn in Hclf'. rewrite Hclf in Hclf'. injection Hclf' as <-.
  apply bind_Ret_inv in Hrun as ([] & w4 & H4 & Hrun).
  injection H4 as <-.
  apply bind_Ret_inv in Hrun as ([] & w5 & H5 & Hrun).
  unfold categories_found in Hrun.
  apply bind_Ret_inv in Hrun as (w6 & w7 & H6 & Hrun).
  injection H6 as <- <-.
  apply bind_Ret_inv in Hrun as ([] & w8 & H8 & Hrun).
  injection H8 as <-. injection Hrun as _ <-.
  cbn [w_docs].
  eapply (set_testset_loop_entries clf x_test y_test x_test 0%nat);
    [done| |exact H5].
  intros cat e. cbn [w_docs set_docs set_x_test].
  intros [->|Hempty]%init_docs_lookup; [constructor|].
  by rewrite lookup_empty in Hempty.
Qed.

(** With labels for all the documents and a classifier that ranks every
    document, [set_testset] returns. *)
Lemma set_testset_loop_returns clf y_test rest : forall idoc w,
  (forall j doc, rest !! j = Some doc -> is_Some (y_test !! (idoc + j)%nat)) ->
  (forall cat, cat ∈ y_test -> is_Some (w_docs w !! cat)) ->
  (forall doc, doc ∈ rest -> exists c, stored_result float_truthy clf doc c) ->
  exists w',
    set_testset_loop float_truthy clf (len (get_categories clf)) y_test
                     idoc rest w = (Ret tt, w').
Proof.
  induction rest as [|doc rest IH]; intros idoc w Hy Hcats Hclf.
  - by eexists.
  - cbn [set_testset_loop].
    destruct (Hy 0%nat doc eq_refl) as [cat Hcat].
    rewrite Nat.add_0_r in Hcat.
    destruct (Hcats cat) as [e He]; [by eapply list_elem_of_lookup_2|].
    destruct (Hclf doc) as (c & r & Hr & Hc); [by left|].
    unfold index. rewrite Hcat.
    erewrite bind_Ret by reflexivity.
    erewrite bind_Ret by (unfold append_file; rewrite He; reflexivity).
    erewrite bind_Ret
      by (unfold append_path; cbn [w_docs set_docs];
          rewrite lookup_insert_eq; reflexivity).
    rewrite Hr. erewrite bind_Ret by reflexivity.
    rewrite Hc. erewrite bind_Ret by reflexivity.
    erewrite bind_Ret
      by (unfold append_clf_result; cbn [w_docs set_docs];
          rewrite lookup_insert_eq; reflexivity).
    apply IH.
    + intros j d Hj. replace (S idoc + j)%nat with (idoc + S j)%nat by lia.
      by eapply Hy.
    + intros cat' Hin. cbn [w_docs set_docs].
      destruct (decide (cat = cat')) as [<-|Hne].
      * rewrite lookup_insert_eq. by eexists.
      * rewrite lookup_insert_ne by done.
        rewrite !insert_insert_eq, lookup_insert_ne by done. by apply Hcats.
    + intros d Hd. apply Hclf. by right.
Qed.

Lemma init_docs_present (ys : list str) (m : gmap str DocEntry) (c : str) :
  c ∈ ys ->
  is_Some (foldr (fun cat docs => <[cat := empty_entry]> docs) m ys !! c).
Proof.
  induction ys as [|y ys IH]; simpl; [by intros ?%elem_of_nil|].
  intros [->|Hin]%elem_of_cons.
  - rewrite lookup_insert_eq. by eexists.
  - destruct (decide (y = c)) as [->|Hne].
    + rewrite lookup_insert_eq. by eexists.
    + rewrite lookup_insert_ne by done. by apply IH.
Qed.

Lemma set_testset_returns x_test y_test w clf :
  w_clf w = Some clf ->
  length y_test = length x_test ->
  (forall doc, doc ∈ x_test -> exists c, stored_result float_truthy clf doc c) ->
  exists b w', set_testset float_truthy x_test y_test w = (Ret b, w').
Proof.
  intros Hclf Hlen Hranks. unfold set_testset.
  erewrite bind_Ret by reflexivity.
  erewrite bind_Ret by reflexivity.
  erewrite bind_Ret
    by (unfold the_clf, clear_testset; cbn [w_clf set_x_test set_docs];
        rewrite Hclf; reflexivity).
  erewrite bind_Ret by reflexivity.
  match goal with
  | |- context [bind (set_testset_loop _ _ _ _ _ _) _ ?w1] =>
      destruct (set_testset_loop_returns clf y_test x_test 0%nat w1)
        as [w' Hloop]; [| |exact Hranks|]
  end.
  - intros j doc Hj. apply lookup_lt_is_Some. rewrite Hlen.
    by eapply lookup_lt_Some.
  - intros cat Hin. cbn [w_docs set_docs]. by apply init_docs_present.
  - rewrite (bind_Ret _ _ _ _ _ Hloop). unfold categories_found.
    erewrite bind_Ret by reflexivity. erewrite bind_Ret by reflexivity.
    by eexists _, _.
Qed.

Lemma path_isfile_inv p w b w' :
  path_isfile p w = (Ret b, w') ->
  w' = w /\
  b = match w_fs w p with Some (FsFile _) => true | _ => false end.
Proof. unfold path_isfile. by intros [= <- <-]. Qed.

Lemma open_text_inv p w f w' :
  open_text p w = (Ret f, w') ->
  w' = w /\
  exists content text,
    w_fs w p = Some (FsFile content) /\ decode content = Some text /\
    f = mkTextFile (splitlines text) 0.
Proof.
  unfold open_text. destruct (w_fs w p) as [[c|]|]; try done.
  destruct (decode c) as [t|] eqn:E; [|done].
  intros [= <- <-]. split; [done|]. by exists c, t.
Qed.

Lemma listdir_inv p w names w' :
  listdir p w = (Ret names, w') -> w' = w.
Proof.
  unfold listdir. destruct (w_fs w p) as [[|]|]; try done. by intros [= _ <-].
Qed.

(** The loop over the files of one category folder. *)
Lemma from_folder_entries clf fs test_path cat files : forall w w',
  w_fs w = fs ->
  (forall c e, w_docs w !! c = Some e ->
               entry_from_folder float_truthy clf fs test_path c e) ->
  from_folder float_truthy clf (len (get_categories clf)) cat
              (PosixPath.join test_path cat) files w = (Ret tt, w') ->
  w_fs w' = fs /\
  forall c e, w_docs w' !! c = Some e ->
              entry_from_folder float_truthy clf fs test_path c e.
Proof.
  induction files as [|f files IH]; intros w w' Hfs Hinv Hrun.
  - by injection Hrun as <-.
  - cbn [from_folder] in Hrun.
    apply bind_Ret_inv in Hrun as (isf & w1 & H1 & Hrun).
    apply path_isfile_inv in H1 as [-> _].
    apply bind_Ret_inv in Hrun as ([] & w2 & H2 & Hrun).
    destruct isf.
    + apply bind_Ret_inv in H2 as ([] & w3 & H3 & H2).
      apply append_path_inv in H3 as (e0 & He0 & ->).
      apply bind_Ret_inv in H2 as ([] & w4 & H4 & H2).
      apply append_file_inv in H4 as (e1 & He1 & ->).
      apply bind_Ret_inv in H2 as (fdoc & w5 & H5 & H2).
      apply open_text_inv in H5 as (-> & content & text & Hfile & Hdec & ->).
      apply bind_Ret_inv in H2 as (r & w6 & H6 & H2).
      apply lift_Ret_inv in H6 as [Hr ->].
      apply bind_Ret_inv in H2 as (c & w7 & H7 & H2).
      apply lift_Ret_inv in H7 as [Hc ->].
      apply append_clf_result_inv in H2 as (e2 & He2 & ->).
      cbn [w_docs set_docs w_fs] in *.
      rewrite lookup_insert_eq in He1. injection He1 as <-.
      rewrite lookup_insert_eq in He2. injection He2 as <-.
      cbn [path file clf_result] in *.
      rewrite !insert_insert_eq in Hrun.
      eapply IH; [|  |exact Hrun]; [exact Hfs|].
      intros c0 e. cbn [w_docs set_docs].
      destruct (decide (cat = c0)) as [<-|Hne].
      * rewrite lookup_insert_eq. intros [= <-].
        unfold entry_from_folder. cbn [path file clf_result].
        apply Forall3_app; [by apply Hinv|].
        constructor; [|constructor].
        split; [done|]. exists content, text.
        rewrite <- Hfs. repeat split; try done. by exists r.
      * rewrite lookup_insert_ne by done. apply Hinv.
    + injection H2 as <-. by eapply IH.
Qed.

(** The loop over the category folders. *)
Lemma from_files_by_folder_entries clf fs test_path cats : forall w w',
  w_fs w = fs ->
  (forall c e, w_docs w !! c = Some e ->
               entry_from_folder float_truthy clf fs test_path c e) ->
  from_files_by_folder float_truthy clf (len (get_categories clf))
                       test_path cats w = (Ret tt, w') ->
  w_fs w' = fs /\
  forall c e, w_docs w' !! c = Some e ->
              entry_from_folder float_truthy clf fs test_path c e.
Proof.
  induction cats as [|cat cats IH]; intros w w' Hfs Hinv Hrun.
  - by injection Hrun as <-.
  - cbn [from_files_by_folder] in Hrun.
    apply bind_Ret_inv in Hrun as (isf & w1 & H1 & Hrun).
    apply path_isfile_inv in H1 as [-> _].
    apply bind_Ret_inv in Hrun as ([] & w2 & H2 & Hrun).
    destruct isf; cbn [negb] in H2.
    + injection H2 as <-. by eapply IH.
    + apply bind_Ret_inv in H2 as ([] & w3 & H3 & H2). injection H3 as <-.
      apply bind_Ret_inv in H2 as ([] & w4 & H4 & H2). injection H4 as <-.
      apply bind_Ret_inv in H2 as ([] & w5 & H5 & H2). injection H5 as <-.
      apply bind_Ret_inv in H2 as (files & w6 & H6 & H2).
      apply listdir_inv in H6 as ->.
      apply from_folder_entries with (fs := fs) in H2 as [Hfs2 Hinv2];
        [by eapply IH|exact Hfs|].
      intros c e. cbn [w_docs set_docs].
      rewrite !lookup_insert_eq. cbn [path file clf_result default].
      rewrite !insert_insert_eq.
      destruct (decide (cat = c)) as [<-|Hne].
      * rewrite lookup_insert_eq. intros [= <-]. constructor.
      * rewrite lookup_insert_ne by done. apply Hinv.
Qed.

Lemma classify_lines_results clf lines : forall rs,
  classify_lines float_truthy clf (len (get_categories clf)) lines = Ret rs ->
  Forall2 (stored_result float_truthy clf) lines rs.
Proof.
  induction lines as [|l lines IH]; intros rs; cbn [classify_lines].
  - intros [= <-]. constructor.
  - destruct (classify clf l) as [r| |] eqn:Hr; try done.
    destruct (top_category float_truthy r _) as [c| |] eqn:Hc; try done.
    destruct (classify_lines float_truthy clf _ lines) as [cs| |]; try done.
    intros [= <-]. constructor; [by exists r|by apply IH].
Qed.

(** The loop over the files whose lines are the documents. *)
Lemma from_files_by_file_entries clf fs test_path files : forall w w',
  w_fs w = fs ->
  (forall c e, w_docs w !! c = Some e ->
               entry_from_file float_truthy clf fs test_path c e) ->
  from_files_by_file float_truthy clf (len (get_categories clf))
                     test_path files w = (Ret tt, w') ->
  w_fs w' = fs /\
  forall c e, w_docs w' !! c = Some e ->
              entry_from_file float_truthy clf fs test_path c e.
Proof.
  induction files as [|f files IH]; intros w w' Hfs Hinv Hrun.
  - by injection Hrun as <-.
  - cbn [from_files_by_file] in Hrun.
    apply bind_Ret_inv in Hrun as (isf & w1 & H1 & Hrun).
    apply path_isfile_inv in H1 as [-> _].
    apply bind_Ret_inv in Hrun as ([] & w2 & H2 & Hrun).
    destruct isf.
    + apply bind_Ret_inv in H2 as (fcat & w3 & H3 & H2).
      apply open_text_inv in H3 as (-> & content & text & Hfile & Hdec & ->).
      apply bind_Ret_inv in H2 as (rs & w4 & H4 & H2).
      apply lift_Ret_inv in H4 as [Hrs ->].
      apply classify_lines_results in Hrs.
      apply bind_Ret_inv in H2 as ([] & w5 & H5 & H2). injection H5 as <-.
      apply bind_Ret_inv in H2 as (w6 & w7 & H6 & H2).
      injection H6 as <- <-.
      apply bind_Ret_inv in H2 as ([] & w8 & H8 & H2). injection H8 as <-.
      injection H2 as <-.
      eapply IH; [| |exact Hrun]; [exact Hfs|].
      intros c e. cbn [w_docs set_docs].
      rewrite !lookup_insert_eq. cbn [path file clf_result default].
      rewrite !insert_insert_eq.
      destruct (decide (fst (PosixPath.splitext f) = c)) as [<-|Hne].
      * rewrite lookup_insert_eq. intros [= <-].
        exists f, content, text. cbn [path file clf_result].
        rewrite <- Hfs. by repeat split.
      * rewrite lookup_insert_ne by done. apply Hinv.
    + injection H2 as <-. by eapply IH.
Qed.

Lemma set_testset_from_files_entries test_path folder_label w b w' clf :
  w_clf w = Some clf ->
  set_testset_from_files float_truthy test_path folder_label w = (Ret b, w') ->
  forall cat e, w_docs w' !! cat = Some e ->
    if folder_label
    then entry_from_folder float_truthy clf (w_fs w) test_path cat e
    else entry_from_file float_truthy clf (w_fs w) test_path cat e.
Proof.
  intros Hclf Hrun. unfold set_testset_from_files in Hrun.
  apply bind_Ret_inv in Hrun as ([] & w1 & H1 & Hrun). injection H1 as <-.
  apply bind_Ret_inv in Hrun as ([] & w2 & H2 & Hrun). injection H2 as <-.
  apply bind_Ret_inv in Hrun as (clf' & w3 & H3 & Hrun).
  apply the_clf_inv in H3 as [Hclf' ->].
  cbn in Hclf'. rewrite Hclf in Hclf'. injection Hclf' as <-.
  apply bind_Ret_inv in Hrun as (names & w4 & H4 & Hrun).
  apply listdir_inv in H4 as ->.
  apply bind_Ret_inv in Hrun as ([] & w5 & H5 & Hrun).
  unfold categories_found in Hrun.
  apply bind_Ret_inv in Hrun as (w6 & w7 & H6 & Hrun).
  injection H6 as <- <-.
  apply bind_Ret_inv in Hrun as ([] & w8 & H8 & Hrun).
  injection H8 as <-. injection Hrun as _ <-.
  cbn [w_docs].
  destruct folder_label; cbn [negb] in H5.
  - eapply from_files_by_folder_entries in H5 as [_ Hinv];
      [exact Hinv|reflexivity|].
    intros c e. cbn. by rewrite lookup_empty.
  - eapply from_files_by_file_entries in H5 as [_ Hinv];
      [exact Hinv|reflexivity|].
    intros c e. cbn. by rewrite lookup_empty.
Qed.

(** C7: after a test-corpus build that returns, by [set_testset] or by
    [set_testset_from_files] in either mode, the three lists of every
    category have one length, and position by position they belong to
    one document: its locator, its name and the result of classifying
    it. *)
Theorem C7_category_lists_in_step w w' b clf :
  w_clf w = Some clf ->
  (forall x_test y_test,
     length y_test = length x_test ->
     set_testset float_truthy x_test y_test w = (Ret b, w') ->
     forall cat e, w_docs w' !! cat = Some e ->
       entry_aligned e /\
       entry_from_memory float_truthy clf x_test y_test cat e) /\
  (forall test_path,
     set_testset_from_files float_truthy test_path true w = (Ret b, w') ->
     forall cat e, w_docs w' !! cat = Some e ->
       entry_aligned e /\
       entry_from_folder float_truthy clf (w_fs w) test_path cat e) /\
  (forall test_path,
     set_testset_from_files float_truthy test_path false w = (Ret b, w') ->
     forall cat e, w_docs w' !! cat = Some e ->
       entry_aligned e /\
       entry_from_file float_truthy clf (w_fs w) test_path cat e).
Proof.
  intros Hclf. split; [|split].
  - intros x_test y_test _ Hrun cat e He.
    pose proof (set_testset_entries _ _ _ _ _ _ Hclf Hrun cat e He) as H.
    split; [by eapply entry_from_memory_aligned|exact H].
  - intros test_path Hrun cat e He.
    pose proof (set_testset_from_files_entries _ true _ _ _ _ Hclf Hrun
                  cat e He) as H.
    cbv beta iota in H.
    split; [by eapply entry_from_folder_aligned|exact H].
  - intros test_path Hrun cat e He.
    pose proof (set_testset_from_files_entries _ false _ _ _ _ Hclf Hrun
                  cat e He) as H.
    cbv beta iota in H.
    split; [by eapply entry_from_file_aligned|exact H].
Qed.

End Handlers.

(** ** The theorems at work *)

Lemma C8_send_as_json_witness :
  (forall f, is_ascii (Demo.repr f) = true) /\
  w_socks (Demo.world [] false) !! 5%nat = Some (mkSocket [] false [] false) /\
  exists header body : bytes,
    send_as_json Demo.repr 5%nat
      (JDict [(KStr (lit "content"), JStr [233; 10]%N)]) (Demo.world [] false)
    = (Ret tt,
       set_socks (<[5%nat := mkSocket [] false ([] ++ [header; body]) false]>
                    (w_socks (Demo.world [] false))) (Demo.world [] false)) /\
    encode (json_dumps Demo.repr
              (JDict [(KStr (lit "content"), JStr [233; 10]%N)])) = Some body /\
    header = map ascii_of_N
               (lit "HTTP/1.1 200 OK" ++ CRLF ++
                lit "Connection: close" ++ CRLF ++
                lit "Access-Control-Allow-Origin: *" ++ CRLF ++
                lit "Server: SS3" ++ CRLF ++
                lit "Content-type: application/json" ++ CRLF ++
                lit "Content-length: " ++ fmt_d (Z.of_nat (length body))
                ++ CRLF ++ CRLF).
Proof.
  assert (forall f, is_ascii (Demo.repr f) = true) as Hrepr by (by intros []).
  assert (w_socks (Demo.world [] false) !! 5%nat
          = Some (mkSocket [] false [] false)) as Hsock by reflexivity.
  split; [exact Hrepr|]. split; [exact Hsock|].
  exact (C8_send_as_json_content_length Demo.repr Hrepr 5%nat _ _ _ Hsock).
Defined.

Lemma C10_empty_read_witness :
  recv 5%nat (Demo.world [] true) = (Ret [], Demo.world [] true) /\
  handle_request Demo.repr Demo.unquote Demo.module_file 5%nat
                 (Demo.world [] true)
  = (Ret tt, Demo.world [] true).
Proof.
  assert (recv 5%nat (Demo.world [] true) = (Ret [], Demo.world [] true))
    as Hrecv by reflexivity.
  split; [exact Hrecv|].
  exact (proj1 (C10_empty_read_returns Demo.repr Demo.unquote Demo.module_file
                  5%nat _ _ Hrecv)).
Defined.

Lemma C4_classify_exception_witness :
  w_clf (Demo.world [] false) = Some Demo.clf /\
  classify_json Demo.clf [] = Raise (OtherException (lit "empty document")) /\
  (exists w',
     do_classify Demo.repr 5%nat [] (Demo.world [] false) = (Ret tt, w') /\
     w_log w' = [(Show, [9%N] ++ lit "[...]"); (Error, lit "empty document")] /\
     w_socks w' = w_socks (Demo.world [] false)) /\
  classify_json Site.interrupted (lit "doc") = Raise KeyboardInterrupt /\
  exists w',
    do_classify Demo.repr 5%nat (lit "doc")
      (Site.world_with (Some Site.interrupted) None)
    = (Raise KeyboardInterrupt, w') /\
    w_socks w' = w_socks (Site.world_with (Some Site.interrupted) None).
Proof.
  split; [reflexivity|]. split; [reflexivity|]. split.
  - destruct (proj1 (C4_classify_exception_is_swallowed Demo.repr 5%nat []
                       (Demo.world [] false) Demo.clf
                       (OtherException (lit "empty document"))
                       eq_refl eq_refl) eq_refl)
      as (w' & msg & Hrun & Hlog & Hmsg & Hsocks & _).
    exists w'. split; [exact Hrun|]. split; [|exact Hsocks].
    rewrite Hlog, (Hmsg _ eq_refl). reflexivity.
  - split; [reflexivity|].
    destruct (proj2 (C4_classify_exception_is_swallowed Demo.repr 5%nat
                       (lit "doc")
                       (Site.world_with (Some Site.interrupted) None)
                       Site.interrupted KeyboardInterrupt eq_refl eq_refl)
                eq_refl)
      as (w' & Hrun & _ & Hsocks & _).
    exists w'. split; [exact Hrun|exact Hsocks].
Defined.


Lemma C5_recvall_body_witness :
  let sep := CRLF ++ CRLF in
  let head := Demo.classify_head 5 in
  let c1 := blit "he" in
  let cs := [blit "l"; blit "lo"] in
  Forall (fun c => bytes_ascii c = true) (c1 :: cs) /\
  Str.find sep (head ++ sep) = len head /\
  Str.contains sep (lit "hello") = false /\
  fst (recvall_body Demo.unquote 5%nat (head ++ sep ++ lit "he") 5
         (Demo.world cs false)) = Ret (lit "hello") /\
  fst (recvall_body Demo.unquote 5%nat (head ++ sep ++ lit "hello") 5
         (Demo.world [] false)) = Ret (lit "hello").
Proof.
  intros sep head c1 cs.
  assert (Forall (fun c => bytes_ascii c = true) (c1 :: cs)) as Hascii
    by (repeat constructor).
  assert (Str.find sep (head ++ sep) = len head) as Hhead by reflexivity.
  assert (Str.contains sep (text_of (concat (c1 :: cs))) = false) as Hbody
    by reflexivity.
  split; [exact Hascii|]. split; [exact Hhead|]. split; [exact Hbody|].
  exact (C5_recvall_body_reassembles Demo.unquote 5%nat head c1 cs 5
           (Demo.world cs false) (mkSocket cs false [] false)
           (Demo.world [] false) (mkSocket [] false [] false)
           Hascii Hhead Hbody eq_refl eq_refl eq_refl eq_refl eq_refl).
Defined.


Lemma C7_category_lists_witness :
  let w := Demo.world [] false in
  let x_test := [lit "ab"; lit "b"; lit "c"] in
  let y_test := [lit "A"; lit "B"; lit "A"] in
  let e := mkDocEntry [lit ":x_test:0"; lit ":x_test:2"]
                      [lit "doc_0"; lit "doc_2"] [1; 1] in
  fst (set_testset Demo.truthy x_test y_test w) = Ret true /\
  w_docs (snd (set_testset Demo.truthy x_test y_test w)) !! lit "A" = Some e /\
  entry_aligned e /\
  entry_from_memory Demo.truthy Demo.clf x_test y_test (lit "A") e.
Proof.
  intros w x_test y_test e.
  assert (set_testset Demo.truthy x_test y_test w
          = (Ret true, snd (set_testset Demo.truthy x_test y_test w))) as Hrun
    by (vm_compute; reflexivity).
  assert (w_docs (snd (set_testset Demo.truthy x_test y_test w)) !! lit "A"
          = Some e) as He by (vm_compute; reflexivity).
  split; [by rewrite Hrun|]. split; [exact He|].
  exact (proj1 (C7_category_lists_in_step Demo.truthy w _ true Demo.clf eq_refl)
           x_test y_test eq_refl Hrun (lit "A") e He).
Defined.

Lemma C2_serve_rejects_witness :
  let w := Demo.world [] false in
  length [lit "A"] <> length [lit "d0"; lit "d1"] /\
  exists w',
    serve Demo.repr Demo.truthy Demo.unquote Demo.module_file None
          (Some [lit "d0"; lit "d1"]) (Some [lit "A"]) 0 false [] w
    = (Ret tt, w') /\
    w_docs w' = w_docs w /\ w_x_test w' = w_x_test w /\
    exists earlier,
      w_log w' = earlier ++
        [(Error, lit "y_test must have the same length as x_test")].
Proof.
  intros w.
  assert (length [lit "A"] <> length [lit "d0"; lit "d1"]) as Hlen
    by discriminate.
  split; [exact Hlen|].
  apply (C2_serve_rejects_mismatched_labels Demo.repr Demo.truthy Demo.unquote
           Demo.module_file None (lit "d0") [lit "d1"] (Some [lit "A"])
           0 false [] w).
  - right. by exists Demo.clf.
  - discriminate.
  - exact Hlen.
Defined.

Lemma C3_handler_exception_witness :
  let w0 := Demo.world_listening [Demo.garbage] in
  let run := serve_loop Demo.repr Demo.unquote Demo.module_file 3%nat
               [Ready [3%nat]] [3%nat] ∅
               (snd (serve_setup Demo.truthy None None None 0 false w0)) in
  let wk := Demo.world_listening
              [Demo.request (lit "POST /classify HTTP/1.1" ++ CRLF ++ CRLF
                             ++ lit "abc")] in
  let runk := serve_loop Demo.repr Demo.unquote Demo.module_file 3%nat
                [Ready [3%nat]] [3%nat] ∅
                (snd (serve_setup Demo.truthy (Some Site.interrupted) None
                        None 0 false wk)) in
  (fst (handle_request Demo.repr Demo.unquote Demo.module_file 5%nat (snd run))
     = Raise IndexError /\
   fst (serve Demo.repr Demo.truthy Demo.unquote Demo.module_file None None
              None 0 false ([Ready [3%nat]] ++ Ready [5%nat] :: [Ready [3%nat]])
              w0)
     = Raise IndexError) /\
  (fst (handle_request Demo.repr Demo.unquote Demo.module_file 5%nat
          (snd runk))
     = Raise KeyboardInterrupt /\
   exists wf,
     serve Demo.repr Demo.truthy Demo.unquote Demo.module_file
           (Some Site.interrupted) None None 0 false
           ([Ready [3%nat]] ++ Ready [5%nat] :: [Ready [3%nat]]) wk
     = (Ret tt, wf) /\
     w_server_socket wf = None /\
     closed <$> (w_socks wf !! 5%nat) = Some false).
Proof.
  intros w0 run wk runk. split.
  - assert (serve_setup Demo.truthy None None None 0 false w0
            = (Ret (Some 3%nat),
               snd (serve_setup Demo.truthy None None None 0 false w0)))
      as Hsetup by (vm_compute; reflexivity).
    assert (serve_loop Demo.repr Demo.unquote Demo.module_file 3%nat
              [Ready [3%nat]] [3%nat] ∅
              (snd (serve_setup Demo.truthy None None None 0 false w0))
            = (Ret ([3%nat; 5%nat], {[5%nat := lit "10.0.0.7"]}), snd run))
      as Hloop by (vm_compute; reflexivity).
    assert (handle_request Demo.repr Demo.unquote Demo.module_file 5%nat
              (snd run)
            = (Raise IndexError,
               snd (handle_request Demo.repr Demo.unquote Demo.module_file
                      5%nat (snd run)))) as Hraise by (vm_compute; reflexivity).
    split; [by rewrite Hraise|].
    destruct (C3_handler_exception_ends_serve Demo.repr Demo.truthy
                Demo.unquote Demo.module_file None None None 0 false w0 3%nat
                _ [Ready [3%nat]] _ _ (snd run) 5%nat [] [Ready [3%nat]]
                Hsetup Hloop) as (Hexc & _ & _); [discriminate|].
    destruct (Hexc IndexError _ Hraise) as (_ & _ & Hserve & _).
    rewrite Hserve; [reflexivity|discriminate].
  - assert (serve_setup Demo.truthy (Some Site.interrupted) None None 0 false
              wk
            = (Ret (Some 3%nat),
               snd (serve_setup Demo.truthy (Some Site.interrupted) None None
                      0 false wk)))
      as Hsetup by (vm_compute; reflexivity).
    assert (serve_loop Demo.repr Demo.unquote Demo.module_file 3%nat
              [Ready [3%nat]] [3%nat] ∅
              (snd (serve_setup Demo.truthy (Some Site.interrupted) None None
                      0 false wk))
            = (Ret ([3%nat; 5%nat], {[5%nat := lit "10.0.0.7"]}), snd runk))
      as Hloop by (vm_compute; reflexivity).
    assert (handle_request Demo.repr Demo.unquote Demo.module_file 5%nat
              (snd runk)
            = (Raise KeyboardInterrupt,
               snd (handle_request Demo.repr Demo.unquote Demo.module_file
                      5%nat (snd runk)))) as Hraise
      by (vm_compute; reflexivity).
    split; [by rewrite Hraise|].
    destruct (C3_handler_exception_ends_serve Demo.repr Demo.truthy
                Demo.unquote Demo.module_file (Some Site.interrupted) None
                None 0 false wk 3%nat _ [Ready [3%nat]] _ _ (snd runk) 5%nat
                [] [Ready [3%nat]] Hsetup Hloop) as (Hexc & _ & _);
      [discriminate|].
    destruct (Hexc KeyboardInterrupt _ Hraise) as (_ & _ & _ & Hserve).
    destruct (Hserve eq_refl) as (wf & Hrun & Hss & _ & Hclosed & _).
    exists wf. split; [exact Hrun|]. split; [exact Hss|].
    rewrite Hclosed. vm_compute. reflexivity.
Defined.

(** ** Where the claims fail *)

(** C2, as stated, fails: [set_testset] itself makes no check.  With one
    document and two labels it returns [True], having replaced the index
    and the document array; and [serve] with labels but an empty list of
    documents logs no error and goes on to serve. *)
Lemma C2_counterexample :
  let w := Demo.world [] false in
  let r := set_testset Demo.truthy [lit "d0"] [lit "A"; lit "B"] w in
  let r' := serve Demo.repr Demo.truthy Demo.unquote Demo.module_file None
                  (Some []) (Some [lit "A"]) 0 false [] w in
  length [lit "A"; lit "B"] <> length [lit "d0"] /\
  fst r = Ret true /\
  w_docs w !! lit "A" = None /\
  w_docs (snd r) !! lit "A"
    = Some (mkDocEntry [lit ":x_test:0"] [lit "doc_0"] [0]) /\
  w_x_test w = None /\
  w_x_test (snd r) = Some [lit "d0"] /\
  fst r' = Diverge /\
  w_log (snd r') = [(Info, lit "waiting for requests"); (Show, [])].
Proof.
  vm_compute. repeat split; discriminate.
Qed.

(** C4, as stated, fails: an interrupt that the classifier raises is not
    an instance of [Exception]; the handler does not catch it, and it
    leaves the operation without an error in the log. *)
Lemma C4_counterexample :
  let w := Site.world_with (Some Site.interrupted) None in
  let r := do_classify Demo.repr 5%nat (lit "doc") w in
  classify_json Site.interrupted (lit "doc") = Raise KeyboardInterrupt /\
  fst r = Raise KeyboardInterrupt /\
  w_log (snd r) = [(Show, [9%N] ++ lit "doc[...]")].
Proof.
  vm_compute. repeat split.
Qed.


(** C3, as stated, fails: a request line without a path makes the handler
    raise [IndexError]; the exception ends [serve], although no interrupt
    has arrived, and the connection's socket is left open. *)
Lemma C3_counterexample :
  let w0 := Demo.world_listening [Demo.garbage] in
  let r := serve Demo.repr Demo.truthy Demo.unquote Demo.module_file None None
                 None 0 false [Ready [3%nat]; Ready [5%nat]; Ready [3%nat]] w0 in
  fst r = Raise IndexError /\
  closed <$> (w_socks (snd r) !! 5%nat) = Some false /\
  w_server_socket (snd r) = Some 3%nat.
Proof.
  vm_compute. repeat split.
Qed.

(** C5, as stated, fails.  A body with a blank line in it is cut at the
    blank line when it comes in one read, and the loop then waits for
    bytes that never come, while the same bytes in two reads are put
    together; and a character whose bytes come in two reads cannot be
    decoded. *)
Lemma C5_counterexample :
  let sep := CRLF ++ CRLF in
  let body := lit "a" ++ sep ++ lit "b" in
  len body = 6 /\
  fst (recvall_body Demo.unquote 5%nat
         (Demo.classify_head 6 ++ sep ++ lit "a") 6
         (Demo.world [Demo.request (sep ++ lit "b")] false))
    = Ret body /\
  fst (recvall_body Demo.unquote 5%nat
         (Demo.classify_head 6 ++ sep ++ body) 6 (Demo.world [] false))
    = Diverge /\
  decode [ascii_of_N 195; ascii_of_N 169] = Some [233%N] /\
  fst (recvall_body (pyfloat := bool) Demo.unquote 5%nat
         (Demo.classify_head 2 ++ sep) 2
         (Demo.world [[ascii_of_N 195]; [ascii_of_N 169]] false))
    = Raise UnicodeDecodeError.
Proof.
  vm_compute. repeat split.
Qed.

(** ** Running the handler *)

Example ack_demo :
  let w := Demo.world [Demo.request (lit "POST /ack HTTP/1.1" ++ CRLF ++ CRLF)] false in
  let r := handle_request Demo.repr Demo.unquote Demo.module_file 5%nat w in
  fst r = Ret tt /\
  outbox <$> (w_socks (snd r) !! 5%nat)
    = Some [Demo.request (HTTP_RESPONSE (lit "application/octet-stream") 0)].
Proof. vm_compute. split; reflexivity. Qed.

(** ** Building the test set from files *)

Example from_folders_demo :
  let r := set_testset_from_files Demo.truthy (lit "/corpus") true
             (Demo.world [] false) in
  fst r = Ret true /\
  w_docs (snd r) !! lit "a"
    = Some (mkDocEntry [lit "/corpus/a/1.txt"; lit "/corpus/a/2.txt"]
                       [lit "1.txt"; lit "2.txt"] [0; 1]) /\
  w_docs (snd r) !! lit "b"
    = Some (mkDocEntry [lit "/corpus/b/x.txt"] [lit "x.txt"] [0]) /\
  w_docs (snd r) !! lit "notes.txt" = None.
Proof. vm_compute. repeat split. Qed.

Example from_lines_demo :
  let r := set_testset_from_files Demo.truthy (lit "/data") false
             (Demo.world [] false) in
  fst r = Ret true /\
  w_docs (snd r) !! lit "test"
    = Some (mkDocEntry [lit "/data/test.txt:line:0"; lit "/data/test.txt:line:1";
                        lit "/data/test.txt:line:2"]
                       [lit "doc_0"; lit "doc_1"; lit "doc_2"] [0; 1; 0]).
Proof. vm_compute. repeat split. Qed.

Example get_doc_demo :
  let w := Demo.world
             [Demo.request (lit "POST /get_doc HTTP/1.1" ++ CRLF
                            ++ lit "Content-length: 21" ++ CRLF ++ CRLF
                            ++ lit "/data/test.txt:line:2")] false in
  let r := handle_request Demo.repr Demo.unquote Demo.module_file 5%nat w in
  fst r = Ret tt /\
  (last (A := bytes)) <$> (outbox <$> (w_socks (snd r) !! 5%nat))
    = Some (Some (Demo.request (lit "{" ++ [34%N] ++ lit "content" ++ [34%N]
                                ++ lit ": " ++ [34%N] ++ lit "two\n" ++ [34%N]
                                ++ lit "}"))).
Proof. vm_compute. repeat split. Qed.


(** * More of the server *)

(** ** Content types *)

(** X1 ([content_type]): an extension has the default content type,
    [application/octet-stream], exactly when it is none of [html], [css],
    [js], [png], [json] and [ico]; the key [_other_] of the table is such
    an extension too. *)
Theorem X1_content_type_default (ext : str) :
  content_type ext = lit "application/octet-stream" <->
  ext ∉ [lit "html"; lit "css"; lit "js"; lit "png"; lit "json"; lit "ico"].
Proof.
  unfold content_type.
  change (default [] (assoc (lit "_other_") CONTET_TYPE))
    with (lit "application/octet-stream").
  unfold CONTET_TYPE. cbn [assoc]. rewrite !not_elem_of_cons.
  destruct (decide (ext = lit "html")) as [->|H1]; [by split; [|tauto]|].
  destruct (decide (ext = lit "css")) as [->|H2]; [by split; [|tauto]|].
  destruct (decide (ext = lit "js")) as [->|H3]; [by split; [|tauto]|].
  destruct (decide (ext = lit "png")) as [->|H4]; [by split; [|tauto]|].
  destruct (decide (ext = lit "json")) as [->|H5]; [by split; [|tauto]|].
  destruct (decide (ext = lit "ico")) as [->|H6]; [by split; [|tauto]|].
  rewrite !bool_decide_eq_false_2 by done.
  split; [intros _|by case_bool_decide].
  repeat split; try done. apply not_elem_of_nil.
Qed.

(** ** The static-resource resolver on well-formed paths *)

Lemma rfind_from_absent c t i :
  c ∉ t -> Str.rfind_from c t i = -1.
Proof.
  revert i. induction t as [|x t IH]; intros i Hc; [done|].
  apply not_elem_of_cons in Hc as [Hx Ht]. cbn [Str.rfind_from].
  rewrite IH by done. cbn.
  destruct (x =? c)%N eqn:E; [apply N.eqb_eq in E; congruence|done].
Qed.

Lemma rfind_from_app_absent c s t i :
  c ∉ t -> Str.rfind_from c (s ++ t) i = Str.rfind_from c s i.
Proof.
  intros Hc. revert i. induction s as [|x s IH]; intros i.
  - by apply rfind_from_absent.
  - cbn [app Str.rfind_from]. by rewrite IH.
Qed.

Lemma rfind_from_last c q i :
  0 <= i -> Str.rfind_from c (q ++ [c]) i = i + len q.
Proof.
  revert i. induction q as [|x q IH]; intros i Hi.
  - cbn. rewrite N.eqb_refl. unfold len. simpl. lia.
  - cbn [app Str.rfind_from]. rewrite IH by lia.
    unfold len. cbn [length].
    destruct (0 <=? i + 1 + Z.of_nat (length q)) eqn:E; [lia|].
    apply Z.leb_gt in E. lia.
Qed.

(** [posixpath.split] of [q/f] for a name [f] without a slash. *)
Lemma posix_split_last q f :
  PosixPath.sep ∉ f ->
  PosixPath.split (q ++ [PosixPath.sep] ++ f)
  = (if bool_decide (q ++ [PosixPath.sep]
                     = repeat PosixPath.sep (length (q ++ [PosixPath.sep])))
     then q ++ [PosixPath.sep]
     else Str.rstrip PosixPath.sep (q ++ [PosixPath.sep]), f).
Proof.
  intros Hf. unfold PosixPath.split, Str.rfind.
  rewrite app_assoc, (rfind_from_app_absent _ _ f) by done.
  rewrite rfind_from_last by lia.
  unfold Str.upto, Str.from.
  replace (Z.to_nat (0 + len q + 1)) with (length (q ++ [PosixPath.sep]))
    by (unfold len; rewrite length_app; simpl; lia).
  rewrite take_app_length, drop_app_length.
  rewrite (bool_decide_eq_false_2 (q ++ [PosixPath.sep] = []))
    by (by destruct q).
  cbn [negb andb]. by case_bool_decide.
Qed.

Lemma posix_split_no_sep f :
  PosixPath.sep ∉ f -> PosixPath.split f = ([], f).
Proof.
  intros Hf. unfold PosixPath.split, Str.rfind.
  rewrite rfind_from_absent by done. reflexivity.
Qed.

(** X2 ([parse_and_sanitize], the default document): a path without a file
    name, that is an empty path or one that ends with a slash, is resolved
    as the same path followed by [index.html]; so [GET /] and
    [GET /index.html] name one file. *)
Theorem X2_index_is_the_default (module_file rsc_path : str) :
  rsc_path = [] \/ Str.endswith (lit "/") rsc_path = true ->
  parse_and_sanitize module_file rsc_path
  = parse_and_sanitize module_file (rsc_path ++ lit "index.html").
Proof.
  assert (PosixPath.sep ∉ lit "index.html") as Hidx.
  { intros H%list_elem_of_In. vm_compute in H. intuition discriminate. }
  assert (PosixPath.sep ∉ ([] : str)) as Hnil by apply not_elem_of_nil.
  intros [->|Hend].
  - unfold parse_and_sanitize. cbn [app].
    rewrite (posix_split_no_sep _ Hidx). reflexivity.
  - assert (exists q, rsc_path = q ++ [PosixPath.sep]) as [q ->].
    { unfold Str.endswith in Hend.
      destruct (rev rsc_path) as [|x r] eqn:E; [done|].
      cbn in Hend. apply andb_true_iff in Hend as [Hx%N.eqb_eq _].
      exists (rev r). apply (f_equal (@rev N)) in E.
      rewrite rev_involutive in E. subst. simpl. reflexivity. }
    unfold parse_and_sanitize.
    pose proof (posix_split_last q [] Hnil) as H1.
    pose proof (posix_split_last q (lit "index.html") Hidx) as H2.
    cbn [app] in H1. rewrite <- app_assoc. rewrite H1, H2. reflexivity.
Qed.

Lemma startswith_single c x s : Str.startswith [c] (x :: s) = (c =? x)%N.
Proof. cbn [Str.startswith]. by rewrite andb_true_r. Qed.

Lemma replace_go_none old new s i :
  0 <= i -> Str.find_from old s i = -1 -> Str.replace_go old new 0 s = s.
Proof.
  revert i. induction s as [|c s IH]; intros i Hi Hfind; [done|].
  cbn [Str.find_from] in Hfind. cbn [Str.replace_go].
  destruct (Str.startswith old (c :: s)); [lia|].
  by rewrite (IH (i + 1)) by (lia || done).
Qed.

Lemma replace_none old new s :
  Str.contains old s = false -> Str.replace old new s = s.
Proof.
  unfold Str.contains, Str.find, Str.replace. intros H%Z.leb_gt.
  apply (replace_go_none old new s 0); [lia|].
  destruct (find_from_range old s 0); lia.
Qed.

Lemma BASE_PATH_shape module_file :
  exists prefix,
    BASE_PATH module_file = prefix ++ lit "resources/visual_classifier".
Proof.
  unfold BASE_PATH, PosixPath.join.
  change (Str.startswith [PosixPath.sep] (lit "resources/visual_classifier"))
    with false. cbv iota.
  destruct (_ || _).
  - by eexists.
  - exists (PosixPath.dirname module_file ++ [PosixPath.sep]).
    by rewrite <- app_assoc.
Qed.

Lemma join_BASE_PATH module_file rel :
  Str.startswith [PosixPath.sep] rel = false ->
  PosixPath.join (BASE_PATH module_file) rel
  = BASE_PATH module_file ++ [PosixPath.sep] ++ rel.
Proof.
  intros Hrel. destruct (BASE_PATH_shape module_file) as [prefix ->].
  unfold PosixPath.join. rewrite Hrel.
  rewrite bool_decide_eq_false_2.
  2:{ intros [_ H]%app_eq_nil. discriminate. }
  unfold Str.endswith. rewrite rev_app_distr.
  set (r := rev (lit "resources/visual_classifier")).
  vm_compute in r. subst r. reflexivity.
Qed.

(** ** The request line and the body of the first read *)

Lemma split_go_found sep s i :
  sep <> [] -> 0 <= i -> 0 <= Str.find_from sep s i ->
  snd (Str.split_go sep 0 s) <> [].
Proof.
  intros Hsep. revert i. induction s as [|c s IH]; intros i Hi Hfind.
  - cbn in Hfind. destruct sep; [done|]. cbn in Hfind. lia.
  - cbn [Str.find_from] in Hfind. cbn [Str.split_go].
    destruct (Str.startswith sep (c :: s)).
    + by destruct (Str.split_go sep (pred (length sep)) s).
    + specialize (IH (i + 1)).
      destruct (Str.split_go sep 0 s) as [p ps]. apply IH; lia.
Qed.

(** [split] gives a single piece exactly when the separator does not
    occur. *)
Lemma split_single_iff sep s :
  sep <> [] ->
  (Str.contains sep s = false <-> snd (Str.split_go sep 0 s) = []).
Proof.
  intros Hsep. unfold Str.contains, Str.find. split.
  - intros H%Z.leb_gt. rewrite (split_go_none sep s 0); [done|lia|].
    destruct (find_from_range sep s 0); lia.
  - intros H. apply Z.leb_gt.
    destruct (find_from_range sep s 0) as [->|Hge]; [lia|].
    by destruct (split_go_found sep s 0 Hsep).
Qed.

Lemma find_from_single_absent c a i :
  c ∉ a -> 0 <= i -> Str.find_from [c] (a ++ [c]) i = i + len a.
Proof.
  revert i. induction a as [|x a IH]; intros i Hc Hi.
  - cbn [app Str.find_from]. rewrite startswith_single, N.eqb_refl.
    unfold len. simpl. lia.
  - apply not_elem_of_cons in Hc as [Hx Ha].
    cbn [app Str.find_from]. rewrite startswith_single.
    replace (c =? x)%N with false by (symmetry; by apply N.eqb_neq).
    rewrite IH by (done || lia). unfold len. cbn [length]. lia.
Qed.

Lemma find_from_single_none c a i :
  0 <= i -> (Str.find_from [c] a i = -1 <-> c ∉ a).
Proof.
  revert i. induction a as [|x a IH]; intros i Hi.
  - cbn. split; [intros _; apply not_elem_of_nil|done].
  - cbn [Str.find_from]. rewrite startswith_single, not_elem_of_cons.
    destruct (c =? x)%N eqn:E.
    + apply N.eqb_eq in E. split; [lia|tauto].
    + apply N.eqb_neq in E. rewrite (IH (i + 1)) by lia. tauto.
Qed.

Lemma contains_single_iff c a : Str.contains [c] a = false <-> c ∉ a.
Proof.
  rewrite <- (find_from_single_none c a 0) by lia.
  unfold Str.contains, Str.find. rewrite Z.leb_gt.
  destruct (find_from_range [c] a 0); lia.
Qed.

Lemma split_go_app_absent c a b :
  c ∉ a ->
  Str.split_go [c] 0 (a ++ b)
  = (a ++ fst (Str.split_go [c] 0 b), snd (Str.split_go [c] 0 b)).
Proof.
  induction a as [|x a IH]; intros Hc.
  - cbn [app]. by destruct (Str.split_go [c] 0 b).
  - apply not_elem_of_cons in Hc as [Hx Ha].
    cbn [app Str.split_go]. rewrite startswith_single.
    replace (c =? x)%N with false by (symmetry; by apply N.eqb_neq).
    by rewrite IH.
Qed.

Lemma split_single_sep c a rest :
  c ∉ a -> Str.split [c] (a ++ [c] ++ rest) = a :: Str.split [c] rest.
Proof.
  intros Hc. unfold Str.split.
  destruct (split_go_first [c] a rest 0) as [_ ->]; [done|lia| |].
  - by rewrite find_from_single_absent.
  - by destruct (Str.split_go [c] 0 rest).
Qed.

(** The pieces of a text that is cut at one character. *)
Lemma split_single_app c a b :
  Str.split [c] (a ++ [c] ++ b) = Str.split [c] a ++ Str.split [c] b.
Proof.
  induction a as [|x a IH].
  - by rewrite (split_single_sep c [] b) by apply not_elem_of_nil.
  - destruct (decide (c = x)) as [<-|Hne].
    + change ((c :: a) ++ [c] ++ b) with ([] ++ [c] ++ (a ++ [c] ++ b)).
      rewrite split_single_sep by apply not_elem_of_nil. rewrite IH.
      change (c :: a) with ([] ++ [c] ++ a).
      by rewrite (split_single_sep c [] a) by apply not_elem_of_nil.
    + unfold Str.split in *. cbn [app Str.split_go] in IH |- *.
      rewrite !startswith_single.
      replace (c =? x)%N with false by (symmetry; by apply N.eqb_neq).
      destruct (Str.split_go [c] 0 (a ++ c :: b)) as [p ps].
      destruct (Str.split_go [c] 0 a) as [q qs].
      cbn [app] in IH. injection IH as -> ->. reflexivity.
Qed.

Lemma split_single_chars c s : forall x,
  x ∈ Str.split [c] s -> forall ch, ch ∈ x -> ch ∈ s.
Proof.
  induction s as [|y s IH]; intros x Hx ch Hch.
  - apply list_elem_of_singleton in Hx. subst x. by apply elem_of_nil in Hch.
  - destruct (decide (c = y)) as [<-|Hne].
    + change (c :: s) with ([] ++ [c] ++ s) in Hx.
      rewrite split_single_sep in Hx by apply not_elem_of_nil.
      apply elem_of_cons in Hx as [->|Hx]; [by apply elem_of_nil in Hch|].
      right. by eapply IH.
    + unfold Str.split in *. cbn [Str.split_go] in Hx.
      rewrite startswith_single in Hx.
      replace (c =? y)%N with false in Hx by (symmetry; by apply N.eqb_neq).
      destruct (Str.split_go [c] 0 s) as [p ps].
      apply elem_of_cons in Hx as [->|Hx].
      * apply elem_of_cons in Hch as [->|Hch]; [by left|].
        right. apply (IH p); [by left|done].
      * right. apply (IH x); [by right|done].
Qed.

(** X3 ([parse_and_sanitize] on a well-formed path): for a request path
    [d/f] whose directory part [d] is empty or starts with one slash, does
    not end with a slash and holds neither a dot nor a doubled slash, and
    whose file name [f] is not [..], the result is [BASE_PATH] followed by
    the request path (with [index.html] for an empty [f]); no step of
    that path is [..], so that it stays below [BASE_PATH]; the extension
    is that of the file name. *)
Theorem X3_well_formed_path_is_under_base (module_file d f : str) :
  PosixPath.sep ∉ f ->
  f <> lit ".." ->
  d = [] \/ (Str.startswith [PosixPath.sep] d = true /\
             Str.endswith [PosixPath.sep] d = false) ->
  Str.contains (lit ".") d = false ->
  Str.contains (lit "//") d = false ->
  let name := if bool_decide (f = []) then lit "index.html" else f in
  let resolved := BASE_PATH module_file ++ d ++ [PosixPath.sep] ++ name in
  parse_and_sanitize module_file (d ++ [PosixPath.sep] ++ f)
  = (resolved, Str.from 1 (snd (PosixPath.splitext name))) /\
  lexically_under (BASE_PATH module_file) resolved = true.
Proof.
  intros Hf Hparent Hd Hdot Hslash name resolved.
  assert (Str.startswith [PosixPath.sep] name = false) as Hname.
  { unfold name. case_bool_decide; [reflexivity|].
    destruct f as [|c f']; [done|]. rewrite startswith_single.
    apply not_elem_of_cons in Hf as [Hc _]. by apply N.eqb_neq. }
  split.
  2:{ unfold lexically_under, resolved. apply andb_true_iff. split.
      - replace (BASE_PATH module_file ++ d ++ [PosixPath.sep] ++ name)
          with ((BASE_PATH module_file ++ [PosixPath.sep])
                ++ drop 1 (d ++ [PosixPath.sep]) ++ name).
        + apply startswith_app.
        + rewrite <- !app_assoc. f_equal.
          destruct Hd as [->|[Hs _]]; [reflexivity|].
          destruct d as [|c d']; [done|]. rewrite startswith_single in Hs.
          apply N.eqb_eq in Hs. subst c.
          cbn [app drop]. by rewrite drop_0, <- app_assoc.
      - apply negb_true_iff, bool_decide_eq_false_2.
        rewrite drop_app_length, split_single_app.
        assert ((PosixPath.sep ∉ name) /\ name <> lit "..") as [Hsep Hnot].
        { unfold name. case_bool_decide; [|done]. split; [|done].
          intros Hin%list_elem_of_In. vm_compute in Hin.
          intuition discriminate. }
        apply contains_single_iff in Hsep.
        apply (split_single_iff [PosixPath.sep]) in Hsep; [|done].
        unfold Str.split at 2.
        destruct (Str.split_go [PosixPath.sep] 0 name) as [q qs] eqn:Hq.
        cbn [snd] in Hsep. subst qs.
        assert (q = name) as ->.
        { assert (Str.contains [PosixPath.sep] name = false) as Hc.
          { apply (split_single_iff [PosixPath.sep]); [done|].
            by rewrite Hq. }
          unfold Str.contains, Str.find in Hc. apply Z.leb_gt in Hc.
          rewrite (split_go_none [PosixPath.sep] name 0) in Hq;
            [by injection Hq as <-|lia|].
          destruct (find_from_range [PosixPath.sep] name 0); lia. }
        intros [Hin|Hin%list_elem_of_singleton]%elem_of_app; [|done].
        apply contains_single_iff in Hdot.
        apply Hdot. apply (split_single_chars _ _ _ Hin). by left. }
  unfold parse_and_sanitize. rewrite (posix_split_last d f Hf).
  fold name. destruct Hd as [->|[Hstart Hend]].
  - cbn [app length repeat]. rewrite bool_decide_eq_true_2 by done.
    change (Str.replace (lit "//") (lit "/")
              (Str.replace (lit ".") [] [PosixPath.sep]))
      with [PosixPath.sep].
    unfold PosixPath.join at 2. rewrite Hname.
    change (bool_decide ([PosixPath.sep] = [])
            || Str.endswith [PosixPath.sep] [PosixPath.sep]) with true.
    cbv iota. change (Str.from 1 ([PosixPath.sep] ++ name)) with name.
    by rewrite (join_BASE_PATH _ _ Hname).
  - destruct d as [|c d']; [done|].
    rewrite startswith_single in Hstart. apply N.eqb_eq in Hstart. subst c.
    assert (exists r x, rev (PosixPath.sep :: d') = x :: r /\
                        (PosixPath.sep =? x)%N = false)
      as (r & x & Hrev & Hx).
    { unfold Str.endswith in Hend. change (rev [PosixPath.sep]) with [PosixPath.sep] in Hend.
      destruct (rev (PosixPath.sep :: d')) as [|x r] eqn:E.
      - apply (f_equal (@length N)) in E. rewrite length_rev in E. done.
      - exists r, x. split; [done|]. by rewrite startswith_single in Hend. }
    assert (Str.rstrip PosixPath.sep ((PosixPath.sep :: d') ++ [PosixPath.sep])
            = PosixPath.sep :: d') as Hstrip.
    { unfold Str.rstrip. rewrite rev_app_distr.
      change (rev [PosixPath.sep] ++ rev (PosixPath.sep :: d'))
        with (PosixPath.sep :: rev (PosixPath.sep :: d')).
      rewrite Hrev. cbn [Str.lstrip]. rewrite N.eqb_refl.
      rewrite N.eqb_sym, Hx. by rewrite <- Hrev, rev_involutive. }
    rewrite bool_decide_eq_false_2.
    2:{ intros Heq. apply (f_equal (@rev N)) in Heq.
        rewrite rev_app_distr in Heq.
        change (rev [PosixPath.sep] ++ rev (PosixPath.sep :: d'))
          with (PosixPath.sep :: rev (PosixPath.sep :: d')) in Heq.
        rewrite Hrev in Heq.
        assert (In x (rev (repeat PosixPath.sep
                   (length ((PosixPath.sep :: d') ++ [PosixPath.sep]))))) as Hin.
        { rewrite <- Heq. right. by left. }
        apply in_rev, repeat_spec in Hin. subst x.
        by rewrite N.eqb_refl in Hx. }
    rewrite Hstrip, (replace_none _ _ _ Hdot), (replace_none _ _ _ Hslash).
    unfold PosixPath.join at 2. rewrite Hname.
    rewrite bool_decide_eq_false_2 by done. rewrite Hend.
    cbn [orb].
    change (Str.from 1 ((PosixPath.sep :: d') ++ PosixPath.sep :: name))
      with (d' ++ PosixPath.sep :: name).
    rewrite join_BASE_PATH.
    + unfold resolved. cbn [app]. reflexivity.
    + destruct d' as [|c d''].
      { injection Hrev as <- <-. by rewrite N.eqb_refl in Hx. }
      cbn [app]. rewrite startswith_single.
      destruct (PosixPath.sep =? c)%N eqn:E; [|done].
      apply N.eqb_eq in E. subst c. done.
Qed.

(** X4 ([get_http_path], the usual request line): when the request starts
    with a method and a path that hold neither a space nor a line feed,
    each followed by a space, the path is returned, whatever follows. *)
Theorem X4_path_of_request_line (method rsc_path rest : str) :
  32%N ∉ method -> 10%N ∉ method ->
  32%N ∉ rsc_path -> 10%N ∉ rsc_path ->
  get_http_path (method ++ [32%N] ++ rsc_path ++ [32%N] ++ rest)
  = Ret rsc_path.
Proof.
  intros Hm1 Hm2 Hp1 Hp2. unfold get_http_path, Str.split at 1.
  replace (method ++ [32%N] ++ rsc_path ++ [32%N] ++ rest)
    with ((method ++ [32%N] ++ rsc_path ++ [32%N]) ++ rest)
    by (by rewrite <- !app_assoc).
  rewrite split_go_app_absent.
  2:{ rewrite !not_elem_of_app, !not_elem_of_cons.
      repeat split; try done; apply not_elem_of_nil. }
  cbn [index lookup list_lookup fst snd].
  rewrite <- !app_assoc.
  rewrite (split_single_sep 32 method) by done.
  rewrite (split_single_sep 32 rsc_path) by done.
  reflexivity.
Qed.

(** X5 ([get_http_path], no path): the first line of a request is always
    found; [IndexError] is raised when that line holds no space, and the
    function returns when it holds one. *)
Theorem X5_path_missing_iff_no_space (http_request : str) :
  exists line later,
    Str.split [10%N] http_request = line :: later /\
    (32%N ∉ line -> get_http_path http_request = Raise IndexError) /\
    (32%N ∈ line -> exists rsc_path, get_http_path http_request = Ret rsc_path).
Proof.
  assert (exists line later, Str.split [10%N] http_request = line :: later)
    as (line & later & Hsplit).
  { unfold Str.split. destruct (Str.split_go [10%N] 0 http_request). eauto. }
  exists line, later. split; [done|].
  unfold get_http_path. rewrite Hsplit. cbn [index lookup list_lookup].
  pose proof (split_single_iff [32%N] line) as Hiff.
  pose proof (contains_single_iff 32 line) as Hc.
  unfold Str.split.
  destruct (Str.split_go [32%N] 0 line) as [p ps]. cbn [snd] in Hiff.
  destruct ps as [|p1 ps]; cbn [index lookup list_lookup].
  - split; [done|]. intros Hin. exfalso.
    apply (proj1 Hc); [|done]. by apply Hiff.
  - split; [|by eexists]. intros Hno. exfalso.
    apply Hc in Hno. by apply Hiff in Hno.
Qed.

(** X6 ([get_http_body]): without a blank line in the first read the
    function raises [IndexError]; with one, it returns what lies between
    the first blank line and the next one, so that a body which holds a
    blank line is cut there, and a body without one is returned whole. *)
Theorem X6_body_of_first_read (http_request head rest : str) :
  let sep := CRLF ++ CRLF in
  (Str.contains sep http_request = false ->
   get_http_body http_request = Raise IndexError) /\
  (Str.find sep (head ++ sep) = len head ->
   get_http_body (head ++ sep ++ rest) = Ret (fst (Str.split_go sep 0 rest)) /\
   (Str.contains sep rest = false ->
    get_http_body (head ++ sep ++ rest) = Ret rest) /\
   (forall body later,
      Str.find sep (body ++ sep) = len body ->
      get_http_body (head ++ sep ++ body ++ sep ++ later) = Ret body)).
Proof.
  intros sep. assert (sep <> []) as Hsep by done. split.
  - intros H%split_single_iff; [|done].
    unfold get_http_body, Str.split. fold sep.
    destruct (Str.split_go sep 0 http_request) as [p ps].
    cbn [snd] in H. by subst ps.
  - intros Hhead.
    assert (forall r, get_http_body (head ++ sep ++ r)
                      = Ret (fst (Str.split_go sep 0 r))) as Hbody.
    { intros r. unfold get_http_body, Str.split. fold sep.
      destruct (split_go_first sep head r 0 Hsep) as [_ ->];
        [lia|exact Hhead|]. reflexivity. }
    split; [apply Hbody|]. split.
    + intros Hnone. rewrite Hbody.
      unfold Str.contains, Str.find in Hnone. apply Z.leb_gt in Hnone.
      rewrite (split_go_none sep rest 0); [done|lia|].
      destruct (find_from_range sep rest 0); lia.
    + intros body later Hfirst. rewrite Hbody.
      destruct (split_go_first sep body later 0 Hsep) as [_ ->];
        [lia|exact Hfirst|]. reflexivity.
Qed.

(** ** The declared length *)

Lemma imatch_app P : forall h r, map lower h = P -> imatch P (h ++ r) = Some r.
Proof.
  induction P as [|c P IH]; intros [|x h] r Hh; try done.
  injection Hh as Hx Hh. cbn [app imatch].
  rewrite Hx, N.eqb_refl. by apply IH.
Qed.

Lemma lower_hyphen x : lower x = 45%N -> x = 45%N.
Proof.
  unfold lower. destruct (_ && _) eqn:E; [|done].
  apply andb_true_iff in E as [H1%N.leb_le H2%N.leb_le]. lia.
Qed.

(** No match of a literal with a hyphen and without a line feed starts
    in a text that has no hyphen and ends with a line feed. *)
Lemma imatch_blocked a : forall P s,
  45%N ∉ a -> last a = Some 10%N -> 45%N ∈ P -> 10%N ∉ P ->
  imatch P (a ++ s) = None.
Proof.
  induction a as [|x a IH]; intros P s Ha Hlast HP1 HP2; [done|].
  destruct P as [|c P]; [by apply elem_of_nil in HP1|].
  apply not_elem_of_cons in Ha as [Hx Ha].
  apply not_elem_of_cons in HP2 as [Hc HP2].
  cbn [app imatch]. destruct (c =? lower x)%N eqn:E; [|done].
  apply N.eqb_eq in E.
  apply elem_of_cons in HP1 as [Hc45|HP1].
  { exfalso. apply Hx. symmetry. apply lower_hyphen. congruence. }
  destruct a as [|y a].
  - cbn in Hlast. injection Hlast as ->. by cbn in E.
  - apply IH; try done.
Qed.

Lemma search_contlength_skip pre s :
  45%N ∉ pre -> pre = [] \/ last pre = Some 10%N ->
  search_contlength (pre ++ s) = search_contlength s.
Proof.
  intros Hh [->|Hlast]; [done|].
  induction pre as [|x pre IH]; [done|].
  change ((x :: pre) ++ s) with (x :: (pre ++ s)).
  cbn [search_contlength]. unfold match_contlength at 1.
  change (x :: pre ++ s) with ((x :: pre) ++ s).
  rewrite imatch_blocked; try done.
  - destruct pre as [|y pre]; [done|]. apply IH.
    + by apply not_elem_of_cons in Hh as [_ ?].
    + done.
  - apply list_elem_of_In. vm_compute. tauto.
  - intros H%list_elem_of_In. vm_compute in H. intuition discriminate.
Qed.

Lemma skip_spaces_app ws r :
  forallb is_space ws = true -> skip_spaces (ws ++ r) = skip_spaces r.
Proof.
  induction ws as [|c ws IH]; [done|]. cbn [forallb app skip_spaces].
  intros [-> H]%andb_true_iff. by apply IH.
Qed.

Lemma take_digits_app ds rest :
  forallb is_digit ds = true ->
  match rest with [] => true | c :: _ => negb (is_digit c) end = true ->
  take_digits (ds ++ rest) = ds.
Proof.
  intros Hd Hrest. induction ds as [|c ds IH].
  - destruct rest as [|c rest]; [done|]. cbn [app take_digits].
    by apply negb_true_iff in Hrest as ->.
  - cbn [forallb] in Hd. apply andb_true_iff in Hd as [Hc Hd].
    cbn [app take_digits]. rewrite Hc. by rewrite IH.
Qed.

Lemma take_digits_digits s : forallb is_digit (take_digits s) = true.
Proof.
  induction s as [|c s IH]; [done|]. cbn [take_digits].
  destruct (is_digit c) eqn:E; [|done]. cbn [forallb]. by rewrite E.
Qed.

Lemma digits_value_nonneg ds acc :
  forallb is_digit ds = true -> 0 <= acc -> 0 <= digits_value acc ds.
Proof.
  revert acc. induction ds as [|c ds IH]; intros acc Hd Hacc; [done|].
  cbn [forallb] in Hd. apply andb_true_iff in Hd as [Hc Hd].
  unfold digits_value. cbn [fold_left]. apply IH; [done|].
  unfold is_digit in Hc. apply andb_true_iff in Hc as [H1%N.leb_le _]. lia.
Qed.

Lemma search_contlength_digits s ds :
  search_contlength s = Some ds -> forallb is_digit ds = true /\ ds <> [].
Proof.
  induction s as [|c s IH]; cbn [search_contlength].
  - unfold match_contlength. cbn. done.
  - destruct (match_contlength (c :: s)) as [ds'|] eqn:E; [|exact IH].
    intros [= ->]. unfold match_contlength in E.
    destruct (imatch _ _) as [r|]; [|done].
    destruct (skip_spaces r) as [|c1 r']; [done|].
    destruct (c1 =? 58)%N eqn:E58.
    + apply N.eqb_eq in E58. subst c1.
      pose proof (take_digits_digits (skip_spaces r')) as Hd.
      destruct (take_digits (skip_spaces r')); [done|].
      by injection E as <-.
    + destruct c1 as [|q]; [done|].
      do 6 (destruct q as [q|q|]; try done).
Qed.

(** X7 ([get_http_contlength]): for a request that is ASCII text, where
    the digits are the ASCII digits, and whose declared length is a
    numeral that [int()] converts, the result is not negative.  And when
    the first [Content-length] header of a request, in whatever case and
    with whatever spaces around the colon, carries the decimal numeral of
    [n], of a length that [int()] converts and followed by nothing or by
    an ASCII character that is no digit, the result is [n].  The header
    is the first when the text before it holds no hyphen and ends a
    line. *)
Theorem X7_declared_length (pre h ws1 ws2 rest : str) (n : nat) :
  (forall http_request,
     is_ascii http_request = true ->
     (forall ds, search_contlength http_request = Some ds ->
                 (length ds <= default_max_str_digits)%nat) ->
     0 <= get_http_contlength http_request) /\
  (45%N ∉ pre -> pre = [] \/ last pre = Some 10%N ->
   map lower h = lit "content-length" ->
   forallb is_space ws1 = true -> forallb is_space ws2 = true ->
   (length (fmt_d (Z.of_nat n)) <= default_max_str_digits)%nat ->
   match rest with
   | [] => true
   | c :: _ => (c <? 128)%N && negb (is_digit c)
   end = true ->
   get_http_contlength
     (pre ++ h ++ ws1 ++ [58%N] ++ ws2 ++ fmt_d (Z.of_nat n) ++ rest)
   = Z.of_nat n).
Proof.
  split.
  - intros r _ _. unfold get_http_contlength.
    destruct (search_contlength r) as [ds|] eqn:E; [|done].
    apply search_contlength_digits in E as [Hd Hne].
    rewrite parse_digits_all_digits by done.
    rewrite bool_decide_eq_false_2 by done. cbn [default].
    by apply digits_value_nonneg.
  - intros Hpre Hlast Hh Hws1 Hws2 _ Hrest'.
    assert (match rest with [] => true | c :: _ => negb (is_digit c) end
            = true) as Hrest.
    { destruct rest as [|c rest']; [done|].
      by apply andb_true_iff in Hrest' as [_ ?]. }
    destruct (fmt_d_nat n) as (Hd & Hne & Hv).
    unfold get_http_contlength. rewrite search_contlength_skip by done.
    assert (match_contlength
              (h ++ ws1 ++ [58%N] ++ ws2 ++ fmt_d (Z.of_nat n) ++ rest)
            = Some (fmt_d (Z.of_nat n))) as Hmatch.
    { unfold match_contlength. rewrite (imatch_app _ _ _ Hh).
      rewrite skip_spaces_app by done. cbn [app skip_spaces].
      change (is_space 58) with false. cbv iota.
      rewrite skip_spaces_app by done.
      destruct (fmt_d (Z.of_nat n)) as [|d ds] eqn:Hf; [done|].
      cbn [app skip_spaces].
      assert (is_digit d = true) as Hdd
        by (cbn [forallb] in Hd; by apply andb_true_iff in Hd as [? _]).
      rewrite (digit_not_space _ Hdd).
      change (d :: ds ++ rest) with ((d :: ds) ++ rest).
      by rewrite take_digits_app. }
    destruct (h ++ ws1 ++ [58%N] ++ ws2 ++ fmt_d (Z.of_nat n) ++ rest)
      as [|c s'] eqn:Hs.
    + unfold match_contlength in Hmatch. by cbn in Hmatch.
    + cbn [search_contlength]. rewrite Hmatch.
      rewrite parse_digits_all_digits by done.
      rewrite bool_decide_eq_false_2 by done. by rewrite Hv.
Qed.

(** ** Reading the body *)

Section MoreHandlers.

Context {pyfloat : Type}.
Variable float_repr : pyfloat -> str.
Variable float_truthy : pyfloat -> bool.
Variable url_decode : str -> str.
Variable module_file : str.

Implicit Types (w : World pyfloat) (s : Socket) (sock : nat).

Ltac mrun :=
  rewrite ?bind_assoc;
  erewrite bind_Ret by reflexivity;
  cbn [w_clf w_docs w_x_test w_server_socket w_port w_socks w_log w_fs
       w_backlog w_bind w_browser set_clf set_docs set_x_test set_socks].

(** X8 ([__recvall_body__], a body that came with the first read): when
    the body found in the first read is at least as long as the declared
    length, and so too when no length is declared, nothing is read from
    the socket and the whole of that body is decoded, not only its first
    [length] characters. *)
Theorem X8_no_read_for_a_complete_body sock data length body w :
  get_http_body data = Ret body ->
  length <= len body ->
  recvall_body url_decode sock data length w = (Ret (url_decode body), w).
Proof.
  intros Hbody Hlen. unfold recvall_body. rewrite Hbody.
  assert (forall fuel, recvall_loop fuel sock body length w = (Ret body, w))
    as Hloop.
  { intros [|fuel]; cbn [recvall_loop];
      by replace (len body <? length) with false
        by (symmetry; apply Z.ltb_ge; lia). }
  do 2 (erewrite bind_Ret by reflexivity).
  by rewrite (bind_Ret _ _ _ _ _ (Hloop _)).
Qed.

Lemma recvall_loop_short sock chunks : forall texts body0 length w s,
  w_socks w !! sock = Some s ->
  inbox s = chunks ->
  Forall2 (fun c t => decode c = Some t) chunks texts ->
  len (body0 ++ concat texts) < length ->
  fst (recvall_loop (List.length chunks) sock body0 length w) = Diverge.
Proof.
  induction chunks as [|c chunks IH]; intros texts body0 length w s Hs Hin HF Hlen.
  - apply Forall2_nil_inv_l in HF as ->. rewrite app_nil_r in Hlen.
    cbn [List.length recvall_loop].
    by replace (len body0 <? length) with true by (symmetry; apply Z.ltb_lt; lia).
  - apply Forall2_cons_inv_l in HF as (t & texts' & Hc & HF & ->).
    cbn [concat] in Hlen. cbn [List.length recvall_loop].
    replace (len body0 <? length) with true.
    2:{ symmetry. apply Z.ltb_lt. rewrite len_app in Hlen.
        unfold len in *. lia. }
    rewrite (bind_Ret _ _ _ _ _ (recv_chunk _ _ _ _ _ Hs Hin)).
    unfold decode_m. rewrite Hc. unfold bind at 1, ret at 1.
    eapply (IH texts'); [apply lookup_insert_eq|reflexivity|done|].
    by rewrite <- app_assoc.
Qed.

(** X9 ([__recvall_body__], a body that never comes): when all that is
    still to arrive on the socket, added to the body of the first read,
    is shorter than the declared length, the function does not return:
    it waits in [recv], or goes round on [b""] when the peer has closed. *)
Theorem X9_short_body_never_returns sock data length body texts w s :
  get_http_body data = Ret body ->
  w_socks w !! sock = Some s ->
  Forall2 (fun c t => decode c = Some t) (inbox s) texts ->
  len (body ++ concat texts) < length ->
  fst (recvall_body url_decode sock data length w) = Diverge.
Proof.
  intros Hbody Hs HF Hlen. unfold recvall_body. rewrite Hbody.
  do 2 (erewrite bind_Ret by reflexivity).
  unfold pending. rewrite Hs.
  pose proof (recvall_loop_short sock (inbox s) texts body length w s
                Hs eq_refl HF Hlen) as Hloop.
  unfold bind.
  destruct (recvall_loop _ sock body length w) as [o w'].
  cbn [fst] in Hloop. by subst o.
Qed.

(** ** Static files *)


(** What [__handle_request__] comes to for a request that is not a POST,
    once the path is read. *)
Lemma handle_request_get sock w raw w1 data rsc_path :
  recv sock w = (Ret raw, w1) ->
  raw <> [] ->
  decode raw = Some data ->
  Str.startswith (lit "POST") data = false ->
  get_http_path data = Ret rsc_path ->
  handle_request float_repr url_decode module_file sock w
  = (let '(local_path, ext) := parse_and_sanitize module_file rsc_path in
     bind (path_exists local_path)
       (fun found =>
          if found : bool then
            bind (read_binary local_path)
              (fun http_body =>
                 bind (encode_m (HTTP_RESPONSE (content_type ext) (len http_body)))
                   (fun hb =>
                      bind (send sock hb)
                        (fun _ => bind (send sock http_body)
                                    (fun _ => print Info (lit "200 OK")))))
          else bind (send sock HTTP_404)
                 (fun _ => print Info (lit "404 Not Found"))))
      (snd (print Show ([9%N] ++ lit "GET " ++ rsc_path ++ lit " ") w1)).
Proof.
  intros Hrecv Hne Hdec Hget Hpath. unfold handle_request.
  rewrite (bind_Ret _ _ _ _ _ Hrecv).
  rewrite bool_decide_eq_false_2 by done.
  unfold decode_m. rewrite Hdec. erewrite bind_Ret by reflexivity.
  rewrite Hpath. erewrite bind_Ret by reflexivity. rewrite Hget.
  erewrite bind_Ret by reflexivity.
  by destruct (parse_and_sanitize module_file rsc_path).
Qed.

(** X10 (GET of a missing resource): when nothing is found at the resolved
    path, the handler sends the fixed 404 response on the open socket and
    nothing else, logs it, and returns normally.  Any request that does
    not start with [POST] is handled as a GET. *)
Theorem X10_get_missing_is_404 sock w raw w1 data rsc_path s1 :
  recv sock w = (Ret raw, w1) ->
  raw <> [] ->
  decode raw = Some data ->
  Str.startswith (lit "POST") data = false ->
  get_http_path data = Ret rsc_path ->
  w_fs w1 (fst (parse_and_sanitize module_file rsc_path)) = None ->
  w_socks w1 !! sock = Some s1 ->
  closed s1 = false ->
  exists w',
    handle_request float_repr url_decode module_file sock w = (Ret tt, w') /\
    w_socks w'
    = <[sock := mkSocket (inbox s1) (peer_closed s1) (outbox s1 ++ [HTTP_404])
                         false]> (w_socks w1) /\
    w_log w' = w_log w1 ++ [(Show, [9%N] ++ lit "GET " ++ rsc_path ++ lit " ");
                            (Info, lit "404 Not Found")] /\
    same_server w w'.
Proof.
  intros Hrecv Hne Hdec Hget Hpath Hfs Hs Hopen.
  rewrite (handle_request_get _ _ _ _ _ _ Hrecv Hne Hdec Hget Hpath).
  destruct (parse_and_sanitize module_file rsc_path) as [local_path ext].
  cbn [fst] in Hfs. rewrite print_effect. cbn [snd].
  unfold path_exists. erewrite bind_Ret by reflexivity.
  cbn [w_fs]. rewrite Hfs.
  rewrite bool_decide_eq_false_2 by (by intros [? ?]).
  erewrite bind_Ret by (apply send_ok; cbn [w_socks]; exact Hs).
  rewrite print_effect. eexists. split; [reflexivity|].
  cbn [w_socks w_log set_socks]. rewrite Hopen. split; [done|].
  split; [by rewrite <- app_assoc|].
  apply recv_effect in Hrecv as (_ & Hsrv & _).
  unfold same_server in *. cbn. exact Hsrv.
Qed.


(** X12 (GET of a directory): when the resolved path exists but is a
    directory, opening it fails: the handler raises [OSError] and sends
    nothing, not even the 404 response. *)
Theorem X12_get_directory_raises sock w raw w1 data rsc_path names :
  recv sock w = (Ret raw, w1) ->
  raw <> [] ->
  decode raw = Some data ->
  Str.startswith (lit "POST") data = false ->
  get_http_path data = Ret rsc_path ->
  w_fs w1 (fst (parse_and_sanitize module_file rsc_path))
    = Some (FsDir names) ->
  exists w',
    handle_request float_repr url_decode module_file sock w
      = (Raise OSError, w') /\
    w_socks w' = w_socks w1.
Proof.
  intros Hrecv Hne Hdec Hget Hpath Hfs.
  rewrite (handle_request_get _ _ _ _ _ _ Hrecv Hne Hdec Hget Hpath).
  destruct (parse_and_sanitize module_file rsc_path) as [local_path ext].
  cbn [fst] in Hfs. rewrite print_effect. cbn [snd].
  unfold path_exists. erewrite bind_Ret by reflexivity.
  cbn [w_fs]. rewrite Hfs.
  rewrite bool_decide_eq_true_2 by (by eexists).
  unfold read_binary.
  erewrite bind_Raise by (cbn [w_fs]; rewrite Hfs; reflexivity).
  by eexists.
Qed.

(** ** The replies of the operations *)


(** X13 ([__do_ack__]): on an open socket the acknowledgement is one
    message, a 200 header that declares an empty body of the default
    content type; it is not followed by a body.  On a descriptor that
    names no socket the operation raises [OSError] and logs nothing. *)
Theorem X13_ack_is_a_bare_header sock w :
  (forall s, w_socks w !! sock = Some s -> closed s = false ->
     exists w',
       do_ack sock w = (Ret tt, w') /\
       w_socks w'
       = <[sock := mkSocket (inbox s) (peer_closed s)
                     (outbox s
                      ++ [map ascii_of_N
                            (lit "HTTP/1.1 200 OK" ++ CRLF ++
                             lit "Connection: close" ++ CRLF ++
                             lit "Access-Control-Allow-Origin: *" ++ CRLF ++
                             lit "Server: SS3" ++ CRLF ++
                             lit "Content-type: application/octet-stream"
                             ++ CRLF ++
                             lit "Content-length: 0" ++ CRLF ++ CRLF)])
                     false]> (w_socks w) /\
       w_log w' = w_log w ++ [(Info, lit "sending ACK back to client...")]) /\
  (w_socks w !! sock = None -> do_ack sock w = (Raise OSError, w)).
Proof.
  split.
  - intros s Hs Hopen. unfold do_ack.
    change (encode_m (HTTP_RESPONSE (content_type []) 0))
      with (ret (pyfloat := pyfloat)
              (map ascii_of_N
                 (lit "HTTP/1.1 200 OK" ++ CRLF ++
                  lit "Connection: close" ++ CRLF ++
                  lit "Access-Control-Allow-Origin: *" ++ CRLF ++
                  lit "Server: SS3" ++ CRLF ++
                  lit "Content-type: application/octet-stream" ++ CRLF ++
                  lit "Content-length: 0" ++ CRLF ++ CRLF))).
    erewrite bind_Ret by reflexivity.
    erewrite bind_Ret by (apply send_ok; exact Hs).
    rewrite print_effect. eexists. split; [reflexivity|].
    cbn [w_socks w_log set_socks]. by rewrite Hopen.
  - intros Hs. unfold do_ack.
    change (encode_m (HTTP_RESPONSE (content_type []) 0))
      with (ret (pyfloat := pyfloat)
              (map ascii_of_N (HTTP_RESPONSE (content_type []) 0))).
    erewrite bind_Ret by reflexivity.
    apply bind_Raise. unfold send. by rewrite Hs.
Qed.

(** X14 ([__do_classify__], what it lets through): no exception that is
    an instance of [Exception] leaves the operation, whether it comes from
    the classifier, from a missing model or from the socket; what can
    leave it is an exception outside [Exception], such as an interrupt. *)
Theorem X14_classify_lets_no_Exception_through sock doc w e w' :
  do_classify float_repr sock doc w = (Raise e, w') ->
  is_Exception e = false.
Proof.
  unfold do_classify, try_except_Exception.
  match goal with |- context [bind ?m ?k w] => destruct (bind m k w)
    as [[[]|e0|] w0] end; try done.
  destruct (is_Exception e0) eqn:He0.
  - by rewrite print_effect.
  - by intros [= <- _].
Qed.

(** X15 ([__do_classify__], an interrupt): an exception of the classifier
    that is not an instance of [Exception] is not caught: it leaves the
    operation, nothing is written on any socket and no error is
    logged. *)
Theorem X15_classify_interrupt_propagates sock doc w clf e :
  w_clf w = Some clf ->
  classify_json clf doc = Raise e ->
  is_Exception e = false ->
  exists w',
    do_classify float_repr sock doc w = (Raise e, w') /\
    w_socks w' = w_socks w /\
    w_log w' = w_log w ++ [(Show, [9%N] ++ take 50 doc ++ lit "[...]")].
Proof.
  intros Hclf Hraise Hexc.
  unfold do_classify, try_except_Exception, bind, the_clf, lift.
  rewrite print_effect. cbn [w_clf]. rewrite Hclf, Hraise, Hexc.
  eexists; split; [reflexivity|]. by cbn.
Qed.


(** X17 (no model): without a model attached, a classification request is
    answered by nothing but an error in the log, and the operation
    returns; [__do_get_info__] has no handler, and raises
    [AttributeError].  Neither writes on a socket. *)
Theorem X17_operations_without_a_model sock doc w :
  w_clf w = None ->
  (exists w' msg,
     do_classify float_repr sock doc w = (Ret tt, w') /\
     w_socks w' = w_socks w /\
     w_log w' = w_log w ++ [(Show, [9%N] ++ take 50 doc ++ lit "[...]");
                            (Error, msg)]) /\
  do_get_info float_repr sock w = (Raise AttributeError, w).
Proof.
  intros Hclf. split.
  - unfold do_classify, try_except_Exception, bind, the_clf.
    rewrite print_effect. cbn [w_clf]. rewrite Hclf.
    cbn [is_Exception]. rewrite print_effect.
    eexists _, _. split; [reflexivity|]. cbn. by rewrite <- app_assoc.
  - unfold do_get_info. apply bind_Raise. unfold the_clf. by rewrite Hclf.
Qed.

(** ** Documents of the in-memory test set *)

Lemma digits_find_from c sep ds i :
  is_digit c = false ->
  forallb is_digit ds = true ->
  Str.find_from (c :: sep) ds i = -1.
Proof.
  intros Hc Hd. revert i.
  induction ds as [|d ds IH]; intros i; [reflexivity|].
  simpl in Hd. apply andb_true_iff in Hd as [Hd1 Hd2].
  cbn [Str.find_from Str.startswith].
  destruct (c =? d)%N eqn:E; [apply N.eqb_eq in E; congruence|].
  simpl. by apply IH.
Qed.

(** The locators that [set_testset] stores: [:x_test:] and a decimal
    index. *)
Lemma x_test_locator_shape ds :
  forallb is_digit ds = true ->
  Str.contains (lit ":line:") (lit ":x_test:" ++ ds) = false /\
  Str.contains (lit ":x_test:") (lit ":x_test:" ++ ds) = true /\
  Str.split (lit ":x_test:") (lit ":x_test:" ++ ds) = [[]; ds].
Proof.
  intros Hd. split.
  - unfold Str.contains, Str.find.
    change (lit ":x_test:") with [58; 120; 95; 116; 101; 115; 116; 58]%N.
    change (lit ":line:") with [58; 108; 105; 110; 101; 58]%N.
    assert (Str.startswith [108; 105; 110; 101; 58]%N ds = false) as Hl.
    { destruct ds as [|d ds]; [done|]. simpl in Hd.
      apply andb_true_iff in Hd as [Hd1 _]. cbn [Str.startswith].
      destruct (108 =? d)%N eqn:E; [|done].
      apply N.eqb_eq in E. by subst d. }
    change (Str.find_from [58; 108; 105; 110; 101; 58]%N
              ([58; 120; 95; 116; 101; 115; 116; 58]%N ++ ds) 0)
      with (if Str.startswith [108; 105; 110; 101; 58]%N ds then 7
            else Str.find_from [58; 108; 105; 110; 101; 58]%N ds 8).
    rewrite Hl. by rewrite digits_find_from.
  - apply (split_first (lit ":x_test:") [] ds); [done|reflexivity|].
    by apply digits_no_occurrence.
Qed.

(** What [__do_get_doc__] does for a locator [:x_test:N] when there are
    documents in memory. *)
Lemma do_get_doc_x_test sock (n : nat) w d ds :
  w_x_test w = Some (d :: ds) ->
  do_get_doc float_repr sock (lit ":x_test:" ++ fmt_d (Z.of_nat n)) w
  = bind (lift (index (d :: ds) n))
      (fun doc =>
         bind (send_as_json float_repr sock
                 (JDict [(KStr (lit "content"), JStr doc)]))
           (fun _ => print Info (lit "sending document content..."))) w.
Proof.
  intros Hx. destruct (fmt_d_nat n) as (Hd & Hne & Hv).
  destruct (x_test_locator_shape _ Hd) as (Hline & Hxt & Hsplit).
  unfold do_get_doc. rewrite Hline, Hxt, Hsplit.
  rewrite !bind_assoc. erewrite bind_Ret by reflexivity. rewrite Hx.
  rewrite !bind_assoc. erewrite bind_Ret by reflexivity.
  rewrite !bind_assoc. rewrite py_int_fmt_d.
  erewrite bind_Ret by reflexivity.
  unfold py_index. rewrite (proj2 (Z.leb_le 0 (Z.of_nat n))) by lia.
  by rewrite Nat2Z.id.
Qed.

(** X18 ([__do_get_doc__], a document in memory): the locator
    [:x_test:N] is answered with the document at index [N] of the array
    that the server holds. *)
Theorem X18_x_test_locator_resolves sock (n : nat) w x_test doc :
  w_x_test w = Some x_test ->
  x_test !! n = Some doc ->
  do_get_doc float_repr sock (lit ":x_test:" ++ fmt_d (Z.of_nat n)) w
  = bind (send_as_json float_repr sock
            (JDict [(KStr (lit "content"), JStr doc)]))
      (fun _ => print Info (lit "sending document content...")) w.
Proof.
  intros Hx Hn. destruct x_test as [|d ds]; [done|].
  rewrite (do_get_doc_x_test _ _ _ _ _ Hx). unfold index. rewrite Hn.
  by erewrite bind_Ret by reflexivity.
Qed.


(** X20 ([__do_get_doc__], no documents in memory): when the server holds
    no document array, or an empty one, every locator with [:x_test:] and
    without [:line:] is answered with an empty document, whatever follows
    the marker: the index is not read. *)
Theorem X20_x_test_without_documents sock file w :
  Str.contains (lit ":line:") file = false ->
  Str.contains (lit ":x_test:") file = true ->
  w_x_test w = None \/ w_x_test w = Some [] ->
  do_get_doc float_repr sock file w
  = bind (send_as_json float_repr sock
            (JDict [(KStr (lit "content"), JStr [])]))
      (fun _ => print Info (lit "sending document content...")) w.
Proof.
  intros Hline Hxt Hx. unfold do_get_doc. rewrite Hline, Hxt.
  rewrite !bind_assoc. erewrite bind_Ret by reflexivity.
  destruct Hx as [-> | ->]; by erewrite bind_Ret by reflexivity.
Qed.


(** ** Building the index from memory *)

(** What a run of the loop of [set_testset] that ends leaves as it was:
    the document array and the set of categories; and it has found a
    label for each of its documents. *)
Lemma set_testset_loop_frame clf u y_test rest : forall idoc w w',
  set_testset_loop float_truthy clf u y_test idoc rest w = (Ret tt, w') ->
  (rest = [] \/ (idoc + length rest <= length y_test)%nat) /\
  w_x_test w' = w_x_test w /\
  forall cat, is_Some (w_docs w' !! cat) <-> is_Some (w_docs w !! cat).
Proof.
  induction rest as [|doc rest IH]; intros idoc w w' Hrun.
  - injection Hrun as <-. split; [by left|done].
  - cbn [set_testset_loop] in Hrun.
    apply bind_Ret_inv in Hrun as (cat0 & w1 & H1 & Hrun).
    apply lift_Ret_inv in H1 as [Hcat ->].
    apply bind_Ret_inv in Hrun as ([] & w2 & H2 & Hrun).
    apply append_file_inv in H2 as (e0 & He0 & ->).
    apply bind_Ret_inv in Hrun as ([] & w3 & H3 & Hrun).
    apply append_path_inv in H3 as (e1 & He1 & ->).
    apply bind_Ret_inv in Hrun as (r & w4 & H4 & Hrun).
    apply lift_Ret_inv in H4 as [Hr ->].
    apply bind_Ret_inv in Hrun as (c & w5 & H5 & Hrun).
    apply lift_Ret_inv in H5 as [Hc ->].
    apply bind_Ret_inv in Hrun as ([] & w6 & H6 & Hrun).
    apply append_clf_result_inv in H6 as (e2 & He2 & ->).
    apply IH in Hrun as (Hlen & Hx & Hkeys).
    cbn [w_docs w_x_test set_docs] in *.
    unfold index in Hcat.
    destruct (y_test !! idoc) as [cat1|] eqn:Hy; [|done].
    apply lookup_lt_Some in Hy.
    split; [right; cbn [length]; destruct Hlen as [->|Hlen]; cbn [length]; lia|].
    split; [done|].
    intros cat. rewrite Hkeys.
    destruct (decide (cat0 = cat)) as [<-|Hne].
    + rewrite lookup_insert_eq, He0. by split; eexists.
    + by rewrite !lookup_insert_ne by done.
Qed.

Lemma init_docs_keys (ys : list str) (c : str) :
  is_Some (foldr (fun cat docs => <[cat := empty_entry]> docs)
                 (∅ : gmap str DocEntry) ys !! c) <-> c ∈ ys.
Proof.
  induction ys as [|y ys IH]; simpl.
  - rewrite lookup_empty. split; [by intros [? ?]|by intros ?%elem_of_nil].
  - rewrite elem_of_cons. destruct (decide (y = c)) as [->|Hne].
    + rewrite lookup_insert_eq. split; [by left|by eexists].
    + rewrite lookup_insert_ne by done. rewrite IH.
      split; [by right|]. by intros [?|?].
Qed.

(** What [set_testset] has done when it returns. *)
Lemma set_testset_frame x_test y_test w b w' :
  set_testset float_truthy x_test y_test w = (Ret b, w') ->
  (length x_test <= length y_test)%nat /\
  w_x_test w' = Some x_test /\
  (forall cat, is_Some (w_docs w' !! cat) <-> cat ∈ y_test) /\
  b = bool_decide (0 < size (w_docs w'))%nat.
Proof.
  intros Hrun. unfold set_testset in Hrun.
  apply bind_Ret_inv in Hrun as ([] & w1 & H1 & Hrun).
  injection H1 as <-.
  apply bind_Ret_inv in Hrun as ([] & w2 & H2 & Hrun).
  injection H2 as <-.
  apply bind_Ret_inv in Hrun as (clf & w3 & H3 & Hrun).
  apply the_clf_inv in H3 as [_ ->].
  apply bind_Ret_inv in Hrun as ([] & w4 & H4 & Hrun).
  injection H4 as <-.
  apply bind_Ret_inv in Hrun as ([] & w5 & H5 & Hrun).
  unfold categories_found in Hrun.
  apply bind_Ret_inv in Hrun as (w6 & w7 & H6 & Hrun).
  injection H6 as <- <-.
  apply bind_Ret_inv in Hrun as ([] & w8 & H8 & Hrun).
  injection H8 as <-. injection Hrun as <- <-.
  apply set_testset_loop_frame in H5 as (Hlen & Hx & Hkeys).
  cbn [w_docs w_x_test set_docs set_x_test] in *.
  split; [destruct Hlen as [->|Hlen]; cbn [length]; lia|].
  split; [done|]. split; [|done].
  intros cat. rewrite Hkeys. apply init_docs_keys.
Qed.

(** X22 ([set_testset], what a return tells): when [set_testset]
    returns, there was a label for each document, the server holds the
    documents that were given, the categories of the index are the labels
    that were given, those without a document too, and the value is
    [True] unless no label was given. *)
Theorem X22_set_testset_on_return x_test y_test w b w' :
  set_testset float_truthy x_test y_test w = (Ret b, w') ->
  (length x_test <= length y_test)%nat /\
  w_x_test w' = Some x_test /\
  (forall cat, is_Some (w_docs w' !! cat) <-> cat ∈ y_test) /\
  b = bool_decide (y_test <> []).
Proof.
  intros (Hlen & Hx & Hkeys & ->)%set_testset_frame.
  split; [done|]. split; [done|]. split; [done|].
  apply bool_decide_ext. split.
  - intros Hsize ->.
    assert (w_docs w' = ∅) as Hempty.
    { apply map_empty. intros cat. apply eq_None_not_Some.
      rewrite Hkeys. by intros ?%elem_of_nil. }
    rewrite Hempty, map_size_empty in Hsize. lia.
  - intros Hne. destruct y_test as [|cat ys]; [done|].
    destruct (proj2 (Hkeys cat)) as [e He]; [by left|].
    assert (size (w_docs w') <> 0)%nat; [|lia].
    intros Hzero%map_size_empty_iff. by rewrite Hzero, lookup_empty in He.
Qed.

(** X23 (a stored locator leads back to its document): after
    [set_testset] has returned, every locator that the index holds under
    a category is answered by [__do_get_doc__] with a document of the
    given array whose label is that category. *)
Theorem X23_stored_locator_round_trip sock x_test y_test w b w' clf
    cat e (i : nat) p :
  w_clf w = Some clf ->
  set_testset float_truthy x_test y_test w = (Ret b, w') ->
  w_docs w' !! cat = Some e ->
  path e !! i = Some p ->
  exists (idoc : nat) doc,
    x_test !! idoc = Some doc /\
    y_test !! idoc = Some cat /\
    do_get_doc float_repr sock p w'
    = bind (send_as_json float_repr sock
              (JDict [(KStr (lit "content"), JStr doc)]))
        (fun _ => print Info (lit "sending document content...")) w'.
Proof.
  intros Hclf Hrun He Hp.
  pose proof (set_testset_entries _ _ _ _ _ _ _ Hclf Hrun cat e He) as Hent.
  apply set_testset_frame in Hrun as (_ & Hx & _).
  unfold entry_from_memory in Hent.
  destruct (Forall3_lookup_l _ _ _ _ _ _ Hent Hp)
    as (f & c & _ & _ & idoc & doc & -> & _ & Hdoc & Hcat & _).
  exists idoc, doc. split; [done|]. split; [done|].
  destruct x_test as [|d ds]; [done|].
  rewrite (do_get_doc_x_test _ _ _ _ _ Hx). unfold index. rewrite Hdoc.
  by erewrite bind_Ret by reflexivity.
Qed.

(** ** Building the index from files *)

(** X24 ([set_testset_from_files], a path that is no directory): when the
    test path is a path the system takes (it can be encoded and holds no
    NUL character) and it is missing, or is a regular file, the call
    raises [OSError], in either mode; the index and the document array
    that the server held are gone by then. *)
Theorem X24_from_files_without_directory test_path folder_label w clf :
  w_clf w = Some clf ->
  os_path test_path = true ->
  match w_fs w test_path with Some (FsDir _) => False | _ => True end ->
  exists w',
    set_testset_from_files float_truthy test_path folder_label w
      = (Raise OSError, w') /\
    w_docs w' = ∅ /\ w_x_test w' = None /\
    w_log w' = w_log w ++ [(Info, lit "reading files...")].
Proof.
  intros Hclf _ Hfs. unfold set_testset_from_files.
  erewrite bind_Ret by apply print_effect.
  erewrite bind_Ret by reflexivity.
  erewrite bind_Ret
    by (unfold the_clf; cbn [w_clf set_x_test set_docs]; rewrite Hclf;
        reflexivity).
  eexists. split.
  - apply bind_Raise. unfold listdir. cbn [w_fs set_x_test set_docs].
    by destruct (w_fs w test_path) as [[]|].
  - by cbn.
Qed.

(** X25 ([set_testset_from_files], an empty directory): for a directory
    without entries the call returns [False], in either mode, and leaves
    an empty index. *)
Theorem X25_from_files_empty_directory test_path folder_label w clf :
  w_clf w = Some clf ->
  w_fs w test_path = Some (FsDir []) ->
  exists w',
    set_testset_from_files float_truthy test_path folder_label w
      = (Ret false, w') /\
    w_docs w' = ∅ /\ w_x_test w' = None /\
    w_log w' = w_log w ++ [(Info, lit "reading files...");
                           (Info, lit "0 categories found")].
Proof.
  intros Hclf Hfs. unfold set_testset_from_files.
  erewrite bind_Ret by apply print_effect.
  erewrite bind_Ret by reflexivity.
  erewrite bind_Ret
    by (unfold the_clf; cbn [w_clf set_x_test set_docs]; rewrite Hclf;
        reflexivity).
  erewrite bind_Ret
    by (unfold listdir; cbn [w_fs set_x_test set_docs]; rewrite Hfs;
        reflexivity).
  erewrite bind_Ret by (by destruct folder_label).
  unfold categories_found.
  erewrite bind_Ret by reflexivity. erewrite bind_Ret by reflexivity.
  eexists. split; [reflexivity|]. cbn. by rewrite <- app_assoc.
Qed.

(** The loop over the files of a category folder adds no category and
    takes none away. *)
Lemma from_folder_frame clf u cat cat_path files : forall w w',
  from_folder float_truthy clf u cat cat_path files w = (Ret tt, w') ->
  w_fs w' = w_fs w /\ w_x_test w' = w_x_test w /\
  forall c, is_Some (w_docs w' !! c) <-> is_Some (w_docs w !! c).
Proof.
  induction files as [|f files IH]; intros w w' Hrun.
  - by injection Hrun as <-.
  - cbn [from_folder] in Hrun.
    apply bind_Ret_inv in Hrun as (isf & w1 & H1 & Hrun).
    apply path_isfile_inv in H1 as [-> _].
    apply bind_Ret_inv in Hrun as ([] & w2 & H2 & Hrun).
    apply IH in Hrun as (Hfs & Hx & Hkeys).
    destruct isf; [|by injection H2 as <-].
    apply bind_Ret_inv in H2 as ([] & w3 & H3 & H2).
    apply append_path_inv in H3 as (e0 & He0 & ->).
    apply bind_Ret_inv in H2 as ([] & w4 & H4 & H2).
    apply append_file_inv in H4 as (e1 & He1 & ->).
    apply bind_Ret_inv in H2 as (fdoc & w5 & H5 & H2).
    apply open_text_inv in H5 as (-> & _).
    apply bind_Ret_inv in H2 as (r & w6 & H6 & H2).
    apply lift_Ret_inv in H6 as [_ ->].
    apply bind_Ret_inv in H2 as (c & w7 & H7 & H2).
    apply lift_Ret_inv in H7 as [_ ->].
    apply append_clf_result_inv in H2 as (e2 & He2 & ->).
    cbn [w_docs w_fs w_x_test set_docs] in *.
    split; [done|]. split; [done|].
    intros c0. rewrite Hkeys.
    destruct (decide (cat = c0)) as [<-|Hne].
    + rewrite lookup_insert_eq, He0. by split; eexists.
    + by rewrite !lookup_insert_ne by done.
Qed.

(** The loop over the entries of the test path, in folder mode: the
    categories it adds are the entries that are directories. *)
Lemma from_files_by_folder_keys clf u test_path cats : forall w w',
  from_files_by_folder float_truthy clf u test_path cats w = (Ret tt, w') ->
  w_fs w' = w_fs w /\ w_x_test w' = w_x_test w /\
  forall c, is_Some (w_docs w' !! c) <->
            is_Some (w_docs w !! c) \/
            (c ∈ cats /\
             exists files,
               w_fs w (PosixPath.join test_path c) = Some (FsDir files)).
Proof.
  induction cats as [|cat cats IH]; intros w w' Hrun.
  - injection Hrun as <-. split; [done|]. split; [done|].
    intros c. split; [by left|]. intros [?|[?%elem_of_nil _]]; done.
  - cbn [from_files_by_folder] in Hrun.
    apply bind_Ret_inv in Hrun as (isf & w1 & H1 & Hrun).
    apply path_isfile_inv in H1 as [-> Hisf].
    apply bind_Ret_inv in Hrun as ([] & w2 & H2 & Hrun).
    apply IH in Hrun as (Hfs & Hx & Hkeys).
    destruct isf; cbn [negb] in H2.
    + injection H2 as <-. split; [done|]. split; [done|].
      intros c. rewrite Hkeys, elem_of_cons.
      split; [intros [?|[? ?]]; [by left|by right; split; [right|]]|].
      intros [?|[[->|?] [files Hdir]]]; [by left| |by right; eauto].
      by rewrite Hdir in Hisf.
    + apply bind_Ret_inv in H2 as ([] & w3 & H3 & H2). injection H3 as <-.
      apply bind_Ret_inv in H2 as ([] & w4 & H4 & H2). injection H4 as <-.
      apply bind_Ret_inv in H2 as ([] & w5 & H5 & H2). injection H5 as <-.
      apply bind_Ret_inv in H2 as (files & w6 & H6 & H2).
      assert (w_fs w (PosixPath.join test_path cat) = Some (FsDir files)
              /\ w6 = set_docs
                        (<[cat := mkDocEntry [] [] []]> (w_docs w)) w)
        as [Hdir ->].
      { unfold listdir in H6. cbn [w_fs set_docs w_docs] in H6.
        destruct (w_fs w (PosixPath.join test_path cat)) as [[|names]|];
          try done.
        injection H6 as -> <-. split; [done|].
        rewrite !lookup_insert_eq. cbn [path file clf_result default].
        by rewrite !insert_insert_eq. }
      apply from_folder_frame in H2 as (Hfs2 & Hx2 & Hkeys2).
      cbn [w_docs w_fs w_x_test set_docs] in *.
      split; [congruence|]. split; [congruence|].
      intros c. rewrite Hkeys, Hkeys2, elem_of_cons, Hfs2.
      destruct (decide (cat = c)) as [<-|Hne].
      * rewrite lookup_insert_eq. split; [|by left; eexists].
        intros _. right. split; [by left|by eexists].
      * rewrite lookup_insert_ne by done.
        split; [intros [?|[? ?]]; [by left|by right; split; [right|]]|].
        intros [?|[[->|?] ?]]; [by left|done|by right].
Qed.

(** X26 ([set_testset_from_files], labels from folders): when the call
    returns, the categories of the index are the entries of the test path
    that are directories; regular files beside them are passed over.  The
    value is [True] when there is such a directory, and the server holds
    no document array. *)
Theorem X26_folder_mode_categories test_path w b w' :
  set_testset_from_files float_truthy test_path true w = (Ret b, w') ->
  exists names,
    w_fs w test_path = Some (FsDir names) /\
    (forall cat,
       is_Some (w_docs w' !! cat) <->
       cat ∈ names /\
       exists files,
         w_fs w (PosixPath.join test_path cat) = Some (FsDir files)) /\
    b = bool_decide (0 < size (w_docs w'))%nat /\
    w_x_test w' = None.
Proof.
  intros Hrun. unfold set_testset_from_files in Hrun.
  apply bind_Ret_inv in Hrun as ([] & w1 & H1 & Hrun).
  rewrite print_effect in H1. injection H1 as <-.
  apply bind_Ret_inv in Hrun as ([] & w2 & H2 & Hrun).
  injection H2 as <-.
  apply bind_Ret_inv in Hrun as (clf & w3 & H3 & Hrun).
  apply the_clf_inv in H3 as [_ ->].
  apply bind_Ret_inv in Hrun as (names & w4 & H4 & Hrun).
  unfold listdir in H4. cbn [w_fs set_x_test set_docs] in H4.
  destruct (w_fs w test_path) as [[|names']|] eqn:Hfs; try done.
  injection H4 as -> <-.
  apply bind_Ret_inv in Hrun as ([] & w5 & H5 & Hrun).
  cbn [negb] in H5.
  apply from_files_by_folder_keys in H5 as (Hfs5 & Hx5 & Hkeys).
  unfold categories_found in Hrun.
  apply bind_Ret_inv in Hrun as (w6 & w7 & H6 & Hrun).
  injection H6 as <- <-.
  apply bind_Ret_inv in Hrun as ([] & w8 & H8 & Hrun).
  injection H8 as <-. injection Hrun as <- <-.
  cbn [w_docs w_fs w_x_test set_docs set_x_test] in *.
  exists names. split; [done|]. split; [|done].
  intros cat. rewrite Hkeys, lookup_empty.
  split; [|by right]. intros [[? ?]|?]; done.
Qed.

(** ** Starting to serve *)

(** X27 ([serve] without a model): when no model is given and none is
    attached, [serve] logs the error and returns: it opens no socket, and
    no browser. *)
Theorem X27_serve_needs_a_model x_test y_test port browser events w :
  w_clf w = None ->
  exists w',
    serve float_repr float_truthy url_decode module_file None x_test y_test
          port browser events w = (Ret tt, w') /\
    w_log w' = w_log w ++ [(Error, lit "a model must be given before serving")]
    /\ w_server_socket w' = w_server_socket w
    /\ w_socks w' = w_socks w
    /\ w_browser w' = w_browser w.
Proof.
  intros Hclf. unfold serve, serve_setup.
  rewrite !bind_assoc. erewrite bind_Ret by reflexivity.
  rewrite !bind_assoc. erewrite bind_Ret by reflexivity.
  cbn [w_clf set_clf]. rewrite Hclf.
  rewrite !bind_assoc. erewrite bind_Ret by apply print_effect.
  erewrite bind_Ret by reflexivity.
  by eexists.
Qed.

(** X28 ([serve] on a server that listens already): when a listening
    socket is there, [serve] does not open another: the port that is
    given makes no difference. *)
Theorem X28_serve_keeps_the_listening_socket
    clf x_test y_test port port' browser events w server_socket :
  w_server_socket w = Some server_socket ->
  serve float_repr float_truthy url_decode module_file clf x_test y_test
        port browser events w
  = serve float_repr float_truthy url_decode module_file clf x_test y_test
          port' browser events w.
Proof.
  intros Hss. unfold serve.
  assert (serve_setup float_truthy clf x_test y_test port browser w
          = serve_setup float_truthy clf x_test y_test port' browser w) as Heq.
  { unfold serve_setup.
    erewrite !bind_Ret by reflexivity.
    cbn [w_clf w_server_socket set_clf].
    destruct (match clf with Some c => Some c | None => w_clf w end);
      [|reflexivity].
    by rewrite Hss. }
  unfold bind at 1 3. by rewrite Heq.
Qed.

(** X29 ([start_listening] and [get_port]): when the socket is bound,
    the call returns the port that the system gave, which is the port
    that [get_port] reports from then on, and the new socket is the one
    the server listens on; when it cannot be bound, the exception leaves
    the call and the server is as it was. *)
Theorem X29_start_listening_reports_the_port port w :
  (forall fd bound, w_bind w port = Ret (fd, bound) ->
     exists w',
       start_listening port w = (Ret bound, w') /\
       get_port w' = (Ret bound, w') /\
       w_server_socket w' = Some fd /\
       w_socks w' !! fd = Some (mkSocket [] false [] false)) /\
  (forall e, w_bind w port = Raise e ->
     start_listening port w = (Raise e, w)).
Proof.
  split.
  - intros fd bound Hbind. unfold start_listening.
    erewrite bind_Ret by (rewrite Hbind; reflexivity).
    cbv beta iota.
    erewrite bind_Ret by reflexivity.
    erewrite bind_Ret by apply print_effect.
    erewrite bind_Ret by apply print_effect.
    erewrite bind_Ret by apply print_effect.
    eexists. split; [reflexivity|]. split; [reflexivity|].
    split; [reflexivity|]. cbn. by rewrite lookup_insert_eq.
  - intros e Hbind. unfold start_listening.
    apply bind_Raise. by rewrite Hbind.
Qed.

End MoreHandlers.

(** ** The properties above on the installed page *)

Lemma X1_content_type_default_witness :
  (lit "txt" ∉ [lit "html"; lit "css"; lit "js"; lit "png"; lit "json";
                lit "ico"]) /\
  content_type (lit "txt") = lit "application/octet-stream".
Proof.
  assert (lit "txt" ∉ [lit "html"; lit "css"; lit "js"; lit "png";
                       lit "json"; lit "ico"]) as Hnot.
  { intros H%list_elem_of_In. vm_compute in H. intuition discriminate. }
  split; [exact Hnot|].
  exact (proj2 (X1_content_type_default (lit "txt")) Hnot).
Defined.

Lemma X2_index_is_the_default_witness :
  Str.endswith (lit "/") (lit "/js/") = true /\
  parse_and_sanitize Demo.module_file (lit "/js/")
  = parse_and_sanitize Demo.module_file (lit "/js/" ++ lit "index.html").
Proof.
  split; [reflexivity|].
  exact (X2_index_is_the_default Demo.module_file (lit "/js/")
           (or_intror eq_refl)).
Defined.

Lemma X3_well_formed_path_witness :
  (PosixPath.sep ∉ lit "app.js") /\
  lit "app.js" <> lit ".." /\
  Str.startswith [PosixPath.sep] (lit "/js") = true /\
  Str.endswith [PosixPath.sep] (lit "/js") = false /\
  Str.contains (lit ".") (lit "/js") = false /\
  Str.contains (lit "//") (lit "/js") = false /\
  parse_and_sanitize Demo.module_file (lit "/js/app.js")
  = (lit "/srv/pyss3/resources/visual_classifier/js/app.js", lit "js") /\
  lexically_under (BASE_PATH Demo.module_file)
    (lit "/srv/pyss3/resources/visual_classifier/js/app.js") = true.
Proof.
  assert (PosixPath.sep ∉ lit "app.js") as Hnot.
  { intros H%list_elem_of_In. vm_compute in H. intuition discriminate. }
  assert (lit "app.js" <> lit "..") as Hparent by discriminate.
  split; [exact Hnot|]. split; [exact Hparent|].
  do 4 (split; [reflexivity|]).
  exact (X3_well_formed_path_is_under_base Demo.module_file (lit "/js")
           (lit "app.js") Hnot Hparent (or_intror (conj eq_refl eq_refl))
           eq_refl eq_refl).
Defined.

Lemma X4_path_of_request_line_witness :
  (32%N ∉ lit "GET") /\ (10%N ∉ lit "GET") /\
  (32%N ∉ lit "/index.html") /\ (10%N ∉ lit "/index.html") /\
  get_http_path (lit "GET" ++ [32%N] ++ lit "/index.html" ++ [32%N]
                 ++ lit "HTTP/1.1" ++ CRLF)
  = Ret (lit "/index.html").
Proof.
  assert (32%N ∉ lit "GET") as H1
    by (intros H%list_elem_of_In; vm_compute in H; intuition discriminate).
  assert (10%N ∉ lit "GET") as H2
    by (intros H%list_elem_of_In; vm_compute in H; intuition discriminate).
  assert (32%N ∉ lit "/index.html") as H3
    by (intros H%list_elem_of_In; vm_compute in H; intuition discriminate).
  assert (10%N ∉ lit "/index.html") as H4
    by (intros H%list_elem_of_In; vm_compute in H; intuition discriminate).
  split; [exact H1|]. split; [exact H2|]. split; [exact H3|].
  split; [exact H4|].
  exact (X4_path_of_request_line (lit "GET") (lit "/index.html")
           (lit "HTTP/1.1" ++ CRLF) H1 H2 H3 H4).
Defined.

Lemma X5_path_missing_witness :
  (32%N ∉ lit "GARBAGE") /\ get_http_path (lit "GARBAGE") = Raise IndexError.
Proof.
  assert (32%N ∉ lit "GARBAGE") as Hnot
    by (intros H%list_elem_of_In; vm_compute in H; intuition discriminate).
  split; [exact Hnot|].
  destruct (X5_path_missing_iff_no_space (lit "GARBAGE"))
    as (line & later & Hsplit & Hno & _).
  vm_compute in Hsplit. injection Hsplit as <- _.
  exact (Hno Hnot).
Defined.

Lemma X6_body_of_first_read_witness :
  let sep := CRLF ++ CRLF in
  let head := Demo.classify_head 5 in
  Str.contains sep (lit "GARBAGE") = false /\
  get_http_body (lit "GARBAGE") = Raise IndexError /\
  Str.find sep (head ++ sep) = len head /\
  Str.contains sep (lit "hello") = false /\
  get_http_body (head ++ sep ++ lit "hello") = Ret (lit "hello").
Proof.
  intros sep head.
  destruct (X6_body_of_first_read (lit "GARBAGE") head (lit "hello"))
    as [Hnone Hsome].
  split; [reflexivity|]. split; [exact (Hnone eq_refl)|].
  split; [reflexivity|]. split; [reflexivity|].
  exact (proj1 (proj2 (Hsome eq_refl)) eq_refl).
Defined.

Lemma X7_declared_length_witness :
  let pre := lit "POST /classify HTTP/1.1" ++ CRLF in
  let request :=
    pre ++ lit "Content-Length" ++ [] ++ [58%N] ++ lit " "
    ++ fmt_d (Z.of_nat 11) ++ CRLF ++ CRLF in
  (45%N ∉ pre) /\
  last pre = Some 10%N /\
  map lower (lit "Content-Length") = lit "content-length" /\
  (length (fmt_d (Z.of_nat 11)) <= default_max_str_digits)%nat /\
  get_http_contlength request = Z.of_nat 11 /\
  is_ascii request = true /\
  0 <= get_http_contlength request.
Proof.
  intros pre request.
  assert (45%N ∉ pre) as Hnot
    by (intros H%list_elem_of_In; vm_compute in H; intuition discriminate).
  assert (length (fmt_d (Z.of_nat 11)) <= default_max_str_digits)%nat
    as Hlen by (vm_compute; lia).
  assert (forall ds, search_contlength request = Some ds ->
                     (length ds <= default_max_str_digits)%nat) as Hdigits.
  { intros ds Hds. vm_compute in Hds. injection Hds as <-.
    unfold default_max_str_digits. simpl. lia. }
  split; [exact Hnot|]. split; [reflexivity|]. split; [reflexivity|].
  split; [exact Hlen|]. split.
  - exact (proj2 (X7_declared_length pre (lit "Content-Length") [] (lit " ")
                    (CRLF ++ CRLF) 11)
             Hnot (or_intror eq_refl) eq_refl eq_refl eq_refl Hlen eq_refl).
  - split; [reflexivity|].
    exact (proj1 (X7_declared_length [] [] [] [] [] 0) request eq_refl
             Hdigits).
Defined.

Lemma X8_no_read_witness :
  let data := Demo.classify_head 3 ++ CRLF ++ CRLF ++ lit "hello" in
  get_http_body data = Ret (lit "hello") /\
  3 <= len (lit "hello") /\
  recvall_body Demo.unquote 5%nat data 3 (Demo.world [blit "more"] false)
  = (Ret (Demo.unquote (lit "hello")), Demo.world [blit "more"] false).
Proof.
  intros data.
  assert (3 <= len (lit "hello")) as Hlen by (vm_compute; discriminate).
  split; [reflexivity|]. split; [exact Hlen|].
  exact (X8_no_read_for_a_complete_body Demo.unquote 5%nat data 3
           (lit "hello") (Demo.world [blit "more"] false) eq_refl Hlen).
Defined.

Lemma X9_short_body_witness :
  let data := Demo.classify_head 5 ++ CRLF ++ CRLF ++ lit "he" in
  get_http_body data = Ret (lit "he") /\
  len (lit "he" ++ concat [lit "l"]) < 5 /\
  fst (recvall_body Demo.unquote 5%nat data 5 (Demo.world [blit "l"] false))
  = Diverge.
Proof.
  intros data.
  assert (len (lit "he" ++ concat [lit "l"]) < 5) as Hlen by reflexivity.
  split; [reflexivity|]. split; [exact Hlen|].
  refine (X9_short_body_never_returns Demo.unquote 5%nat data 5 (lit "he")
            [lit "l"] (Demo.world [blit "l"] false)
            (mkSocket [blit "l"] false [] false) eq_refl eq_refl _ Hlen).
  repeat constructor.
Defined.

Lemma X10_get_missing_witness :
  let w := Site.world [Site.get (lit "/missing.png")] in
  recv 5%nat w = (Ret (Site.get (lit "/missing.png")), Site.world []) /\
  get_http_path (text_of (Site.get (lit "/missing.png")))
    = Ret (lit "/missing.png") /\
  Site.fs (fst (parse_and_sanitize Demo.module_file (lit "/missing.png")))
    = None /\
  exists w',
    handle_request Demo.repr Demo.unquote Demo.module_file 5%nat w
      = (Ret tt, w') /\
    w_socks w' !! 5%nat = Some (mkSocket [] false [HTTP_404] false).
Proof.
  intros w.
  split; [reflexivity|]. split; [reflexivity|]. split; [reflexivity|].
  destruct (X10_get_missing_is_404 Demo.repr Demo.unquote Demo.module_file
              5%nat w (Site.get (lit "/missing.png")) (Site.world [])
              (text_of (Site.get (lit "/missing.png"))) (lit "/missing.png")
              (mkSocket [] false [] false)
              eq_refl ltac:(discriminate) eq_refl eq_refl eq_refl eq_refl
              eq_refl eq_refl)
    as (w' & Hrun & Hsocks & _).
  exists w'. split; [exact Hrun|]. rewrite Hsocks. reflexivity.
Defined.


Lemma X12_get_directory_witness :
  let w := Site.world [Site.get (lit "/js")] in
  recv 5%nat w = (Ret (Site.get (lit "/js")), Site.world []) /\
  Site.fs (fst (parse_and_sanitize Demo.module_file (lit "/js")))
    = Some (FsDir [lit "app.js"]) /\
  exists w',
    handle_request Demo.repr Demo.unquote Demo.module_file 5%nat w
      = (Raise OSError, w') /\
    w_socks w' = w_socks (Site.world []).
Proof.
  intros w.
  split; [reflexivity|]. split; [reflexivity|].
  exact (X12_get_directory_raises Demo.repr Demo.unquote Demo.module_file
           5%nat w (Site.get (lit "/js")) (Site.world [])
           (text_of (Site.get (lit "/js"))) (lit "/js") [lit "app.js"]
           eq_refl ltac:(discriminate) eq_refl eq_refl eq_refl eq_refl).
Defined.

Lemma X13_ack_witness :
  w_socks (Demo.world [] false) !! 5%nat = Some (mkSocket [] false [] false) /\
  w_socks (Demo.world [] false) !! 9%nat = None /\
  (exists w',
     do_ack 5%nat (Demo.world [] false) = (Ret tt, w') /\
     w_log w' = [(Info, lit "sending ACK back to client...")]) /\
  do_ack 9%nat (Demo.world [] false) = (Raise OSError, Demo.world [] false).
Proof.
  split; [reflexivity|]. split; [reflexivity|]. split.
  - destruct (proj1 (X13_ack_is_a_bare_header 5%nat (Demo.world [] false))
                (mkSocket [] false [] false) eq_refl eq_refl)
      as (w' & Hrun & _ & Hlog).
    exists w'. split; [exact Hrun|exact Hlog].
  - exact (proj2 (X13_ack_is_a_bare_header 9%nat (Demo.world [] false))
             eq_refl).
Defined.

Lemma X14_classify_lets_through_witness :
  do_classify Demo.repr 5%nat (lit "doc")
    (Site.world_with (Some Site.interrupted) None)
  = (Raise KeyboardInterrupt,
     snd (print Show ([9%N] ++ lit "doc[...]")
            (Site.world_with (Some Site.interrupted) None))) /\
  is_Exception KeyboardInterrupt = false.
Proof.
  assert (do_classify Demo.repr 5%nat (lit "doc")
            (Site.world_with (Some Site.interrupted) None)
          = (Raise KeyboardInterrupt,
             snd (print Show ([9%N] ++ lit "doc[...]")
                    (Site.world_with (Some Site.interrupted) None)))) as Hrun
    by reflexivity.
  split; [exact Hrun|].
  exact (X14_classify_lets_no_Exception_through Demo.repr 5%nat (lit "doc")
           _ _ _ Hrun).
Defined.

Lemma X15_classify_interrupt_witness :
  classify_json Site.interrupted (lit "doc") = Raise KeyboardInterrupt /\
  exists w',
    do_classify Demo.repr 5%nat (lit "doc")
      (Site.world_with (Some Site.interrupted) None)
    = (Raise KeyboardInterrupt, w') /\
    w_socks w' = w_socks (Site.world_with (Some Site.interrupted) None).
Proof.
  split; [reflexivity|].
  destruct (X15_classify_interrupt_propagates Demo.repr 5%nat (lit "doc")
              (Site.world_with (Some Site.interrupted) None)
              Site.interrupted KeyboardInterrupt eq_refl eq_refl eq_refl)
    as (w' & Hrun & Hsocks & _).
  exists w'. split; [exact Hrun|exact Hsocks].
Defined.


Lemma X17_without_a_model_witness :
  w_clf (Site.world_with None None) = None /\
  (exists w', do_classify Demo.repr 5%nat (lit "a")
                (Site.world_with None None) = (Ret tt, w')) /\
  do_get_info Demo.repr 5%nat (Site.world_with None None)
  = (Raise AttributeError, Site.world_with None None).
Proof.
  split; [reflexivity|].
  destruct (X17_operations_without_a_model Demo.repr 5%nat (lit "a")
              (Site.world_with None None) eq_refl)
    as [(w' & msg & Hrun & _) Hinfo].
  split; [by exists w'|exact Hinfo].
Defined.

Lemma X18_x_test_locator_witness :
  let w := Site.world_with (Some Demo.clf) (Some [lit "a"; lit "b"]) in
  [lit "a"; lit "b"] !! 1%nat = Some (lit "b") /\
  do_get_doc Demo.repr 5%nat (lit ":x_test:" ++ fmt_d (Z.of_nat 1)) w
  = bind (send_as_json Demo.repr 5%nat
            (JDict [(KStr (lit "content"), JStr (lit "b"))]))
      (fun _ => print Info (lit "sending document content...")) w.
Proof.
  intros w. split; [reflexivity|].
  exact (X18_x_test_locator_resolves Demo.repr 5%nat 1 w [lit "a"; lit "b"]
           (lit "b") eq_refl eq_refl).
Defined.


Lemma X20_x_test_without_documents_witness :
  let w := Site.world_with (Some Demo.clf) None in
  Str.contains (lit ":line:") (lit ":x_test:seven") = false /\
  Str.contains (lit ":x_test:") (lit ":x_test:seven") = true /\
  do_get_doc Demo.repr 5%nat (lit ":x_test:seven") w
  = bind (send_as_json Demo.repr 5%nat
            (JDict [(KStr (lit "content"), JStr [])]))
      (fun _ => print Info (lit "sending document content...")) w.
Proof.
  intros w. split; [reflexivity|]. split; [reflexivity|].
  exact (X20_x_test_without_documents Demo.repr 5%nat (lit ":x_test:seven")
           w eq_refl eq_refl (or_introl eq_refl)).
Defined.


Lemma X22_set_testset_on_return_witness :
  let w := Site.world_with (Some Demo.clf) None in
  let x_test := [lit "a"; lit "b"] in
  let y_test := [lit "odd"; lit "even"; lit "other"] in
  exists w',
    set_testset Demo.truthy x_test y_test w = (Ret true, w') /\
    w_x_test w' = Some x_test /\
    is_Some (w_docs w' !! lit "other").
Proof.
  intros w x_test y_test.
  exists (snd (set_testset Demo.truthy x_test y_test w)).
  assert (set_testset Demo.truthy x_test y_test w
          = (Ret true, snd (set_testset Demo.truthy x_test y_test w)))
    as Hrun by (vm_compute; reflexivity).
  destruct (X22_set_testset_on_return Demo.truthy x_test y_test w true _ Hrun)
    as (_ & Hx & Hkeys & _).
  split; [exact Hrun|]. split; [exact Hx|].
  apply Hkeys. apply list_elem_of_In. vm_compute. tauto.
Defined.

Lemma X23_stored_locator_witness :
  let w := Site.world_with (Some Demo.clf) None in
  let x_test := [lit "a"; lit "b"] in
  let y_test := [lit "odd"; lit "even"] in
  let w' := snd (set_testset Demo.truthy x_test y_test w) in
  set_testset Demo.truthy x_test y_test w = (Ret true, w') /\
  w_docs w' !! lit "even"
    = Some (mkDocEntry [lit ":x_test:1"] [lit "doc_1"] [0]) /\
  exists (idoc : nat) doc,
    x_test !! idoc = Some doc /\
    y_test !! idoc = Some (lit "even") /\
    do_get_doc Demo.repr 5%nat (lit ":x_test:1") w'
    = bind (send_as_json Demo.repr 5%nat
              (JDict [(KStr (lit "content"), JStr doc)]))
        (fun _ => print Info (lit "sending document content...")) w'.
Proof.
  intros w x_test y_test w'.
  assert (set_testset Demo.truthy x_test y_test w = (Ret true, w')) as Hrun
    by (vm_compute; reflexivity).
  assert (w_docs w' !! lit "even"
          = Some (mkDocEntry [lit ":x_test:1"] [lit "doc_1"] [0])) as He
    by (vm_compute; reflexivity).
  split; [exact Hrun|]. split; [exact He|].
  exact (X23_stored_locator_round_trip Demo.repr Demo.truthy 5%nat x_test
           y_test w true w' Demo.clf (lit "even") _ 0%nat (lit ":x_test:1")
           eq_refl Hrun He eq_refl).
Defined.

Lemma X24_from_files_without_directory_witness :
  let w := Site.world_with (Some Demo.clf) (Some [lit "a"]) in
  os_path (lit "/nowhere") = true /\
  w_fs w (lit "/nowhere") = None /\
  exists w',
    set_testset_from_files Demo.truthy (lit "/nowhere") true w
      = (Raise OSError, w') /\
    w_x_test w' = None.
Proof.
  intros w. split; [reflexivity|]. split; [reflexivity|].
  destruct (X24_from_files_without_directory Demo.truthy (lit "/nowhere")
              true w Demo.clf eq_refl eq_refl I) as (w' & Hrun & _ & Hx & _).
  exists w'. split; [exact Hrun|exact Hx].
Defined.

Lemma X25_from_files_empty_directory_witness :
  let w := mkWorld (Some Demo.clf) ∅ None None 0 ∅ []
             (fun p => if bool_decide (p = lit "/empty")
                       then Some (FsDir []) else None)
             [] (fun _ => Raise OSError) [] in
  w_fs w (lit "/empty") = Some (FsDir []) /\
  exists w',
    set_testset_from_files Demo.truthy (lit "/empty") false w
      = (Ret false, w') /\
    w_docs w' = ∅.
Proof.
  intros w. split; [reflexivity|].
  destruct (X25_from_files_empty_directory Demo.truthy (lit "/empty")
              false w Demo.clf eq_refl eq_refl) as (w' & Hrun & Hdocs & _).
  exists w'. split; [exact Hrun|exact Hdocs].
Defined.

Lemma X26_folder_mode_categories_witness :
  let w := Site.world_with (Some Demo.clf) None in
  let w' := snd (set_testset_from_files Demo.truthy (lit "/corpus") true w) in
  set_testset_from_files Demo.truthy (lit "/corpus") true w = (Ret true, w') /\
  w_docs w' !! lit "notes.txt" = None /\
  is_Some (w_docs w' !! lit "a").
Proof.
  intros w w'.
  assert (set_testset_from_files Demo.truthy (lit "/corpus") true w
          = (Ret true, w')) as Hrun by (vm_compute; reflexivity).
  destruct (X26_folder_mode_categories Demo.truthy (lit "/corpus") w true w'
              Hrun) as (names & Hdir & Hkeys & _).
  injection Hdir as <-.
  split; [exact Hrun|]. split.
  - apply eq_None_not_Some. intros (_ & files & Hfiles)%Hkeys.
    discriminate Hfiles.
  - apply Hkeys. split; [|by eexists].
    apply list_elem_of_In. vm_compute. tauto.
Defined.

Lemma X27_serve_needs_a_model_witness :
  w_clf (Site.fresh None) = None /\
  exists w',
    serve Demo.repr Demo.truthy Demo.unquote Demo.module_file None None None
          0 true [] (Site.fresh None) = (Ret tt, w') /\
    w_server_socket w' = None /\ w_browser w' = [].
Proof.
  split; [reflexivity|].
  destruct (X27_serve_needs_a_model Demo.repr Demo.truthy Demo.unquote
              Demo.module_file None None 0 true [] (Site.fresh None) eq_refl)
    as (w' & Hrun & _ & Hss & _ & Hbr).
  exists w'. split; [exact Hrun|]. split; [exact Hss|exact Hbr].
Defined.

Lemma X28_serve_keeps_the_socket_witness :
  w_server_socket (Demo.world_listening []) = Some 3%nat /\
  serve Demo.repr Demo.truthy Demo.unquote Demo.module_file None None None
        8080 false [Interrupt] (Demo.world_listening [])
  = serve Demo.repr Demo.truthy Demo.unquote Demo.module_file None None None
          9090 false [Interrupt] (Demo.world_listening []).
Proof.
  split; [reflexivity|].
  exact (X28_serve_keeps_the_listening_socket Demo.repr Demo.truthy
           Demo.unquote Demo.module_file None None None 8080 9090 false
           [Interrupt] (Demo.world_listening []) 3%nat eq_refl).
Defined.

Lemma X29_start_listening_witness :
  w_bind (Site.fresh None) 0 = Ret (4%nat, 49152) /\
  exists w',
    start_listening 0 (Site.fresh None) = (Ret 49152, w') /\
    get_port w' = (Ret 49152, w') /\
    w_server_socket w' = Some 4%nat.
Proof.
  split; [reflexivity|].
  destruct (proj1 (X29_start_listening_reports_the_port 0 (Site.fresh None))
              4%nat 49152 eq_refl) as (w' & Hrun & Hport & Hss & _).
  exists w'. split; [exact Hrun|]. split; [exact Hport|exact Hss].
Defined.
